(** * Feedback classification and insight aggregation: a shallow embedding

    The development follows the TypeScript sources of the worker:

    - [Js]: the fragment of the JavaScript runtime the code relies on
      (strings, truthiness, plain objects used as counters, insertion-ordered
      [Map]s, the stable [Array.prototype.sort]);
    - [Worker]: [src/index.ts] (the classifier, [POST /ingest],
      [GET /api/stats], and the helpers for query strings, credentials,
      markup and [listFeedback]);
    - [Utils]: the helper module ([isValidSlackWebhook], [truncate],
      [formatTimeDiff], [getTopItems], [retryAsync]);
    - [Scheduled]: [scheduled-handler.ts] ([handleScheduled]);
    - [Workflow]: the [DailyAnalysisWorkflow] class;
    - [Config]: [config.ts] (the workflow table, its cron matcher and
      [fetchFilteredFeedback]).

    Strings are sequences of code units below 256 (the Latin-1 fragment of
    UTF-16); on that fragment [toLowerCase], [trim] and the regular
    expression classes used by the code are modelled exactly. *)

From Stdlib Require Import ZArith List Ascii String Bool Lia.
From Stdlib Require Import Sorting.Sorted.
From Stdlib Require QArith Qround.
From stdpp Require Import gmap strings list pretty.

Local Open Scope string_scope.
#[local] Set Warnings "-register-all".

(* ===================================================================== *)
(** * The JavaScript fragment                                             *)
(* ===================================================================== *)

Module Js.

(** ** Characters *)

Definition code (c : ascii) : nat := nat_of_ascii c.

Definition between (lo hi n : nat) : bool := (lo <=? n)%nat && (n <=? hi)%nat.

(** [a-z] *)
Definition is_lower (c : ascii) : bool := between 97 122 (code c).

(** [\w] is [A-Za-z0-9_]. *)
Definition is_word (c : ascii) : bool :=
  let n := code c in
  between 97 122 n || between 65 90 n || between 48 57 n || (n =? 95)%nat.

(** White space and line terminators below 256: TAB, LF, VT, FF, CR, SP
    and NBSP. *)
Definition is_space (c : ascii) : bool :=
  let n := code c in between 9 13 n || (n =? 32)%nat || (n =? 160)%nat.

(** Upper-case letters below 256: A-Z, and U+00C0..U+00DE but U+00D7. *)
Definition is_upper (c : ascii) : bool :=
  let n := code c in
  between 65 90 n || (between 192 222 n && negb (n =? 215)%nat).

Definition lower_char (c : ascii) : ascii :=
  if is_upper c then ascii_of_nat (code c + 32) else c.

(** ** Strings *)

Fixpoint toLowerCase (s : string) : string :=
  match s with
  | EmptyString => EmptyString
  | String c s' => String (lower_char c) (toLowerCase s')
  end.

(** [s.startsWith(p)] *)
Definition startsWith (s p : string) : bool := String.prefix p s.

(** [s.includes(w)] *)
Fixpoint includes (s w : string) : bool :=
  startsWith s w ||
  match s with
  | EmptyString => false
  | String _ s' => includes s' w
  end.

(** [s.slice(0, n)] and [s.substring(0, n)] for a literal [n >= 0]. *)
Fixpoint slice0 (n : nat) (s : string) : string :=
  match n, s with
  | S k, String c s' => String c (slice0 k s')
  | _, _ => EmptyString
  end.

Fixpoint trimStart (s : string) : string :=
  match s with
  | String c s' => if is_space c then trimStart s' else s
  | EmptyString => EmptyString
  end.

(** [trimEnd], right to left: a space is dropped when nothing but spaces
    follows it. *)
Fixpoint trimEnd (s : string) : string :=
  match s with
  | EmptyString => EmptyString
  | String c s' =>
      match trimEnd s' with
      | EmptyString => if is_space c then EmptyString else String c EmptyString
      | t => String c t
      end
  end.

Definition trim (s : string) : string := trimEnd (trimStart s).

(** A string is truthy when it is not empty. *)
Definition nonempty (s : string) : bool :=
  match s with EmptyString => false | _ => true end.

(** [x || d] for [x : string | null]. *)
Definition or_else (x : option string) (d : string) : string :=
  match x with
  | Some s => if nonempty s then s else d
  | None => d
  end.

(** [arr.some(w => s.includes(w))] *)
Definition includes_some (s : string) (ws : list string) : bool :=
  existsb (includes s) ws.

(** [s.split(sep)] for a one-character separator. *)
Fixpoint split_on (sep : ascii) (s : string) : list string :=
  match s with
  | EmptyString => [EmptyString]
  | String c s' =>
      if Ascii.eqb c sep then EmptyString :: split_on sep s'
      else match split_on sep s' with
           | h :: t => String c h :: t
           | [] => [String c EmptyString]
           end
  end.

(** [s.indexOf(c)] and [s.lastIndexOf(c)] for a one-character needle;
    [None] is -1. *)
Fixpoint indexOf (c : ascii) (s : string) : option nat :=
  match s with
  | EmptyString => None
  | String d s' => if Ascii.eqb d c then Some 0 else S <$> indexOf c s'
  end.

Fixpoint lastIndexOf (c : ascii) (s : string) : option nat :=
  match s with
  | EmptyString => None
  | String d s' =>
      match lastIndexOf c s' with
      | Some i => Some (S i)
      | None => if Ascii.eqb d c then Some 0 else None
      end
  end.

(** [s.slice(from, to)] for [0 <= from], [0 <= to]. *)
Definition slice (from to : nat) (s : string) : string :=
  String.substring from (to - from) s.

(** ** Values of type [unknown]

    What [JSON.parse], [request.json()] and the inference binding hand
    back.  A number is kept as its [String(n)] rendering, which is all
    the code ever asks of one. *)

Inductive value :=
| VUndefined
| VNull
| VBool (b : bool)
| VNumber (rendering : string)
| VString (s : string)
| VArray (items : list value)
| VObject (props : list (string * value)).

(** [String(v)]; an array joins its elements with commas, [undefined]
    and [null] elements giving the empty string. *)
Fixpoint String_ (v : value) : string :=
  match v with
  | VUndefined => "undefined"
  | VNull => "null"
  | VBool true => "true"
  | VBool false => "false"
  | VNumber r => r
  | VString s => s
  | VArray items =>
      (fix join (l : list value) : string :=
         match l with
         | [] => ""
         | x :: l' =>
             let e := match x with
                      | VUndefined | VNull => ""
                      | _ => String_ x
                      end in
             match l' with
             | [] => e
             | _ => e ++ "," ++ join l'
             end
         end) items
  | VObject _ => "[object Object]"
  end.

(** Truthiness: [!!v]. *)
Definition truthy (v : value) : bool :=
  match v with
  | VUndefined | VNull => false
  | VBool b => b
  | VNumber r => negb (String.eqb r "0" || String.eqb r "NaN")
  | VString s => nonempty s
  | VArray _ | VObject _ => true
  end.

Definition nullish (v : value) : bool :=
  match v with VUndefined | VNull => true | _ => false end.

(** [a ?? b] *)
Definition coalesce (a b : value) : value := if nullish a then b else a.

(** [a || b] *)
Definition or_ (a b : value) : value := if truthy a then a else b.

Fixpoint assoc {V} (k : string) (l : list (string * V)) : option V :=
  match l with
  | [] => None
  | (k', v) :: l' => if String.eqb k' k then Some v else assoc k l'
  end.

(** [v[k]] for a [v] that is neither [undefined] nor [null], at a key
    that no prototype in the chain defines (every key the code reads from
    an [unknown] is of that kind): an own property, else [undefined]. *)
Definition prop (v : value) (k : string) : value :=
  match v with
  | VObject props => default VUndefined (assoc k props)
  | _ => VUndefined
  end.

(** [v?.k] *)
Definition opt_prop (v : value) (k : string) : value :=
  if nullish v then VUndefined else prop v k.

(** ** Plain objects used as counters

    [stats.byX[k] = (stats.byX[k] || 0) + 1] on an object created by [{}].
    The own properties are a finite map. A read of a key the object does
    not own continues to [Object.prototype]; a write to ["__proto__"] goes
    to the inherited setter, which ignores a value that is neither an
    object nor [null]. *)

Inductive cell :=
| Count (n : nat)       (* a number *)
| Text (s : string).    (* a string, the result of [object + 1] *)

(** The members of [Object.prototype], each with the string its value
    converts to under [+]. *)
Definition Object_prototype : list (string * string) :=
  [ ("constructor", "function Object() { [native code] }");
    ("__defineGetter__", "function __defineGetter__() { [native code] }");
    ("__defineSetter__", "function __defineSetter__() { [native code] }");
    ("hasOwnProperty", "function hasOwnProperty() { [native code] }");
    ("__lookupGetter__", "function __lookupGetter__() { [native code] }");
    ("__lookupSetter__", "function __lookupSetter__() { [native code] }");
    ("isPrototypeOf", "function isPrototypeOf() { [native code] }");
    ("propertyIsEnumerable", "function propertyIsEnumerable() { [native code] }");
    ("toString", "function toString() { [native code] }");
    ("valueOf", "function valueOf() { [native code] }");
    ("__proto__", "[object Object]");
    ("toLocaleString", "function toLocaleString() { [native code] }") ].

(** A key no member of [Object.prototype] is named after. *)
Definition plain_key (k : string) : bool :=
  match assoc k Object_prototype with Some _ => false | None => true end.

(** [(o[k] || 0) + 1] *)
Definition next_cell (o : gmap string cell) (k : string) : cell :=
  match o !! k with
  | Some (Count n) => Count (n + 1)
  | Some (Text s) => if nonempty s then Text (s ++ "1") else Count 1
  | None =>
      match assoc k Object_prototype with
      | Some inherited => Text (inherited ++ "1")
      | None => Count 1
      end
  end.

(** [o[k] = v] for a primitive [v]. *)
Definition assign (o : gmap string cell) (k : string) (v : cell) : gmap string cell :=
  if String.eqb k "__proto__" then o else <[k := v]> o.

(** [o[k] = (o[k] || 0) + 1] *)
Definition bump (o : gmap string cell) (k : string) : gmap string cell :=
  assign o k (next_cell o k).

(** [o.k || 0] at a plain key. *)
Definition count_or_zero (o : gmap string cell) (k : string) : cell :=
  match o !! k with
  | Some (Text s) => if nonempty s then Text s else Count 0
  | Some (Count n) => Count n
  | None => Count 0
  end.

(** [Object.values(o)] summed; [None] as soon as a value is not a
    number. *)
Definition add_cell (c : cell) (acc : option nat) : option nat :=
  match c, acc with
  | Count n, Some a => Some (n + a)
  | _, _ => None
  end.

Definition sum_values (o : gmap string cell) : option nat :=
  map_fold (fun _ => add_cell) (Some 0) o.

(** ** [Map<string, V>]: entries in insertion order *)

Fixpoint map_get {V} (m : list (string * V)) (k : string) : option V :=
  match m with
  | [] => None
  | (k', v) :: m' => if String.eqb k' k then Some v else map_get m' k
  end.

(** [m.set(k, v)]: an existing key keeps its place, a new one goes last. *)
Fixpoint map_set {V} (m : list (string * V)) (k : string) (v : V) : list (string * V) :=
  match m with
  | [] => [(k, v)]
  | (k', v') :: m' =>
      if String.eqb k' k then (k', v) :: m' else (k', v') :: map_set m' k v
  end.

(** ** [arr.sort((a, b) => b.count - a.count)]

    The sort is stable: the result is ordered by decreasing count and
    elements of equal count keep their order. *)

Section Sort.
Context {A : Type} (count : A -> nat).

(** [x] goes in front of the first element whose count does not exceed
    its own. *)
Fixpoint insert_desc (x : A) (l : list A) : list A :=
  match l with
  | [] => [x]
  | y :: l' =>
      if (count x <? count y)%nat then y :: insert_desc x l' else x :: y :: l'
  end.

Definition sort_desc (l : list A) : list A := fold_right insert_desc [] l.

End Sort.

(** ** Numbers

    A number is NaN, an infinity or a finite value; a finite double is a
    rational, and the operations below are exact on doubles ([%] and
    [Math.floor] never round). The sign of zero is not kept: no operation
    used here tells the two zeros apart. *)

Inductive number :=
| NaN
| Infinity (negative : bool)
| Finite (q : QArith_base.Q).

Definition of_Z (z : Z) : number := Finite (QArith_base.inject_Z z).

(** [Math.floor] of a finite number. *)
Definition floor (q : QArith_base.Q) : Z := Qround.Qfloor q.

(** Rounding toward zero. *)
Definition truncate_ (q : QArith_base.Q) : Z :=
  Z.quot (QArith_base.Qnum q) (Zpos (QArith_base.Qden q)).

(** [a === b] *)
Definition strict_eq (a b : number) : bool :=
  match a, b with
  | Finite p, Finite q => QArith_base.Qeq_bool p q
  | Infinity s, Infinity s' => Bool.eqb s s'
  | _, _ => false
  end.

(** [a <= b] *)
Definition le (a b : number) : bool :=
  match a, b with
  | NaN, _ | _, NaN => false
  | Finite p, Finite q => QArith_base.Qle_bool p q
  | Infinity true, _ => true
  | _, Infinity false => true
  | _, _ => false
  end.

(** [a % b] *)
Definition rem (a b : number) : number :=
  match a, b with
  | Finite p, Finite q =>
      if QArith_base.Qeq_bool q (QArith_base.inject_Z 0) then NaN
      else Finite (QArith_base.Qminus p
                     (QArith_base.Qmult q
                        (QArith_base.inject_Z (truncate_ (QArith_base.Qdiv p q)))))
  | Finite p, Infinity _ => Finite p
  | _, _ => NaN
  end.

(** ** Calls that may throw, and the record of what a run did *)

Inductive outcome (A : Type) :=
| Returned (a : A)
| Thrown (e : string).
Arguments Returned {A} a.
Arguments Thrown {A} e.

End Js.

(* ===================================================================== *)
(** * Records, collaborators and runs                                     *)
(* ===================================================================== *)

(** A row of the [feedback] table ([FeedbackRecord], [ProcessedFeedback]):
    the five labels are nullable columns. *)
Record Feedback := {
  id_ : string;
  source : string;
  raw_text : string;
  sentiment : option string;
  priority : option string;
  category : option string;
  summary : option string;
  priority_reason : option string;
  created_at : string
}.

(** An entry of [topIssues]. *)
Record Issue := {
  issue : string;
  count : nat;
  issue_sentiment : string
}.

(** The blocks of the Slack message. Each constructor stands for one
    object literal of [sendToSlack]; its arguments are the values the
    template literals interpolate. *)
Inductive block :=
| Header                                         (* "Daily Feedback Analysis" *)
| Metrics (total : nat) (negative p0 p1 : Js.cell)
                                                 (* the four mrkdwn fields *)
| Divider
| TopIssues (shown : list (string * nat))        (* one "issue (Nx)" line each *)
| Recommended (shown : list string)              (* one bullet each *)
| UrgentHeader (n : nat)                         (* "Urgent Items (N):" *)
| UrgentItem (prio : option string) (text src created : string)
                                                 (* "[prio] text / src, date" *)
| Actions (url : string).                        (* the "View Dashboard" button *)

(** The body of a POST to the webhook. *)
Inductive body :=
| Blocks (blocks : list block)        (* [sendToSlack] *)
| ErrorNotice (error : string).       (* [notifyError] *)

Record Response := { ok : bool; status : nat }.

(** The parts of a parsed [URL] the code reads. *)
Record URL := { hostname : string; pathname : string; origin : string }.

(** A row of [analysis_logs]. *)
Record LogRow := {
  timestamp : string;
  total_feedback : nat;
  negative_count : Js.cell;
  p0_count : Js.cell;
  p1_count : Js.cell;
  data : string
}.

(** What a run asks of its collaborators, in order. *)
Inductive event :=
| SelectRecent (since : string)                 (* the 24-hour query *)
| AiRun (model : string) (inputs : list string) (* the values put in the prompt *)
| Post (url : string) (b : body)                (* [fetch(url, {method: "POST"})] *)
| InsertFeedback (r : Feedback)
| InsertLog (row : LogRow).

(** The bindings of [Env] and what the collaborators answer. Every
    collaborator is called at most once in a run (the one [fetch] of
    [notifyError] happens only when the query threw, before any other),
    so one answer each covers all their behaviours. Writes to the console
    are not recorded. *)
Record World := {
  AI : option (Js.outcome Js.value);   (* the binding, with what its [run] does *)
  USE_MOCK_AI : option string;
  SLACK_WEBHOOK_URL : option string;
  now_iso : string;                    (* [new Date().toISOString()] *)
  yesterday_iso : string;              (* the same, 24 hours earlier *)
  uuid : string;                       (* [crypto.randomUUID()] *)
  select_answer : Js.outcome (option (list Feedback));
                                       (* [{ results }] of [.all()] *)
  insert_answer : Js.outcome unit;     (* [.run()] of an INSERT *)
  fetch_answer : Js.outcome Response
}.

(** [x] is configured: an optional string binding is truthy. *)
Definition configured (x : option string) : bool :=
  match x with Some s => Js.nonempty s | None => false end.

(** ** Runs

    A computation threads the list of events so far and either returns
    or throws. *)

Definition M (A : Type) : Type := list event -> Js.outcome A * list event.

#[global] Instance M_ret : MRet M := fun A a t => (Js.Returned a, t).

#[global] Instance M_bind : MBind M := fun A B f m t =>
  match m t with
  | (Js.Returned a, t') => f a t'
  | (Js.Thrown e, t') => (Js.Thrown e, t')
  end.

Definition throw {A} (e : string) : M A := fun t => (Js.Thrown e, t).

(** [try { m } catch (error) { h error }] *)
Definition try_catch {A} (m : M A) (h : string -> M A) : M A := fun t =>
  match m t with
  | (Js.Thrown e, t') => h e t'
  | r => r
  end.

(** [await] a collaborator: the call is recorded, its answer returned or
    thrown. *)
Definition call {A} (ev : event) (answer : Js.outcome A) : M A :=
  fun t => (answer, (t ++ [ev])%list).

(** A run from the start: nothing has happened yet. *)
Definition start {A} (m : M A) : Js.outcome A * list event := m [].

(** The webhook posts of a trace, and the rows it handed to the INSERT
    into [analysis_logs] and to the INSERT into [feedback]. *)
Definition posts (t : list event) : list (string * body) :=
  omap (fun ev => match ev with Post u b => Some (u, b) | _ => None end) t.

Definition log_rows (t : list event) : list LogRow :=
  omap (fun ev => match ev with InsertLog r => Some r | _ => None end) t.

Definition stored (t : list event) : list Feedback :=
  omap (fun ev => match ev with InsertFeedback r => Some r | _ => None end) t.

(* ===================================================================== *)
(** * src/index.ts: taxonomy and the heuristic classifier                 *)
(* ===================================================================== *)

Module Worker.

Definition PRIORITIES : list string := ["P0"; "P1"; "P2"; "P3"].
Definition SENTIMENTS : list string := ["negative"; "neutral"; "positive"].

(** The object literal [mockAiInference] returns: all five keys hold
    strings. *)
Record MockLabels := {
  mock_sentiment : string;
  mock_priority : string;
  mock_category : string;
  mock_summary : string;
  mock_priority_reason : string
}.

Definition negativeWords : list string :=
  ["crash"; "fail"; "error"; "bug"; "slow"; "break"; "issue"; "problem"; "broken"].
Definition positiveWords : list string :=
  ["great"; "awesome"; "love"; "excellent"; "nice"; "good"].

Definition mock_sentiment_of (lowerText : string) : string :=
  if Js.includes_some lowerText negativeWords then "negative"
  else if Js.includes_some lowerText positiveWords then "positive"
  else "neutral".

(** The priority chain; it also sets a first category. *)
Definition mock_priority_of (lowerText : string) : string * string :=
  if Js.includes lowerText "outage" || Js.includes lowerText "down"
     || Js.includes lowerText "data loss" || Js.includes lowerText "security"
  then ("P0", if Js.includes lowerText "security" then "security" else "bug")
  else if Js.includes lowerText "crash" || Js.includes lowerText "blocked"
          || Js.includes lowerText "blocks all"
  then ("P1", "bug")
  else if Js.includes lowerText "slow"
  then ("P1", "performance")
  else if Js.includes lowerText "feature" || Js.includes lowerText "request"
          || Js.includes lowerText "like to"
  then ("P3", "feature_request")
  else ("P3", "other").

(** The four category overrides, applied in source order. *)
Definition mock_category_of (lowerText category : string) : string :=
  let category := if Js.includes lowerText "perform" then "performance" else category in
  let category := if Js.includes lowerText "doc" then "docs" else category in
  let category :=
    if Js.includes lowerText "billing" || Js.includes lowerText "payment"
    then "billing" else category in
  if Js.includes lowerText "ui" || Js.includes lowerText "ux" then "ux" else category.

Definition mockAiInference (text : string) : MockLabels :=
  let lowerText := Js.toLowerCase text in
  let sentiment := mock_sentiment_of lowerText in
  let '(priority, category0) := mock_priority_of lowerText in
  let category := mock_category_of lowerText category0 in
  {| mock_sentiment := sentiment;
     mock_priority := priority;
     mock_category := category;
     mock_summary := Js.slice0 120 text;
     mock_priority_reason :=
       priority ++ " priority due to " ++ sentiment ++ " sentiment and "
       ++ category ++ " issue" |}.

(** The object [mockAiInference] returns, as a value. *)
Definition labels_value (l : MockLabels) : Js.value :=
  Js.VObject
    [ ("sentiment", Js.VString (mock_sentiment l));
      ("priority", Js.VString (mock_priority l));
      ("category", Js.VString (mock_category l));
      ("summary", Js.VString (mock_summary l));
      ("priority_reason", Js.VString (mock_priority_reason l)) ].

(** ** Helpers *)

Definition sanitizeChoice (value : Js.value) (allowed : list string) : option string :=
  match value with
  | Js.VString s => if existsb (String.eqb s) allowed then Some s else None
  | _ => None
  end.

Definition sanitizeNullable (value : Js.value) : option string :=
  if Js.nullish value then None
  else let str := Js.trim (Js.String_ value) in
       if Js.nonempty str then Some str else None.

(** [typeof v === "string" && v.trim()] *)
Definition nonblank_string (v : Js.value) : option string :=
  match v with
  | Js.VString s => if Js.nonempty (Js.trim s) then Some s else None
  | _ => None
  end.

Fixpoint first_text (maybe : Js.value) (keys : list string) : option string :=
  match keys with
  | [] => None
  | key :: keys' =>
      match nonblank_string (Js.prop maybe key) with
      | Some s => Some s
      | None => first_text maybe keys'
      end
  end.

Definition pickAiText (response : Js.value) : option string :=
  if negb (Js.truthy response) then None
  else match response with
       | Js.VString s => Some s
       | Js.VObject _ | Js.VArray _ =>
           match first_text response ["response"; "result"; "text"; "output"; "content"] with
           | Some s => Some s
           | None =>
               match Js.prop response "messages" with
               | Js.VArray msgs =>
                   match last msgs with
                   | Some lastMsg =>
                       if Js.truthy lastMsg
                       then nonblank_string (Js.prop lastMsg "content")
                       else None
                   | None => None
                   end
               | _ => None
               end
           end
       | _ => None
       end.

Section Classifier.

(** [JSON.parse]; [None] when it throws. *)
Variable JSON_parse : string -> option Js.value.

(** [new Ai(binding)] of the [@cloudflare/ai] package: it throws, or
    gives a client whose [run] answers as recorded. *)
Variable new_Ai : option (Js.outcome Js.value) -> Js.outcome (Js.outcome Js.value).

Definition is_object (v : Js.value) : bool :=
  match v with Js.VObject _ | Js.VArray _ => true | _ => false end.

Definition safeParseAiJson (text : string) : option Js.value :=
  let trimmed := Js.trim text in
  match Js.indexOf "{" trimmed, Js.lastIndexOf "}" trimmed with
  | Some start, Some end_ =>
      if (end_ <=? start)%nat then None
      else match JSON_parse (Js.slice start (end_ + 1) trimmed) with
           | Some json => if Js.truthy json && is_object json then Some json else None
           | None => None
           end
  | _, _ => None
  end.

(** The [debug] argument only collects diagnostics for the response and
    is left out. *)
Definition inferFeedbackMetadata (w : World) (src text : string) : M (option Js.value) :=
  if negb (bool_decide (is_Some (AI w))) && negb (configured (USE_MOCK_AI w)) then mret None
  else if negb (Js.nonempty text) then mret None
  else if bool_decide (USE_MOCK_AI w = Some "true")
  then mret (Some (labels_value (mockAiInference text)))
  else
    ai ← (fun t => (new_Ai (AI w), t)) : M (Js.outcome Js.value);
    try_catch
      (response ← call (AiRun "@cf/meta/llama-3.1-8b-instruct" [src; text]) ai;
       match pickAiText response with
       | None => mret None
       | Some text' =>
           match safeParseAiJson text' with
           | None => mret None
           | Some parsed => mret (Some parsed)
           end
       end)
      (fun _ => mret None).

(** ** POST /ingest

    The model starts where the method and the token have been checked
    (both answer before anything is stored). [payload] is what
    [request.json()] gave, [None] when it threw. *)

Inductive Reply :=
| BadRequest (message : string)
| Stored (record : Feedback).

(** The [record] object: a field of the payload wins over the
    classifier's. *)
Definition build_record (w : World) (payload : Js.value) (src rawText : string)
    (labels : option Js.value) : Feedback :=
  let aiLabels := default Js.VNull labels in
  let field k := Js.coalesce (Js.prop payload k) (Js.opt_prop aiLabels k) in
  {| id_ := uuid w;
     source := src;
     raw_text := rawText;
     sentiment := sanitizeChoice (field "sentiment") SENTIMENTS;
     priority := sanitizeChoice (field "priority") PRIORITIES;
     category := sanitizeNullable (field "category");
     summary :=
       Some (Js.or_else (sanitizeNullable (field "summary")) (Js.slice0 120 rawText));
     priority_reason :=
       sanitizeNullable
         (Js.coalesce (field "priority_reason") (Js.opt_prop aiLabels "reason"));
     created_at :=
       default (now_iso w) (sanitizeNullable (Js.prop payload "created_at")) |}.

Definition ingest (w : World) (payload : option Js.value) : M Reply :=
  match payload with
  | None => mret (BadRequest "Invalid JSON payload")
  | Some payload =>
      if Js.nullish payload then throw "TypeError"
      else
        let src := Js.trim (Js.String_ (Js.coalesce (Js.prop payload "source") (Js.VString ""))) in
        let rawText := Js.trim (Js.String_ (Js.coalesce (Js.prop payload "raw_text") (Js.VString ""))) in
        if negb (Js.nonempty src) || negb (Js.nonempty rawText)
        then mret (BadRequest "Both `source` and `raw_text` are required")
        else
          labels ← inferFeedbackMetadata w src rawText;
          let record := build_record w payload src rawText labels in
          _ ← call (InsertFeedback record) (insert_answer w);
          mret (Stored record)
  end.

End Classifier.

(** ** GET /api/stats *)

(** The longest prefix of [a-z]. *)
Fixpoint lower_run (s : string) : string :=
  match s with
  | String c s' => if Js.is_lower c then String c (lower_run s') else EmptyString
  | EmptyString => EmptyString
  end.

Definition head_char (s : string) : option ascii :=
  match s with String c _ => Some c | EmptyString => None end.

Fixpoint drop (n : nat) (s : string) : string :=
  match n, s with
  | S k, String _ s' => drop k s'
  | _, _ => s
  end.

Definition is_word_at (c : option ascii) : bool :=
  match c with Some c => Js.is_word c | None => false end.

(** [text.match(/\b[a-z]{3,}\b/g) || []]. At a position that follows
    [prev]: the first [\b] asks that exactly one of [prev] and the next
    character is a word character; [[a-z]{3,}] takes the whole run of
    letters, and the closing [\b] asks that no word character follows
    (giving letters back cannot help, since no [\b] stands between two
    letters). After a match the scan resumes behind it: [skip] counts the
    characters still covered by the last match. *)
Fixpoint match_words (prev : option ascii) (skip : nat) (s : string) : list string :=
  match s with
  | EmptyString => []
  | String c s' =>
      match skip with
      | S k => match_words (Some c) k s'
      | O =>
          let w := lower_run s in
          if xorb (is_word_at prev) (Js.is_word c)
             && (3 <=? String.length w)%nat
             && negb (is_word_at (head_char (drop (String.length w) s)))
          then w :: match_words (Some c) (String.length w - 1) s'
          else match_words (Some c) 0 s'
      end
  end.

Definition stopwords : list string :=
  ["the"; "and"; "for"; "with"; "that"; "this"; "from"; "are"; "but"; "can";
   "has"; "have"; "been"; "one"; "like"; "when"; "where"; "what"; "which";
   "who"; "why"; "how"].

Definition is_stopword (word : string) : bool := existsb (String.eqb word) stopwords.

(** The words one record contributes, in order. *)
Definition words_of (feedback : Feedback) : list string :=
  let text := Js.toLowerCase (Js.or_else (summary feedback) (raw_text feedback)) in
  List.filter (fun word => negb (is_stopword word)) (match_words None 0 text).

(** [wordFreq.set(word, (wordFreq.get(word) || 0) + 1)] *)
Definition count_word (wordFreq : list (string * nat)) (word : string) : list (string * nat) :=
  Js.map_set wordFreq word (default 0 (Js.map_get wordFreq word) + 1).

Record Stats := {
  total : nat;
  byPriority : gmap string Js.cell;
  bySentiment : gmap string Js.cell;
  byCategory : gmap string Js.cell;
  last7Days : nat;
  topWords : list (string * nat)
}.

Section Stats.

(** [new Date(s).getTime()]; [None] is NaN. *)
Variable Date_getTime : string -> option Z.

(** [new Date(s).getTime() > sevenDaysAgo]; a comparison with NaN is false. *)
Definition recent (sevenDaysAgo : Z) (feedback : Feedback) : bool :=
  match Date_getTime (created_at feedback) with
  | Some t => (sevenDaysAgo <? t)%Z
  | None => false
  end.

(** The body of [allFeedback.forEach]. *)
Definition visit (sevenDaysAgo : Z) (acc : Stats * list (string * nat)) (feedback : Feedback)
  : Stats * list (string * nat) :=
  let '(stats, wordFreq) := acc in
  ({| total := total stats;
      byPriority := Js.bump (byPriority stats) (Js.or_else (priority feedback) "unknown");
      bySentiment := Js.bump (bySentiment stats) (Js.or_else (sentiment feedback) "unknown");
      byCategory := Js.bump (byCategory stats) (Js.or_else (category feedback) "other");
      last7Days := if recent sevenDaysAgo feedback then last7Days stats + 1 else last7Days stats;
      topWords := topWords stats |},
   fold_left count_word (words_of feedback) wordFreq).

(** The handler's computation on the records [listFeedback] returned,
    at [now = Date.now()]. *)
Definition api_stats (now : Z) (allFeedback : list Feedback) : Stats :=
  let stats0 :=
    {| total := length allFeedback;
       byPriority := ∅; bySentiment := ∅; byCategory := ∅;
       last7Days := 0; topWords := [] |} in
  let sevenDaysAgo := (now - 7 * 24 * 60 * 60 * 1000)%Z in
  let '(stats, wordFreq) := fold_left (visit sevenDaysAgo) allFeedback (stats0, []) in
  {| total := total stats;
     byPriority := byPriority stats;
     bySentiment := bySentiment stats;
     byCategory := byCategory stats;
     last7Days := last7Days stats;
     topWords := firstn 50 (Js.sort_desc snd wordFreq) |}.

End Stats.

(** ** Query-string, header and markup helpers *)

Definition MAX_LIMIT : Z := 200.

Definition PRODUCT_CATEGORIES : list string :=
  ["bug"; "performance"; "feature_request"; "docs"; "ux"; "security"; "billing"].

(** A [string | null], as [url.searchParams.get] and [headers.get] give
    it, seen as an [unknown]. *)
Definition of_nullable (x : option string) : Js.value :=
  match x with Some s => Js.VString s | None => Js.VNull end.

Definition resolveBoolean (value : Js.value) : option bool :=
  if Js.nullish value then None
  else match value with
       | Js.VBool b => Some b
       | _ =>
           let normalized := Js.toLowerCase (Js.trim (Js.String_ value)) in
           if existsb (String.eqb normalized) ["1"; "true"; "yes"; "on"] then Some true
           else if existsb (String.eqb normalized) ["0"; "false"; "no"; "off"] then Some false
           else None
       end.

Definition resolveProductOnly (value : option string) : bool :=
  default true (resolveBoolean (of_nullable value)).

(** [s.replace(/c/g, by_)] for a one-character pattern. *)
Fixpoint replace_all (c : ascii) (by_ : string) (s : string) : string :=
  match s with
  | EmptyString => EmptyString
  | String x s' =>
      if Ascii.eqb x c then by_ ++ replace_all c by_ s'
      else String x (replace_all c by_ s')
  end.

Definition quote_char : ascii := ascii_of_nat 34.
Definition apostrophe_char : ascii := ascii_of_nat 39.

Definition escapeHtml (value : string) : string :=
  replace_all apostrophe_char "&#39;"
    (replace_all quote_char "&quot;"
       (replace_all ">" "&gt;"
          (replace_all "<" "&lt;"
             (replace_all "&" "&amp;" value)))).





Section Route.

Variable JSON_parse : string -> option Js.value.
Variable new_Ai : option (Js.outcome Js.value) -> Js.outcome (Js.outcome Js.value).



End Route.

(** ** [listFeedback] *)

Record FeedbackFilters := {
  f_sentiment : option string;
  f_priority : option string;
  f_category : option string;
  f_source : option string;
  f_productOnly : option bool;
  f_limit : option Z
}.

(** A bound parameter. *)
Inductive param :=
| PText (s : string)
| PNumber (n : Z).

(** [arr.join(sep)] *)
Fixpoint join (sep : string) (l : list string) : string :=
  match l with
  | [] => ""
  | [x] => x
  | x :: l' => x ++ sep ++ join sep l'
  end.

(** One [if (filters.x) { clauses.push(...); params.push(...) }]. *)
Definition push_filter (column : string) (x : option string)
    (acc : list string * list param) : list string * list param :=
  if configured x
  then ((fst acc ++ [(column ++ " = ?")%string])%list,
        (snd acc ++ [PText (default "" x)])%list)
  else acc.

Definition newline : string := String (ascii_of_nat 10) EmptyString.

(** The template literal of the statement. *)
Definition query_text (where_ : string) : string :=
  newline
  ++ "    SELECT id, source, raw_text, sentiment, priority, category, summary, priority_reason, created_at"
  ++ newline
  ++ "    FROM feedback" ++ newline
  ++ "    " ++ where_ ++ newline
  ++ "    ORDER BY datetime(created_at) DESC" ++ newline
  ++ "    LIMIT ?" ++ newline
  ++ "  ".

(** The statement and the values bound to it. *)
Definition listFeedback_statement (filters : FeedbackFilters) : string * list param :=
  let acc : list string * list param :=
    if default false (f_productOnly filters)
    then (["category IN (" ++ join ", " (map (fun _ => "?") PRODUCT_CATEGORIES) ++ ")"],
          map PText PRODUCT_CATEGORIES)
    else ([], []) in
  let acc := push_filter "sentiment" (f_sentiment filters) acc in
  let acc := push_filter "priority" (f_priority filters) acc in
  let acc := push_filter "category" (f_category filters) acc in
  let acc := push_filter "source" (f_source filters) acc in
  let '(clauses, params) := acc in
  let where_ :=
    if (0 <? length clauses)%nat then "WHERE " ++ join " AND " clauses else "" in
  let limit := default 100%Z (f_limit filters) in
  (query_text where_, (params ++ [PNumber limit])%list).

(** [all] is [env.feedback_db.prepare(query).bind(...).all()] with its
    [results]. *)
Definition listFeedback
    (all : string -> list param -> Js.outcome (option (list Feedback)))
    (filters : FeedbackFilters) : Js.outcome (list Feedback) :=
  let '(query, params) := listFeedback_statement filters in
  match all query params with
  | Js.Returned results => Js.Returned (default [] results)
  | Js.Thrown e => Js.Thrown e
  end.

Section Query.

(** [Number(s)] *)
Variable Number_ : string -> Js.number.

Definition normalizeLimit (value : option string) : option Z :=
  if negb (configured value) then None
  else match Number_ (default "" value) with
       | Js.Finite num => Some (Z.max 1 (Z.min MAX_LIMIT (Js.floor num)))
       | _ => None
       end.

(** The filters [GET /dashboard] reads from the query string;
    [get] is [url.searchParams.get]. *)
Definition dashboard_filters (get : string -> option string) : FeedbackFilters :=
  {| f_sentiment := sanitizeChoice (of_nullable (get "sentiment")) SENTIMENTS;
     f_priority := sanitizeChoice (of_nullable (get "priority")) PRIORITIES;
     f_category := sanitizeNullable (of_nullable (get "category"));
     f_source := sanitizeNullable (of_nullable (get "source"));
     f_productOnly := Some (resolveProductOnly (get "product_only"));
     f_limit := normalizeLimit (get "limit") |}.

(** The filters of [GET /api/stats]. *)
Definition stats_filters (get : string -> option string) : FeedbackFilters :=
  {| f_sentiment := None; f_priority := None; f_category := None; f_source := None;
     f_productOnly := Some (resolveProductOnly (get "product_only"));
     f_limit := Some 1000%Z |}.

End Query.

End Worker.

(* ===================================================================== *)
(** * The utility module                                                  *)
(* ===================================================================== *)

Module Utils.

Section Url.

(** [new URL(s)]; [None] when it throws. *)
Variable new_URL : string -> option URL.


End Url.

(** [truncate(text, maxLength)] for a whole [maxLength]; [substring]
    reads a negative end as 0. *)
Definition truncate (text : string) (maxLength : Z) : string :=
  if (Z.of_nat (String.length text) <=? maxLength)%Z then text
  else Js.slice0 (Z.to_nat (maxLength - 3)) text ++ "...".

Section Time.

(** [new Date(s).getTime()]; [None] is NaN, the time of an invalid
    date. [new Date] does not throw. *)
Variable Date_getTime : string -> option Z.

(** [formatTimeDiff(dateStr)] when the clock reads [now]. With an
    invalid date every number is NaN, all three comparisons are false and
    the last template is reached. The quotients are whole and exact for
    instants less than 2^53 milliseconds apart. *)
Definition formatTimeDiff (now : Z) (dateStr : string) : string :=
  match Date_getTime dateStr with
  | None => "NaNd ago"
  | Some date =>
      let diff := (now - date)%Z in
      let minutes := (diff / 60000)%Z in
      let hours := (minutes / 60)%Z in
      let days := (hours / 24)%Z in
      if (minutes <? 1)%Z then "just now"
      else if (minutes <? 60)%Z then pretty minutes ++ "m ago"
      else if (hours <? 24)%Z then pretty hours ++ "h ago"
      else pretty days ++ "d ago"
  end.

End Time.

Section TopItems.

Context {T : Type} (count : T -> nat).

(** [arr.slice(0, n)] for a whole [n]: a negative [n] counts from the
    end. *)
Definition slice_to (n : Z) (items : list T) : list T :=
  if (n <? 0)%Z then firstn (Z.to_nat (Z.of_nat (length items) + n)) items
  else firstn (Z.to_nat n) items.

(** [getTopItems(items, n)]: what it returns, and the array it was
    given, which [sort] orders in place. *)
Definition getTopItems (items : list T) (n : Z) : list T * list T :=
  let sorted := Js.sort_desc count items in
  (slice_to n sorted, sorted).

End TopItems.

(** What [retryAsync] does, in order. *)
Inductive step :=
| Called                (* [await fn()] *)
| Slept (delay : Z).    (* [setTimeout(resolve, delay)] *)

(** How [retryAsync] ends: [lastError] is [None] while nothing was
    caught. *)
Inductive retried (T : Type) :=
| Resolved (value : T)
| Rejected (lastError : option string).
Arguments Resolved {T} value.
Arguments Rejected {T} lastError.

Section Retry.

Context {T : Type}.

(** [fn i] is what call number [i] of [fn] does. *)
Variable fn : nat -> Js.outcome T.

(** The loop from [i] on, with [remaining] iterations to go. *)
Fixpoint retry_from (maxRetries initialDelay : Z) (remaining i : nat)
    (lastError : option string) (done : list step) : retried T * list step :=
  match remaining with
  | O => (Rejected lastError, done)
  | S remaining' =>
      match fn i with
      | Js.Returned value => (Resolved value, (done ++ [Called])%list)
      | Js.Thrown error =>
          let done := (done ++ [Called])%list in
          let done :=
            if (Z.of_nat i <? maxRetries - 1)%Z
            then (done ++ [Slept (initialDelay * 2 ^ Z.of_nat i)])%list
            else done in
          retry_from maxRetries initialDelay remaining' (S i) (Some error) done
      end
  end.

(** [retryAsync(fn, maxRetries, initialDelay)] for whole numbers. *)
Definition retryAsync (maxRetries initialDelay : Z) : retried T * list step :=
  retry_from maxRetries initialDelay (Z.to_nat maxRetries) 0 None [].

End Retry.

End Utils.

(* ===================================================================== *)
(** * What the two daily runs share                                       *)
(* ===================================================================== *)

(** [scheduled-handler.ts] and the workflow class carry the same text for
    the issue table, the top issues and the recommendations. *)
Module Analysis.

(** [p === "P0" || p === "P1"] *)
Definition is_urgent_key (p : string) : bool := String.eqb p "P0" || String.eqb p "P1".

(** [item.priority === "P0" || item.priority === "P1"] *)
Definition is_urgent (item : Feedback) : bool :=
  match priority item with Some p => is_urgent_key p | None => false end.

(** The [if (item.summary) { ... }] block: the entry of a summary keeps
    the sentiment of the first record that carried it. *)
Definition track (issues : list (string * (nat * string))) (item : Feedback)
  : list (string * (nat * string)) :=
  match summary item with
  | Some text =>
      if Js.nonempty text then
        let existing :=
          default (0, Js.or_else (sentiment item) "neutral") (Js.map_get issues text) in
        Js.map_set issues text (fst existing + 1, snd existing)
      else issues
  | None => issues
  end.

(** [Array.from(issues.entries()).map(...).sort(...).slice(0, 5)] *)
Definition top_issues (issues : list (string * (nat * string))) : list Issue :=
  firstn 5
    (Js.sort_desc count
       (map (fun e => {| issue := fst e; count := fst (snd e);
                         issue_sentiment := snd (snd e) |}) issues)).

Definition issue_line (i : Issue) : string :=
  "- " ++ issue i ++ " (" ++ pretty (count i) ++ " occurrences, sentiment: "
  ++ issue_sentiment i ++ ")".

Definition default_actions : list string :=
  [ "Review high-priority feedback items";
    "Investigate recurring issues";
    "Follow up with affected customers" ].

(** [response && response.result && response.result.response] *)
Definition response_text (response : Js.value) : Js.value :=
  if Js.truthy response then
    let result := Js.prop response "result" in
    if Js.truthy result then Js.prop result "response" else result
  else response.

(** [.split(NEWLINE).filter((line) => line.trim().length > 0)] *)
Definition nonblank_lines (text : string) : list string :=
  List.filter (fun line => Js.nonempty (Js.trim line)) (Js.split_on (ascii_of_nat 10) text).

(** The [if (env.AI && topIssues.length > 0) { try ... catch ... }]
    statement; [keep] is what the branch does to the lines (the handler
    slices, the workflow does not). A truthy answer that is not a string
    has no [split]: the call throws inside the [try]. *)
Definition recommend (w : World) (topIssues : list Issue)
    (keep : list string -> list string) : M (list string) :=
  match AI w with
  | Some answer =>
      if (0 <? length topIssues)%nat then
        try_catch
          (response ← call (AiRun "@cf/mistral/mistral-7b-instruct-v0.1"
                              (map issue_line topIssues)) answer;
           let text := response_text response in
           if Js.truthy text then
             match text with
             | Js.VString s => mret (keep (nonblank_lines s))
             | _ => throw "TypeError"
             end
           else mret [])
          (fun _ => mret default_actions)
      else mret []
  | None => mret []
  end.

(** The block of one urgent item. *)
Definition urgent_block (item : Feedback) : block :=
  UrgentItem (priority item)
             (Js.or_else (summary item) (Js.slice0 80 (raw_text item)))
             (source item) (created_at item).

Definition shown_issue (i : Issue) : string * nat := (issue i, count i).

End Analysis.

(* ===================================================================== *)
(** * scheduled-handler.ts                                                *)
(* ===================================================================== *)

Module Scheduled.

Record AnalysisResult := {
  totalFeedback : nat;
  byPriority : gmap string Js.cell;
  bySentiment : gmap string Js.cell;
  byCategory : gmap string Js.cell;
  topIssues : list Issue;
  recommendedActions : list string;
  urgentCount : nat
}.

(** The loop state of [analyzeFeedback]: [stats] and [issues]. *)
Record Tally := {
  t_byPriority : gmap string Js.cell;
  t_bySentiment : gmap string Js.cell;
  t_byCategory : gmap string Js.cell;
  t_urgentCount : nat;
  t_issues : list (string * (nat * string))
}.

Definition visit (st : Tally) (item : Feedback) : Tally :=
  let p := Js.or_else (priority item) "unknown" in
  {| t_byPriority := Js.bump (t_byPriority st) p;
     t_urgentCount :=
       if Analysis.is_urgent_key p then t_urgentCount st + 1 else t_urgentCount st;
     t_bySentiment := Js.bump (t_bySentiment st) (Js.or_else (sentiment item) "unknown");
     t_byCategory := Js.bump (t_byCategory st) (Js.or_else (category item) "other");
     t_issues := Analysis.track (t_issues st) item |}.

Definition tally (feedbackData : list Feedback) : Tally :=
  fold_left visit feedbackData
    {| t_byPriority := ∅; t_bySentiment := ∅; t_byCategory := ∅;
       t_urgentCount := 0; t_issues := [] |}.

Definition analyzeFeedback (w : World) (feedbackData : list Feedback) : M AnalysisResult :=
  let st := tally feedbackData in
  let topIssues := Analysis.top_issues (t_issues st) in
  recommendedActions ← Analysis.recommend w topIssues (firstn 4);
  mret {| totalFeedback := length feedbackData;
          byPriority := t_byPriority st;
          bySentiment := t_bySentiment st;
          byCategory := t_byCategory st;
          urgentCount := t_urgentCount st;
          topIssues := topIssues;
          recommendedActions := recommendedActions |}.

Definition blocks_of (analysis : AnalysisResult) (feedbackData : list Feedback) : list block :=
  ([ Header;
     Metrics (totalFeedback analysis)
             (Js.count_or_zero (bySentiment analysis) "negative")
             (Js.count_or_zero (byPriority analysis) "P0")
             (Js.count_or_zero (byPriority analysis) "P1");
     Divider ]
   ++ (if (0 <? length (topIssues analysis))%nat
       then [TopIssues (map Analysis.shown_issue (firstn 3 (topIssues analysis)))]
       else [])
   ++ (if (0 <? length (recommendedActions analysis))%nat
       then [Divider; Recommended (recommendedActions analysis)]
       else [])
   ++ (if (0 <? urgentCount analysis)%nat
       then [Divider; UrgentHeader (urgentCount analysis)]
            ++ map Analysis.urgent_block
                 (firstn 3 (List.filter Analysis.is_urgent feedbackData))
       else [])
   ++ [Actions "https://your-domain.com/dashboard"])%list.

(** A response that is not [ok] and a thrown error are only written to
    the console. *)
Definition sendToSlack (w : World) (analysis : AnalysisResult) (webhookUrl : string)
    (feedbackData : list Feedback) : M unit :=
  try_catch
    (_ ← call (Post webhookUrl (Blocks (blocks_of analysis feedbackData))) (fetch_answer w);
     mret tt)
    (fun _ => mret tt).

Definition notifyError (w : World) (error webhookUrl : string) : M unit :=
  try_catch
    (_ ← call (Post webhookUrl (ErrorNotice error)) (fetch_answer w); mret tt)
    (fun _ => mret tt).

Section Log.

(** [JSON.stringify(analysis)] *)
Variable JSON_stringify : AnalysisResult -> string.

Definition log_row (w : World) (analysis : AnalysisResult) : LogRow :=
  {| timestamp := now_iso w;
     total_feedback := totalFeedback analysis;
     negative_count := Js.count_or_zero (bySentiment analysis) "negative";
     p0_count := Js.count_or_zero (byPriority analysis) "P0";
     p1_count := Js.count_or_zero (byPriority analysis) "P1";
     data := JSON_stringify analysis |}.

Definition logAnalysis (w : World) (analysis : AnalysisResult) : M unit :=
  try_catch (call (InsertLog (log_row w analysis)) (insert_answer w))
            (fun _ => mret tt).

Definition handleScheduled (w : World) : M unit :=
  try_catch
    (results ← call (SelectRecent (yesterday_iso w)) (select_answer w);
     match results with
     | None | Some [] => mret tt
     | Some feedbackData =>
         analysis ← analyzeFeedback w feedbackData;
         _ ← (if configured (SLACK_WEBHOOK_URL w)
              then sendToSlack w analysis (default "" (SLACK_WEBHOOK_URL w)) feedbackData
              else mret tt);
         logAnalysis w analysis
     end)
    (fun error =>
       if configured (SLACK_WEBHOOK_URL w)
       then notifyError w error (default "" (SLACK_WEBHOOK_URL w))
       else mret tt).

End Log.

End Scheduled.

(* ===================================================================== *)
(** * The workflow class [DailyAnalysisWorkflow]                          *)
(* ===================================================================== *)

Module Workflow.

Record AnalysisResult := {
  totalFeedback : nat;
  byPriority : gmap string Js.cell;
  bySentiment : gmap string Js.cell;
  byCategory : gmap string Js.cell;
  topIssues : list Issue;
  recommendedActions : list string;
  urgentItems : list Feedback
}.

(** What [sendToSlack] returns. *)
Inductive SlackResult :=
| NotConfigured                          (* success: false, "Webhook not configured" *)
| Answered (success : bool) (code : nat) (* success: response.ok, status *)
| Failed (error : string).               (* success: false, error *)

Definition fetchRecentFeedback (w : World) : M (list Feedback) :=
  results ← call (SelectRecent (yesterday_iso w)) (select_answer w);
  mret (default [] results).

(** The loop state of [analyzeWithAI]. *)
Record Tally := {
  t_byPriority : gmap string Js.cell;
  t_bySentiment : gmap string Js.cell;
  t_byCategory : gmap string Js.cell;
  t_urgentItems : list Feedback;
  t_issues : list (string * (nat * string))
}.

Definition visit (st : Tally) (item : Feedback) : Tally :=
  let p := Js.or_else (priority item) "unknown" in
  {| t_byPriority := Js.bump (t_byPriority st) p;
     t_urgentItems :=
       if Analysis.is_urgent_key p then (t_urgentItems st ++ [item])%list
       else t_urgentItems st;
     t_bySentiment := Js.bump (t_bySentiment st) (Js.or_else (sentiment item) "unknown");
     t_byCategory := Js.bump (t_byCategory st) (Js.or_else (category item) "other");
     t_issues := Analysis.track (t_issues st) item |}.

Definition tally (feedback : list Feedback) : Tally :=
  fold_left visit feedback
    {| t_byPriority := ∅; t_bySentiment := ∅; t_byCategory := ∅;
       t_urgentItems := []; t_issues := [] |}.

Definition analyzeWithAI (w : World) (feedback : list Feedback) : M AnalysisResult :=
  if (length feedback =? 0)%nat then
    mret {| totalFeedback := 0; byPriority := ∅; bySentiment := ∅; byCategory := ∅;
            topIssues := []; recommendedActions := []; urgentItems := [] |}
  else
    let st := tally feedback in
    let topIssues := Analysis.top_issues (t_issues st) in
    recommendedActions ← Analysis.recommend w topIssues (fun lines => lines);
    mret {| totalFeedback := length feedback;
            byPriority := t_byPriority st;
            bySentiment := t_bySentiment st;
            byCategory := t_byCategory st;
            urgentItems := t_urgentItems st;
            topIssues := topIssues;
            recommendedActions := recommendedActions |}.

(** The object [generateInsights] returns. *)
Definition insights_of (analysis : AnalysisResult) : AnalysisResult :=
  {| totalFeedback := totalFeedback analysis;
     byPriority := byPriority analysis;
     bySentiment := bySentiment analysis;
     byCategory := byCategory analysis;
     topIssues := topIssues analysis;
     recommendedActions := recommendedActions analysis;
     urgentItems := firstn 5 (urgentItems analysis) |}.

Definition generateInsights (analysis : AnalysisResult) : M AnalysisResult :=
  mret (insights_of analysis).

Section Run.

(** [new URL(s)]; [None] when it throws. *)
Variable new_URL : string -> option URL.

(** [JSON.stringify(insights)] *)
Variable JSON_stringify : AnalysisResult -> string.

Definition blocks_of (insights : AnalysisResult) (dashboard : string) : list block :=
  ([ Header;
     Metrics (totalFeedback insights)
             (Js.count_or_zero (bySentiment insights) "negative")
             (Js.count_or_zero (byPriority insights) "P0")
             (Js.count_or_zero (byPriority insights) "P1");
     Divider ]
   ++ (if (0 <? length (topIssues insights))%nat
       then [TopIssues (map Analysis.shown_issue (firstn 3 (topIssues insights)))]
       else [])
   ++ (if (0 <? length (recommendedActions insights))%nat
       then [Divider; Recommended (firstn 3 (recommendedActions insights))]
       else [])
   ++ (if (0 <? length (urgentItems insights))%nat
       then [Divider; UrgentHeader (length (urgentItems insights))]
            ++ map Analysis.urgent_block (firstn 3 (urgentItems insights))
       else [])
   ++ [Actions dashboard])%list.

(** The button's [url] parses the webhook address while the blocks are
    built, before the [try] around [fetch]. *)
Definition sendToSlack (w : World) (insights : AnalysisResult) : M SlackResult :=
  if negb (configured (SLACK_WEBHOOK_URL w)) then mret NotConfigured
  else
    let webhook := default "" (SLACK_WEBHOOK_URL w) in
    match new_URL webhook with
    | None => throw "TypeError"
    | Some parsed =>
        try_catch
          (response ← call (Post webhook
                              (Blocks (blocks_of insights (origin parsed ++ "/dashboard"))))
                           (fetch_answer w);
           mret (Answered (ok response) (status response)))
          (fun error => mret (Failed error))
    end.

Definition log_row (w : World) (insights : AnalysisResult) : LogRow :=
  {| timestamp := now_iso w;
     total_feedback := totalFeedback insights;
     negative_count := Js.count_or_zero (bySentiment insights) "negative";
     p0_count := Js.count_or_zero (byPriority insights) "P0";
     p1_count := Js.count_or_zero (byPriority insights) "P1";
     data := JSON_stringify insights |}.

Definition logAnalysis (w : World) (insights : AnalysisResult) : M unit :=
  try_catch (call (InsertLog (log_row w insights)) (insert_answer w))
            (fun _ => mret tt).

(** [run]. A [step.do(name, fn)] is the call of [fn]: what it returns is
    handed on, what it throws ends the run. *)
Definition run (w : World) : M AnalysisResult :=
  feedbackData ← fetchRecentFeedback w;
  analysis ← analyzeWithAI w feedbackData;
  insights ← generateInsights analysis;
  slackResult ← sendToSlack w insights;
  _ ← logAnalysis w insights;
  mret insights.

End Run.

End Workflow.

(* ===================================================================== *)
(** * config.ts: the workflow table and its cron matcher                  *)
(* ===================================================================== *)

Module Config.

Record Filters := {
  minPriority : option string;
  sentiments : option (list string);
  categories : option (list string)
}.

Record WorkflowConfig := {
  name : string;
  schedule : string;
  enabled : bool;
  slackChannel : option string;
  filters : Filters
}.

(** The table, in the order of [Object.entries]. *)
Definition workflows : list (string * WorkflowConfig) :=
  [ ("dailyAnalysis",
     {| name := "Daily Feedback Analysis"; schedule := "0 9 * * *"; enabled := true;
        slackChannel := Some "#feedback-analysis";
        filters := {| minPriority := None;
                      sentiments := Some ["negative"; "neutral"; "positive"];
                      categories := None |} |});
    ("urgentAlerts",
     {| name := "Urgent Issues Alert"; schedule := "*/30 * * * *"; enabled := true;
        slackChannel := Some "#urgent-feedback";
        filters := {| minPriority := Some "P0"; sentiments := None; categories := None |} |});
    ("weeklyDigest",
     {| name := "Weekly Digest"; schedule := "0 10 * * MON"; enabled := true;
        slackChannel := Some "#weekly-digest";
        filters := {| minPriority := None; sentiments := Some ["negative"];
                      categories := None |} |});
    ("performanceReport",
     {| name := "Performance Issues Report"; schedule := "0 11 * * FRI"; enabled := true;
        slackChannel := Some "#performance";
        filters := {| minPriority := None; sentiments := None;
                      categories := Some ["performance"; "bug"] |} |}) ].

(** The UTC fields of a [Date] the matcher reads. *)
Record UTC := {
  getUTCMinutes : Z;
  getUTCHours : Z;
  getUTCDate : Z;
  getUTCMonth : Z;
  getUTCDay : Z
}.

Section Cron.

(** [Number(s)] *)
Variable Number_ : string -> Js.number.

(** [checkField]. A pattern with a slash or a dash splits into at least
    two parts; with fewer the second number would be [undefined] and the
    comparison false. *)
Definition checkField (pattern : string) (value : Z) : bool :=
  if String.eqb pattern "*" then true
  else if Js.includes pattern "," then
    existsb (fun n => Js.strict_eq n (Js.of_Z value)) (map Number_ (Js.split_on "," pattern))
  else if Js.includes pattern "/" then
    match map Number_ (Js.split_on "/" pattern) with
    | start :: step :: _ =>
        Js.strict_eq (Js.rem (Js.of_Z value) step) (Js.rem start step)
    | _ => false
    end
  else if Js.includes pattern "-" then
    match map Number_ (Js.split_on "-" pattern) with
    | start :: end_ :: _ => Js.le start (Js.of_Z value) && Js.le (Js.of_Z value) end_
    | _ => false
    end
  else Js.strict_eq (Number_ pattern) (Js.of_Z value).

(** [checkField] on a field of the destructured pattern: a field that
    is missing is [undefined], which has no [includes]. *)
Definition check (pattern : option string) (value : Z) : Js.outcome bool :=
  match pattern with
  | Some p => Js.Returned (checkField p value)
  | None => Js.Thrown "TypeError"
  end.

(** [a && b], where [b] is evaluated only when [a] is true. *)
Definition and_then (a b : Js.outcome bool) : Js.outcome bool :=
  match a with
  | Js.Returned true => b
  | _ => a
  end.

Definition matchesCron (pattern : string) (date : UTC) : Js.outcome bool :=
  let parts := Js.split_on " " pattern in
  let minute := nth_error parts 0 in
  let hour := nth_error parts 1 in
  let dayOfMonth := nth_error parts 2 in
  let month := nth_error parts 3 in
  let dayOfWeek := nth_error parts 4 in
  and_then (check minute (getUTCMinutes date))
    (and_then (check hour (getUTCHours date))
       (and_then (check dayOfMonth (getUTCDate date))
          (and_then (check month (getUTCMonth date + 1))
             (if bool_decide (dayOfWeek = Some "*") then Js.Returned true
              else check dayOfWeek (getUTCDay date))))).

(** The loop of [handleScheduledWithRouting]: the keys of the workflows
    it executes, in order, and whether it ends by an exception of the
    matcher. [executeWorkflow] catches what its steps throw. *)
Fixpoint route (table : list (string * WorkflowConfig)) (now : UTC)
  : Js.outcome unit * list string :=
  match table with
  | [] => (Js.Returned tt, [])
  | (key, config) :: table' =>
      if enabled config then
        match matchesCron (schedule config) now with
        | Js.Returned true =>
            let '(end_, executed) := route table' now in (end_, key :: executed)
        | Js.Returned false => route table' now
        | Js.Thrown e => (Js.Thrown e, [])
        end
      else route table' now
  end.

Definition handleScheduledWithRouting (now : UTC) : Js.outcome unit * list string :=
  route workflows now.

End Cron.

(** ** [fetchFilteredFeedback] *)

Definition priorities : list string := ["P0"; "P1"; "P2"; "P3"].

(** [priorities.indexOf(p)], -1 when absent. *)
Fixpoint indexOf (p : string) (l : list string) : Z :=
  match l with
  | [] => (-1)%Z
  | x :: l' =>
      if String.eqb x p then 0%Z
      else let i := indexOf p l' in if (i <? 0)%Z then (-1)%Z else (i + 1)%Z
  end.

(** [priorities.slice(0, minIndex + 1)] *)
Definition validPriorities (minPriority : string) : list string :=
  firstn (Z.to_nat (indexOf minPriority priorities + 1)) priorities.

(** [list.map(() => "?").join(",")] *)
Definition placeholders (l : list string) : string :=
  Worker.join "," (map (fun _ => "?") l).

(** [filters.x && filters.x.length > 0] *)
Definition given (x : option (list string)) : bool :=
  match x with Some l => (0 <? length l)%nat | None => false end.

(** The statement and the values bound to it. *)
Definition fetchFilteredFeedback_statement (f : Filters) : string * list string :=
  let query := "SELECT * FROM feedback WHERE 1=1" in
  let params : list string := [] in
  let '(query, params) :=
    if configured (minPriority f) then
      let valid := validPriorities (default "" (minPriority f)) in
      (query ++ " AND priority IN (" ++ placeholders valid ++ ")", (params ++ valid)%list)
    else (query, params) in
  let '(query, params) :=
    if given (sentiments f) then
      (query ++ " AND sentiment IN (" ++ placeholders (default [] (sentiments f)) ++ ")",
       (params ++ default [] (sentiments f))%list)
    else (query, params) in
  let '(query, params) :=
    if given (categories f) then
      (query ++ " AND category IN (" ++ placeholders (default [] (categories f)) ++ ")",
       (params ++ default [] (categories f))%list)
    else (query, params) in
  (query ++ " ORDER BY created_at DESC LIMIT 1000", params).

End Config.

(* ===================================================================== *)
(** * Vocabulary of the statements, and test collaborators                *)
(* ===================================================================== *)

(** Concrete runtime functions and bindings for the closed examples. Each
    function agrees with the real one on the inputs it is used at. *)
Module Testing.

(** [new Ai(binding)] as a plain wrapper that refuses a missing binding. *)
Definition new_Ai (binding : option (Js.outcome Js.value)) : Js.outcome (Js.outcome Js.value) :=
  match binding with
  | Some client => Js.Returned client
  | None => Js.Thrown "Ai binding is undefined"
  end.

(** [JSON.parse] on the one text the examples hand it. *)
Definition JSON_parse (text : string) : option Js.value :=
  if String.eqb text "{}" then Some (Js.VObject []) else None.

(** [new URL] on the two addresses of the examples. *)
Definition new_URL (s : string) : option URL :=
  if String.eqb s "https://hooks.slack.com/services/T0/B0/secret"
  then Some {| hostname := "hooks.slack.com"; pathname := "/services/T0/B0/secret";
               origin := "https://hooks.slack.com" |}
  else if String.eqb s "https://example.com/hook"
  then Some {| hostname := "example.com"; pathname := "/hook";
               origin := "https://example.com" |}
  else None.

(** [Date.getTime] on two timestamps; anything else is an invalid date. *)
Definition Date_getTime (s : string) : option Z :=
  if String.eqb s "2025-01-19T00:00:00.000Z" then Some 1737244800000%Z
  else if String.eqb s "2025-01-01T00:00:00.000Z" then Some 1735689600000%Z
  else None.

Definition world : World :=
  {| AI := None;
     USE_MOCK_AI := None;
     SLACK_WEBHOOK_URL := None;
     now_iso := "2025-01-20T09:00:00.000Z";
     yesterday_iso := "2025-01-19T09:00:00.000Z";
     uuid := "00000000-0000-4000-8000-000000000000";
     select_answer := Js.Returned (Some []);
     insert_answer := Js.Returned tt;
     fetch_answer := Js.Returned {| ok := true; status := 200 |} |}.

Definition with_AI (answer : Js.outcome Js.value) (w : World) : World :=
  {| AI := Some answer; USE_MOCK_AI := USE_MOCK_AI w;
     SLACK_WEBHOOK_URL := SLACK_WEBHOOK_URL w; now_iso := now_iso w;
     yesterday_iso := yesterday_iso w; uuid := uuid w;
     select_answer := select_answer w; insert_answer := insert_answer w;
     fetch_answer := fetch_answer w |}.

Definition with_mock (flag : string) (w : World) : World :=
  {| AI := AI w; USE_MOCK_AI := Some flag;
     SLACK_WEBHOOK_URL := SLACK_WEBHOOK_URL w; now_iso := now_iso w;
     yesterday_iso := yesterday_iso w; uuid := uuid w;
     select_answer := select_answer w; insert_answer := insert_answer w;
     fetch_answer := fetch_answer w |}.

Definition with_webhook (url : string) (w : World) : World :=
  {| AI := AI w; USE_MOCK_AI := USE_MOCK_AI w;
     SLACK_WEBHOOK_URL := Some url; now_iso := now_iso w;
     yesterday_iso := yesterday_iso w; uuid := uuid w;
     select_answer := select_answer w; insert_answer := insert_answer w;
     fetch_answer := fetch_answer w |}.

Definition with_rows (rows : list Feedback) (w : World) : World :=
  {| AI := AI w; USE_MOCK_AI := USE_MOCK_AI w;
     SLACK_WEBHOOK_URL := SLACK_WEBHOOK_URL w; now_iso := now_iso w;
     yesterday_iso := yesterday_iso w; uuid := uuid w;
     select_answer := Js.Returned (Some rows); insert_answer := insert_answer w;
     fetch_answer := fetch_answer w |}.

Definition with_fetch (answer : Js.outcome Response) (w : World) : World :=
  {| AI := AI w; USE_MOCK_AI := USE_MOCK_AI w;
     SLACK_WEBHOOK_URL := SLACK_WEBHOOK_URL w; now_iso := now_iso w;
     yesterday_iso := yesterday_iso w; uuid := uuid w;
     select_answer := select_answer w; insert_answer := insert_answer w;
     fetch_answer := answer |}.

(** A stored record with the given labels. *)
Definition row (n : string) (p s c : option string) (text : string) (at_ : string) : Feedback :=
  {| id_ := n; source := "github"; raw_text := text; sentiment := s; priority := p;
     category := c; summary := Some text; priority_reason := None; created_at := at_ |}.

(** A payload with the two required fields only. *)
Definition sample_payload : Js.value :=
  Js.VObject [("source", Js.VString "github"); ("raw_text", Js.VString " Login is broken ")].

(** Serializers for the examples: the total alone. *)
Definition stringify_s (a : Scheduled.AnalysisResult) : string :=
  pretty (Scheduled.totalFeedback a).
Definition stringify_w (a : Workflow.AnalysisResult) : string :=
  pretty (Workflow.totalFeedback a).

Definition slack_url : string := "https://hooks.slack.com/services/T0/B0/secret".

(** One stored record, and three: the second without labels and with a
    timestamp that does not parse. *)
Definition one_row : list Feedback :=
  [row "1" (Some "P1") (Some "negative") (Some "bug")
     "Login is broken" "2025-01-19T00:00:00.000Z"].

Definition labelled_rows : list Feedback :=
  [ row "1" (Some "P0") (Some "negative") (Some "bug")
      "Checkout is down" "2025-01-19T00:00:00.000Z";
    row "2" None None None "Thanks" "not a date";
    row "3" (Some "P3") (Some "positive") (Some "ux")
      "Love the new design" "2025-01-01T00:00:00.000Z" ].

End Testing.

(** The urgent items a message lists, and the counts its headers show. *)
Definition listed_urgent (bs : list block) : list block :=
  List.filter (fun b => match b with UrgentItem _ _ _ _ => true | _ => false end) bs.

Definition urgent_headers (bs : list block) : list nat :=
  omap (fun b => match b with UrgentHeader n => Some n | _ => None end) bs.

(** What [sendToSlack] returns for each answer of the webhook. *)
Definition slack_result (answer : Js.outcome Response) : Workflow.SlackResult :=
  match answer with
  | Js.Returned response => Workflow.Answered (ok response) (status response)
  | Js.Thrown e => Workflow.Failed e
  end.

(** The AnalysisResult of a run that fetched nothing. *)
Definition zero_result : Workflow.AnalysisResult :=
  {| Workflow.totalFeedback := 0;
     Workflow.byPriority := ∅; Workflow.bySentiment := ∅; Workflow.byCategory := ∅;
     Workflow.topIssues := []; Workflow.recommendedActions := [];
     Workflow.urgentItems := [] |}.

(** The message built from [zero_result]. *)
Definition zero_blocks (dashboard : string) : list block :=
  [Header; Metrics 0 (Js.Count 0) (Js.Count 0) (Js.Count 0); Divider; Actions dashboard].

(** The value a counter holds after [n] bumps of a plain key. *)
Definition counted (n : nat) : option Js.cell :=
  match n with 0 => None | S _ => Some (Js.Count n) end.

(** The keys a record is counted under. *)
Definition priority_key (r : Feedback) : string := Js.or_else (priority r) "unknown".
Definition sentiment_key (r : Feedback) : string := Js.or_else (sentiment r) "unknown".
Definition category_key (r : Feedback) : string := Js.or_else (category r) "other".

(** All three keys of a record are plain. *)
Definition plain_labels (r : Feedback) : Prop :=
  Js.plain_key (priority_key r) = true
  /\ Js.plain_key (sentiment_key r) = true
  /\ Js.plain_key (category_key r) = true.

(** The words of all records, in order. *)
Definition all_words (records : list Feedback) : list string :=
  concat (map Worker.words_of records).




(** The distinct words of a list, each at its first occurrence. *)
Fixpoint first_seen (ws : list string) : list string :=
  match ws with
  | [] => []
  | w :: ws' => w :: List.filter (fun x => negb (String.eqb x w)) (first_seen ws')
  end.

(** Every distinct word with its number of occurrences, in first-seen
    order: the frequency table in the words of the specification. *)
Definition word_table (ws : list string) : list (string * nat) :=
  map (fun w => (w, count_occ string_dec ws w)) (first_seen ws).

(** The two required fields as the handler reads them. *)
Definition ingest_source (payload : Js.value) : string :=
  Js.trim (Js.String_ (Js.coalesce (Js.prop payload "source") (Js.VString ""))).
Definition ingest_text (payload : Js.value) : string :=
  Js.trim (Js.String_ (Js.coalesce (Js.prop payload "raw_text") (Js.VString ""))).

(** A label column holds null or a value of its vocabulary. *)
Definition null_or_in (allowed : list string) (x : option string) : Prop :=
  match x with Some s => In s allowed | None => True end.

(** A free-text column holds null or a non-empty trimmed string. *)
Definition null_or_trimmed (x : option string) : Prop :=
  match x with Some s => s <> "" /\ Js.trim s = s | None => True end.

(** A payload that labels the record itself, one label outside the
    vocabulary. *)
Definition override_payload : Js.value :=
  Js.VObject [ ("source", Js.VString "email");
               ("raw_text", Js.VString "Export is broken");
               ("sentiment", Js.VString "Negative");
               ("priority", Js.VString "P1");
               ("category", Js.VString "  export  ") ].

(** The number of occurrences of a character. *)
Fixpoint count_char (c : ascii) (s : string) : nat :=
  match s with
  | EmptyString => 0
  | String x s' => (if Ascii.eqb x c then 1 else 0) + count_char c s'
  end.

(** The characters that delimit markup and attribute values. *)
Definition markup_chars : list ascii :=
  ["<"%char; ">"%char; Worker.quote_char; Worker.apostrophe_char].

(** The entity of one character. *)
Definition entity (c : ascii) : string :=
  if Ascii.eqb c "&" then "&amp;"
  else if Ascii.eqb c "<" then "&lt;"
  else if Ascii.eqb c ">" then "&gt;"
  else if Ascii.eqb c Worker.quote_char then "&quot;"
  else if Ascii.eqb c Worker.apostrophe_char then "&#39;"
  else String c EmptyString.

Fixpoint entities (s : string) : string :=
  match s with
  | EmptyString => EmptyString
  | String c s' => entity c ++ entities s'
  end.


(** The key a record enters the issue table under. *)
Definition issue_key (r : Feedback) : option string :=
  match summary r with
  | Some text => if Js.nonempty text then Some text else None
  | None => None
  end.

(** The keys of all records, in fetch order. *)
Definition issue_keys (rows : list Feedback) : list string := omap issue_key rows.

(** The counts of an issue table. *)
Definition counts_of (issues : list (string * (nat * string))) : list (string * nat) :=
  map (fun e => (fst e, fst (snd e))) issues.


(** A payload that carries none of the five labels. *)
Definition unlabelled (payload : Js.value) : Prop :=
  Forall (fun k => Js.nullish (Js.prop payload k) = true)
         ["sentiment"; "priority"; "category"; "summary"; "priority_reason"].

(** A line with something on it. *)
Definition nonblank (line : string) : Prop := Js.trim line <> "".

(** The inference call of the daily analyses. *)
Definition asked (top : list Issue) : event :=
  AiRun "@cf/mistral/mistral-7b-instruct-v0.1" (map Analysis.issue_line top).

(** The number of lines a block lists. *)
Definition listed (b : block) : nat :=
  match b with
  | TopIssues shown => length shown
  | Recommended shown => length shown
  | _ => 0
  end.

(** The metrics block that carries the numbers of a log row. *)
Definition metrics_of (row : LogRow) : block :=
  Metrics (total_feedback row) (negative_count row) (p0_count row) (p1_count row).

(** The calls of [fn] and the time slept in a run of [retryAsync]. *)
Fixpoint calls (done : list Utils.step) : nat :=
  match done with
  | [] => 0
  | Utils.Called :: done' => S (calls done')
  | Utils.Slept _ :: done' => calls done'
  end.

Fixpoint slept (done : list Utils.step) : Z :=
  match done with
  | [] => 0
  | Utils.Called :: done' => slept done'
  | Utils.Slept delay :: done' => delay + slept done'
  end.

(** [Number] on the strings of decimal digits and on the empty string;
    the other strings of the examples are not numbers. *)
Definition digit (c : ascii) : option Z :=
  let n := Js.code c in
  if Js.between 48 57 n then Some (Z.of_nat n - 48)%Z else None.

Fixpoint digits (acc : Z) (s : string) : option Z :=
  match s with
  | EmptyString => Some acc
  | String c s' =>
      match digit c with
      | Some d => digits (10 * acc + d)%Z s'
      | None => None
      end
  end.

Definition decimal (s : string) : Js.number :=
  match digits 0 s with
  | Some z => Js.of_Z z
  | None => Js.NaN
  end.

(** 09:00 UTC on Monday 20 January 2025, and half an hour later. *)
Definition nine_o_clock : Config.UTC :=
  {| Config.getUTCMinutes := 0; Config.getUTCHours := 9; Config.getUTCDate := 20;
     Config.getUTCMonth := 0; Config.getUTCDay := 1 |}.

Definition half_past_nine : Config.UTC :=
  {| Config.getUTCMinutes := 30; Config.getUTCHours := 9; Config.getUTCDate := 20;
     Config.getUTCMonth := 0; Config.getUTCDay := 1 |}.

(** A pattern without list, step or range. *)
Definition plain_field (pattern : string) : Prop :=
  pattern <> "*" /\ Js.includes pattern "," = false
  /\ Js.includes pattern "/" = false /\ Js.includes pattern "-" = false.

(** A world whose 24-hour query throws, with a webhook configured. *)
Definition query_down : World :=
  {| AI := None; USE_MOCK_AI := None; SLACK_WEBHOOK_URL := Some Testing.slack_url;
     now_iso := now_iso Testing.world; yesterday_iso := yesterday_iso Testing.world;
     uuid := uuid Testing.world;
     select_answer := Js.Thrown "D1_ERROR"; insert_answer := Js.Returned tt;
     fetch_answer := Js.Thrown "network down" |}.



(** Filters with a minimum priority that is no priority. *)
Definition urgent_only : Config.Filters :=
  {| Config.minPriority := Some "urgent"; Config.sentiments := Some ["negative"];
     Config.categories := None |}.

(* ===================================================================== *)
(** * Properties                                                          *)
(* ===================================================================== *)

(** ** Runs *)

Lemma bind_returned {A B} (m : M A) (f : A -> M B) (t t' : list event) (a : A) :
  m t = (Js.Returned a, t') -> (m ≫= f) t = f a t'.
Proof. intros H. unfold mbind, M_bind. rewrite H. reflexivity. Qed.

Lemma bind_thrown {A B} (m : M A) (f : A -> M B) (t t' : list event) (e : string) :
  m t = (Js.Thrown e, t') -> (m ≫= f) t = (Js.Thrown e, t').
Proof. intros H. unfold mbind, M_bind. rewrite H. reflexivity. Qed.

Lemma try_returned {A} (m : M A) (h : string -> M A) (t t' : list event) (a : A) :
  m t = (Js.Returned a, t') -> try_catch m h t = (Js.Returned a, t').
Proof. intros H. unfold try_catch. rewrite H. reflexivity. Qed.

Lemma try_thrown {A} (m : M A) (h : string -> M A) (t t' : list event) (e : string) :
  m t = (Js.Thrown e, t') -> try_catch m h t = h e t'.
Proof. intros H. unfold try_catch. rewrite H. reflexivity. Qed.

Lemma call_answer {A} (ev : event) (answer : Js.outcome A) (t : list event) :
  call ev answer t = (answer, (t ++ [ev])%list).
Proof. reflexivity. Qed.

(** One step of a run whose first computation is known to return. *)
Ltac returns H := erewrite bind_returned by (exact H).

Lemma stored_app (t1 t2 : list event) : stored (t1 ++ t2)%list = (stored t1 ++ stored t2)%list.
Proof. unfold stored. apply omap_app. Qed.

Lemma posts_app (t1 t2 : list event) : posts (t1 ++ t2)%list = (posts t1 ++ posts t2)%list.
Proof. unfold posts. apply omap_app. Qed.

Lemma log_rows_app (t1 t2 : list event) :
  log_rows (t1 ++ t2)%list = (log_rows t1 ++ log_rows t2)%list.
Proof. unfold log_rows. apply omap_app. Qed.

(** ** Counters *)

Lemma add_cell_comm (c1 c2 : Js.cell) (acc : option nat) :
  Js.add_cell c1 (Js.add_cell c2 acc) = Js.add_cell c2 (Js.add_cell c1 acc).
Proof. destruct c1, c2, acc; simpl; try reflexivity. f_equal. lia. Qed.

Lemma sum_values_insert (o : gmap string Js.cell) (k : string) (c : Js.cell) :
  o !! k = None -> Js.sum_values (<[k := c]> o) = Js.add_cell c (Js.sum_values o).
Proof.
  intros Hk. unfold Js.sum_values.
  apply (map_fold_insert_L (fun _ => Js.add_cell)); [|exact Hk].
  intros. apply add_cell_comm.
Qed.

Lemma sum_values_delete (o : gmap string Js.cell) (k : string) (c : Js.cell) :
  o !! k = Some c -> Js.sum_values o = Js.add_cell c (Js.sum_values (delete k o)).
Proof.
  intros Hk. unfold Js.sum_values.
  apply (map_fold_delete_L (fun _ => Js.add_cell)); [|exact Hk].
  intros. apply add_cell_comm.
Qed.

Lemma plain_key_not_proto (k : string) : Js.plain_key k = true -> String.eqb k "__proto__" = false.
Proof.
  intros Hk. destruct (String.eqb k "__proto__") eqn:E; [|reflexivity].
  apply String.eqb_eq in E. subst k. discriminate Hk.
Qed.

(** At a plain key a counter of numbers grows by one. *)
Lemma sum_values_bump (o : gmap string Js.cell) (k : string) (n : nat) :
  Js.plain_key k = true -> Js.sum_values o = Some n ->
  Js.sum_values (Js.bump o k) = Some (n + 1).
Proof.
  intros Hk Hsum. unfold Js.bump, Js.assign, Js.next_cell.
  rewrite (plain_key_not_proto k Hk).
  destruct (o !! k) as [c|] eqn:Hlook.
  - rewrite (sum_values_delete o k c Hlook) in Hsum.
    destruct c as [m|s]; [|discriminate Hsum].
    rewrite <- insert_delete_eq, sum_values_insert by apply lookup_delete_eq.
    destruct (Js.sum_values (delete k o)) as [a|]; [|discriminate Hsum].
    simpl in *. injection Hsum as <-. f_equal. lia.
  - unfold Js.plain_key in Hk. destruct (Js.assoc k Js.Object_prototype); [discriminate|].
    rewrite sum_values_insert, Hsum by exact Hlook. simpl. f_equal. lia.
Qed.

Lemma sum_values_fold_bump (keys : list string) (o : gmap string Js.cell) (n : nat) :
  Forall (fun k => Js.plain_key k = true) keys -> Js.sum_values o = Some n ->
  Js.sum_values (fold_left Js.bump keys o) = Some (n + length keys).
Proof.
  intros Hkeys. revert o n. induction Hkeys as [|k keys Hk _ IH]; intros o n Hsum; simpl.
  - rewrite Hsum. f_equal. lia.
  - rewrite (IH _ (n + 1)) by (apply sum_values_bump; assumption). f_equal. lia.
Qed.

Lemma lookup_bump_other (o : gmap string Js.cell) (k k' : string) :
  k <> k' -> Js.bump o k !! k' = o !! k'.
Proof.
  intros Hne. unfold Js.bump, Js.assign.
  destruct (String.eqb k "__proto__"); [reflexivity|]. apply lookup_insert_ne, Hne.
Qed.

Lemma lookup_bump_same (o : gmap string Js.cell) (k : string) (n : nat) :
  Js.plain_key k = true -> o !! k = counted n -> Js.bump o k !! k = counted (S n).
Proof.
  intros Hk Hlook. unfold Js.bump, Js.assign, Js.next_cell.
  rewrite (plain_key_not_proto k Hk), lookup_insert_eq, Hlook.
  unfold Js.plain_key in Hk.
  destruct (Js.assoc k Js.Object_prototype); [discriminate|].
  destruct n as [|n]; cbn [counted]; [reflexivity|].
  do 2 f_equal. lia.
Qed.

(** At a plain key, the counter holds the number of bumps of that key,
    whatever other keys were bumped. *)
Lemma lookup_fold_bump (keys : list string) (o : gmap string Js.cell) (k : string) (n : nat) :
  Js.plain_key k = true -> o !! k = counted n ->
  fold_left Js.bump keys o !! k = counted (n + count_occ string_dec keys k).
Proof.
  intros Hk. revert o n. induction keys as [|k' keys IH]; intros o n Hlook; simpl.
  - rewrite Nat.add_0_r. exact Hlook.
  - destruct (string_dec k' k) as [->|Hne].
    + rewrite (IH _ (S n)) by (apply lookup_bump_same; assumption). f_equal. lia.
    + apply IH. rewrite lookup_bump_other by exact Hne. exact Hlook.
Qed.

(** ** The heuristic classifier *)

Lemma nonempty_true (s : string) : Js.nonempty s = true <-> s <> "".
Proof. destruct s; simpl; split; congruence. Qed.

Lemma slice0_nonempty (n : nat) (s : string) :
  s <> "" -> Js.slice0 (S n) s <> "".
Proof. destruct s; simpl; congruence. Qed.

Lemma mock_sentiment_in (t : string) : In (Worker.mock_sentiment_of t) Worker.SENTIMENTS.
Proof.
  unfold Worker.mock_sentiment_of, Worker.SENTIMENTS.
  repeat case_match; simpl; tauto.
Qed.

Lemma mock_priority_in (t : string) : In (fst (Worker.mock_priority_of t)) Worker.PRIORITIES.
Proof.
  unfold Worker.mock_priority_of, Worker.PRIORITIES.
  repeat case_match; simpl; tauto.
Qed.

Lemma mock_category_nonempty (t : string) :
  Worker.mock_category_of t (snd (Worker.mock_priority_of t)) <> "".
Proof.
  unfold Worker.mock_category_of, Worker.mock_priority_of.
  repeat case_match; simpl; congruence.
Qed.

(** The heuristic label set leaves no field empty: sentiment and
    priority are taxonomy values, the other three are not empty. *)
Lemma mock_fully_populated (text : string) :
  text <> "" ->
  let l := Worker.mockAiInference text in
  In (Worker.mock_sentiment l) Worker.SENTIMENTS
  /\ In (Worker.mock_priority l) Worker.PRIORITIES
  /\ Worker.mock_category l <> ""
  /\ Worker.mock_summary l = Js.slice0 120 text
  /\ Worker.mock_summary l <> ""
  /\ Worker.mock_priority_reason l <> "".
Proof.
  intros Hne l. subst l. unfold Worker.mockAiInference.
  pose proof (mock_priority_in (Js.toLowerCase text)) as Hp.
  pose proof (mock_category_nonempty (Js.toLowerCase text)) as Hc.
  destruct (Worker.mock_priority_of (Js.toLowerCase text)) as [p c0] eqn:E.
  cbn [fst snd] in Hp, Hc.
  cbn [Worker.mock_sentiment Worker.mock_priority Worker.mock_category
       Worker.mock_summary Worker.mock_priority_reason].
  repeat split.
  - apply mock_sentiment_in.
  - exact Hp.
  - exact Hc.
  - apply slice0_nonempty, Hne.
  - destruct p; [|discriminate].
    unfold Worker.PRIORITIES in Hp. simpl in Hp.
    destruct Hp as [H|[H|[H|[H|[]]]]]; discriminate H.
Qed.

(** Claim C7, as the code has it: under the heuristic classifier the
    text "App is down, can't log in, losing money" gets priority P0 and
    category bug (the outage keyword "down"), and sentiment neutral: none
    of the negative words occurs in it. *)
Theorem mock_outage_labels :
  let l := Worker.mockAiInference "App is down, can't log in, losing money" in
  Worker.mock_priority l = "P0"
  /\ Worker.mock_sentiment l = "neutral"
  /\ Worker.mock_category l = "bug".
Proof. vm_compute. repeat split. Qed.

(** Claim C7 as stated asks for sentiment negative. *)
Lemma mock_outage_not_negative :
  Worker.mock_sentiment
    (Worker.mockAiInference "App is down, can't log in, losing money")
  <> "negative".
Proof. vm_compute. discriminate. Qed.

(** ** The classifier *)

(** Claim C3, as the code has it. [inferFeedbackMetadata] returns
    without throwing in each of these cases: no labels when no binding is
    configured and the mock flag is unset; the fully populated heuristic
    labels when the mock flag is "true" and the text is not empty; no
    labels when the inference call throws. Whatever the inference call
    does, once the client is built the function returns. *)
Theorem classifier_outcomes
    (JSON_parse : string -> option Js.value)
    (new_Ai : option (Js.outcome Js.value) -> Js.outcome (Js.outcome Js.value))
    (w : World) (src text : string) (t : list event) :
  (AI w = None -> configured (USE_MOCK_AI w) = false ->
     Worker.inferFeedbackMetadata JSON_parse new_Ai w src text t = (Js.Returned None, t))
  /\ (USE_MOCK_AI w = Some "true" -> text <> "" ->
      let l := Worker.mockAiInference text in
      Worker.inferFeedbackMetadata JSON_parse new_Ai w src text t
      = (Js.Returned (Some (Worker.labels_value l)), t)
      /\ In (Worker.mock_sentiment l) Worker.SENTIMENTS
      /\ In (Worker.mock_priority l) Worker.PRIORITIES
      /\ Worker.mock_category l <> ""
      /\ Worker.mock_summary l <> ""
      /\ Worker.mock_priority_reason l <> "")
  /\ (forall e,
        is_Some (AI w) \/ configured (USE_MOCK_AI w) = true ->
        USE_MOCK_AI w <> Some "true" -> text <> "" ->
        new_Ai (AI w) = Js.Returned (Js.Thrown e) ->
        Worker.inferFeedbackMetadata JSON_parse new_Ai w src text t
        = (Js.Returned None,
           (t ++ [AiRun "@cf/meta/llama-3.1-8b-instruct" [src; text]])%list))
  /\ ((forall e, new_Ai (AI w) <> Js.Thrown e) ->
      exists labels t',
        Worker.inferFeedbackMetadata JSON_parse new_Ai w src text t
        = (Js.Returned labels, t')).
Proof.
  unfold Worker.inferFeedbackMetadata. split; [|split; [|split]].
  - intros HAI Hmock. rewrite HAI, Hmock. reflexivity.
  - intros Hmock Hne.
    destruct (mock_fully_populated text Hne) as (Hs & Hp & Hc & _ & Hsum & Hr).
    split; [|repeat split; assumption].
    rewrite Hmock. simpl.
    rewrite andb_false_r. apply nonempty_true in Hne. rewrite Hne. simpl.
    reflexivity.
  - intros e Hreach Hmock Hne Hnew.
    assert (negb (bool_decide (is_Some (AI w))) && negb (configured (USE_MOCK_AI w)) = false)
      as ->.
    { destruct Hreach as [H|H].
      - rewrite bool_decide_eq_true_2 by exact H. reflexivity.
      - rewrite H. apply andb_false_r. }
    apply nonempty_true in Hne. rewrite Hne. simpl.
    rewrite bool_decide_eq_false_2 by exact Hmock.
    unfold mbind, M_bind, try_catch, call. rewrite Hnew. reflexivity.
  - intros Hnew.
    destruct (negb (bool_decide (is_Some (AI w))) && negb (configured (USE_MOCK_AI w)));
      [eexists _, _; reflexivity|].
    destruct (negb (Js.nonempty text)); [eexists _, _; reflexivity|].
    destruct (bool_decide (USE_MOCK_AI w = Some "true")); [eexists _, _; reflexivity|].
    unfold mbind, M_bind, try_catch, call.
    destruct (new_Ai (AI w)) as [client|e] eqn:E; [|destruct (Hnew e); reflexivity].
    destruct client as [response|e]; [|eexists _, _; reflexivity].
    destruct (Worker.pickAiText response); [|eexists _, _; reflexivity].
    destruct (Worker.safeParseAiJson JSON_parse s); eexists _, _; reflexivity.
Qed.

(** The three cases of [classifier_outcomes] on concrete collaborators. *)
Lemma classifier_outcomes_witness :
  Worker.inferFeedbackMetadata Testing.JSON_parse Testing.new_Ai
    Testing.world "github" "Login is broken" []
  = (Js.Returned None, [])
  /\ Worker.inferFeedbackMetadata Testing.JSON_parse Testing.new_Ai
       (Testing.with_mock "true" Testing.world) "github" "Login is broken" []
     = (Js.Returned (Some (Worker.labels_value (Worker.mockAiInference "Login is broken"))), [])
  /\ Worker.inferFeedbackMetadata Testing.JSON_parse Testing.new_Ai
       (Testing.with_AI (Js.Thrown "network") Testing.world) "github" "Login is broken" []
     = (Js.Returned None,
        [AiRun "@cf/meta/llama-3.1-8b-instruct" ["github"; "Login is broken"]]).
Proof.
  split; [|split].
  - apply (proj1 (classifier_outcomes Testing.JSON_parse Testing.new_Ai
                    Testing.world "github" "Login is broken" [])); reflexivity.
  - apply (proj1 (proj2 (classifier_outcomes Testing.JSON_parse Testing.new_Ai
                    (Testing.with_mock "true" Testing.world) "github" "Login is broken" [])));
      [reflexivity | discriminate].
  - apply (proj1 (proj2 (proj2 (classifier_outcomes Testing.JSON_parse Testing.new_Ai
                    (Testing.with_AI (Js.Thrown "network") Testing.world)
                    "github" "Login is broken" []))) "network");
      [left; eexists; reflexivity | discriminate | discriminate | reflexivity].
Defined.

(** Claim C3 as stated wants the heuristic labels when the inference call
    throws; the [catch] block returns no labels. *)
Lemma classifier_failure_gives_no_labels :
  let w := Testing.with_AI (Js.Thrown "network") Testing.world in
  fst (Worker.inferFeedbackMetadata Testing.JSON_parse Testing.new_Ai
         w "github" "Login is broken" [])
  = Js.Returned None
  /\ Js.Returned None
     <> Js.Returned (Some (Worker.labels_value (Worker.mockAiInference "Login is broken"))).
Proof. split; [vm_compute; reflexivity | discriminate]. Qed.

(** ** POST /ingest *)


(** The classifier stores nothing. *)
Lemma infer_stores_nothing JSON_parse new_Ai (w : World) (src text : string) (t : list event) :
  stored (snd (Worker.inferFeedbackMetadata JSON_parse new_Ai w src text t)) = stored t.
Proof.
  unfold Worker.inferFeedbackMetadata.
  repeat (case_match; try reflexivity).
  all: unfold mbind, M_bind, try_catch, call, mret, M_ret in *; simpl in *.
  all: repeat (case_match; simplify_eq; simpl in *; try reflexivity).
  all: rewrite stored_app; simpl; apply app_nil_r.
Qed.

Lemma or_else_nonempty (x : option string) (d : string) :
  d <> "" -> Js.or_else x d <> "".
Proof.
  intros Hd. unfold Js.or_else. destruct x as [s|]; [|exact Hd].
  destruct (Js.nonempty s) eqn:E; [|exact Hd]. apply nonempty_true, E.
Qed.

(** Claim C10. Every record [POST /ingest] hands to the INSERT has a
    summary that is neither null nor empty, and a non-empty [raw_text];
    when the payload and the classifier both supply no summary that
    survives [sanitizeNullable], the summary is the first 120 characters
    of [raw_text]. *)
Theorem ingest_summary_nonempty JSON_parse new_Ai (w : World) (body : option Js.value)
    (r : Feedback) :
  In r (stored (snd (start (Worker.ingest JSON_parse new_Ai w body)))) ->
  raw_text r <> ""
  /\ exists s, summary r = Some s /\ s <> ""
     /\ forall payload labels t1,
          body = Some payload ->
          Worker.inferFeedbackMetadata JSON_parse new_Ai w (source r) (raw_text r) []
          = (Js.Returned labels, t1) ->
          Worker.sanitizeNullable (Js.prop payload "summary") = None ->
          Worker.sanitizeNullable (Js.opt_prop (default Js.VNull labels) "summary") = None ->
          s = Js.slice0 120 (raw_text r).
Proof.
  unfold start, Worker.ingest. destruct body as [payload|]; [|intros []].
  destruct (Js.nullish payload); [intros []|].
  set (src := Js.trim (Js.String_ (Js.coalesce (Js.prop payload "source") (Js.VString "")))).
  set (rawText := Js.trim (Js.String_ (Js.coalesce (Js.prop payload "raw_text") (Js.VString "")))).
  destruct (Js.nonempty src) eqn:Hsrc; [|intros []].
  destruct (Js.nonempty rawText) eqn:Hraw; [|intros []].
  cbn [negb orb]. unfold mbind, M_bind at 1.
  pose proof (infer_stores_nothing JSON_parse new_Ai w src rawText []) as Hst.
  destruct (Worker.inferFeedbackMetadata JSON_parse new_Ai w src rawText [])
    as [[labels|e] t1] eqn:Hinfer; cbn [snd] in Hst.
  2:{ cbn [snd]. rewrite Hst. intros []. }
  unfold M_bind, call, mret, M_ret.
  assert (forall o : Js.outcome Worker.Reply,
            stored (snd (o, (t1 ++ [InsertFeedback
                       (Worker.build_record w payload src rawText labels)])%list))
            = [Worker.build_record w payload src rawText labels]) as Hone.
  { intros o. cbn [snd]. rewrite stored_app, Hst. reflexivity. }
  intros Hin.
  assert (r = Worker.build_record w payload src rawText labels) as ->.
  { destruct (insert_answer w) as [[]|e]; rewrite Hone in Hin;
      destruct Hin as [<-|[]]; reflexivity. }
  clear Hin Hone. cbn [Worker.build_record raw_text source summary].
  apply nonempty_true in Hraw. split; [exact Hraw|].
  eexists; split; [reflexivity|]; split;
    [apply or_else_nonempty, slice0_nonempty, Hraw|].
  intros payload' labels' t1' [= <-] Hinfer' Hp Hl.
  rewrite Hinfer in Hinfer'; injection Hinfer' as <- <-.
  unfold Js.coalesce; destruct (Js.nullish (Js.prop payload "summary"));
    [rewrite Hl|rewrite Hp]; reflexivity.
Qed.

(** [ingest_summary_nonempty] at a payload without labels, no classifier
    configured: the summary is the trimmed text. *)
Lemma ingest_summary_nonempty_witness :
  exists r,
    In r (stored (snd (start (Worker.ingest Testing.JSON_parse Testing.new_Ai
                              Testing.world (Some Testing.sample_payload)))))
    /\ raw_text r <> ""
    /\ summary r = Some "Login is broken".
Proof.
  set (r := Worker.build_record Testing.world Testing.sample_payload "github" "Login is broken" None).
  assert (Hin : In r (stored (snd (start (Worker.ingest Testing.JSON_parse Testing.new_Ai
                                          Testing.world (Some Testing.sample_payload)))))).
  { vm_compute. left. reflexivity. }
  exists r. split; [exact Hin|].
  destruct (ingest_summary_nonempty _ _ _ _ _ Hin) as [Hraw _].
  split; [exact Hraw | reflexivity].
Defined.

(** ** The daily runs *)



(** The recommendation step always returns, and asks nothing of the
    webhook or the log table. *)
Lemma recommend_returns (w : World) (top : list Issue) (keep : list string -> list string)
    (t : list event) :
  exists acts t',
    Analysis.recommend w top keep t = (Js.Returned acts, t')
    /\ posts t' = posts t /\ log_rows t' = log_rows t.
Proof.
  unfold Analysis.recommend.
  destruct (AI w) as [answer|]; [|eexists _, _; repeat split].
  destruct (0 <? length top)%nat; [|eexists _, _; repeat split].
  unfold try_catch, mbind, M_bind, call, mret, M_ret, throw.
  assert (posts (t ++ [AiRun "@cf/mistral/mistral-7b-instruct-v0.1"
                         (map Analysis.issue_line top)])%list = posts t
          /\ log_rows (t ++ [AiRun "@cf/mistral/mistral-7b-instruct-v0.1"
                               (map Analysis.issue_line top)])%list = log_rows t)
    as [Hp Hl].
  { rewrite posts_app, log_rows_app. simpl. rewrite !app_nil_r. split; reflexivity. }
  destruct answer as [response|e]; [|eexists _, _; repeat split; eassumption].
  destruct (Js.truthy (Analysis.response_text response));
    [|eexists _, _; repeat split; eassumption].
  destruct (Analysis.response_text response); eexists _, _; repeat split; eassumption.
Qed.

Lemma scheduled_analyze_returns (w : World) (rows : list Feedback) (t : list event) :
  exists analysis t',
    Scheduled.analyzeFeedback w rows t = (Js.Returned analysis, t')
    /\ posts t' = posts t /\ log_rows t' = log_rows t
    /\ Scheduled.totalFeedback analysis = length rows
    /\ Scheduled.urgentCount analysis = Scheduled.t_urgentCount (Scheduled.tally rows)
    /\ Scheduled.byPriority analysis = Scheduled.t_byPriority (Scheduled.tally rows).
Proof.
  unfold Scheduled.analyzeFeedback, mbind, M_bind.
  destruct (recommend_returns w (Analysis.top_issues (Scheduled.t_issues (Scheduled.tally rows)))
              (firstn 4) t) as (acts & t' & -> & Hp & Hl).
  eexists _, _. repeat split; assumption.
Qed.

Lemma workflow_analyze_returns (w : World) (rows : list Feedback) (t : list event) :
  exists analysis t',
    Workflow.analyzeWithAI w rows t = (Js.Returned analysis, t')
    /\ posts t' = posts t /\ log_rows t' = log_rows t
    /\ Workflow.totalFeedback analysis = length rows
    /\ Workflow.urgentItems analysis = Workflow.t_urgentItems (Workflow.tally rows)
    /\ Workflow.byPriority analysis = Workflow.t_byPriority (Workflow.tally rows).
Proof.
  unfold Workflow.analyzeWithAI.
  destruct rows as [|r rows]; [eexists _, _; repeat split|].
  cbn [length Nat.eqb]. unfold mbind, M_bind.
  destruct (recommend_returns w
              (Analysis.top_issues (Workflow.t_issues (Workflow.tally (r :: rows))))
              (fun lines => lines) t) as (acts & t' & -> & Hp & Hl).
  eexists _, _. repeat split; assumption.
Qed.

(** *** The trace of [handleScheduled] *)

Section ScheduledRun.

Variable JSON_stringify : Scheduled.AnalysisResult -> string.

(** Nothing fetched: the handler returns right after the query. *)
Lemma handleScheduled_nothing (w : World) :
  select_answer w = Js.Returned None \/ select_answer w = Js.Returned (Some []) ->
  start (Scheduled.handleScheduled JSON_stringify w)
  = (Js.Returned tt, [SelectRecent (yesterday_iso w)]).
Proof.
  intros H. unfold start, Scheduled.handleScheduled, try_catch, mbind, M_bind, call.
  destruct H as [-> | ->]; reflexivity.
Qed.

(** The log write returns whatever the table answers. *)
Lemma scheduled_logAnalysis_trace (w : World) (analysis : Scheduled.AnalysisResult)
    (t : list event) :
  Scheduled.logAnalysis JSON_stringify w analysis t
  = (Js.Returned tt, (t ++ [InsertLog (Scheduled.log_row JSON_stringify w analysis)])%list).
Proof.
  unfold Scheduled.logAnalysis, try_catch, call.
  destruct (insert_answer w) as [[]|e]; reflexivity.
Qed.

Lemma scheduled_sendToSlack_trace (w : World) (analysis : Scheduled.AnalysisResult)
    (url : string) (rows : list Feedback) (t : list event) :
  Scheduled.sendToSlack w analysis url rows t
  = (Js.Returned tt,
     (t ++ [Post url (Blocks (Scheduled.blocks_of analysis rows))])%list).
Proof.
  unfold Scheduled.sendToSlack, try_catch, mbind, M_bind, call.
  destruct (fetch_answer w) as [response|e]; reflexivity.
Qed.

(** Records fetched, webhook configured: analysis, one post, one log row. *)
Lemma handleScheduled_delivers (w : World) (rows : list Feedback) (url : string) :
  select_answer w = Js.Returned (Some rows) -> rows <> [] ->
  SLACK_WEBHOOK_URL w = Some url -> url <> "" ->
  exists analysis t1,
    Scheduled.analyzeFeedback w rows [SelectRecent (yesterday_iso w)]
    = (Js.Returned analysis, t1)
    /\ posts t1 = [] /\ log_rows t1 = []
    /\ start (Scheduled.handleScheduled JSON_stringify w)
       = (Js.Returned tt,
          (t1 ++ [Post url (Blocks (Scheduled.blocks_of analysis rows));
                  InsertLog (Scheduled.log_row JSON_stringify w analysis)])%list).
Proof.
  intros Hsel Hrows Hurl Hne.
  destruct (scheduled_analyze_returns w rows [SelectRecent (yesterday_iso w)])
    as (analysis & t1 & Han & Hp & Hl & _).
  exists analysis, t1. repeat split; try assumption.
  unfold start, Scheduled.handleScheduled. apply try_returned.
  erewrite bind_returned by (rewrite call_answer, Hsel; reflexivity).
  destruct rows as [|r rows]; [congruence|].
  returns Han.
  rewrite Hurl. cbn [configured default from_option]. unfold id.
  apply nonempty_true in Hne. rewrite Hne.
  erewrite bind_returned by apply scheduled_sendToSlack_trace.
  rewrite scheduled_logAnalysis_trace, <- app_assoc. reflexivity.
Qed.

(** Records fetched, no webhook: analysis and one log row. *)
Lemma handleScheduled_silent (w : World) (rows : list Feedback) :
  select_answer w = Js.Returned (Some rows) -> rows <> [] ->
  configured (SLACK_WEBHOOK_URL w) = false ->
  exists analysis t1,
    Scheduled.analyzeFeedback w rows [SelectRecent (yesterday_iso w)]
    = (Js.Returned analysis, t1)
    /\ posts t1 = [] /\ log_rows t1 = []
    /\ start (Scheduled.handleScheduled JSON_stringify w)
       = (Js.Returned tt,
          (t1 ++ [InsertLog (Scheduled.log_row JSON_stringify w analysis)])%list).
Proof.
  intros Hsel Hrows Hurl.
  destruct (scheduled_analyze_returns w rows [SelectRecent (yesterday_iso w)])
    as (analysis & t1 & Han & Hp & Hl & _).
  exists analysis, t1. repeat split; try assumption.
  unfold start, Scheduled.handleScheduled. apply try_returned.
  erewrite bind_returned by (rewrite call_answer, Hsel; reflexivity).
  destruct rows as [|r rows]; [congruence|].
  returns Han.
  rewrite Hurl.
  erewrite bind_returned by reflexivity.
  apply scheduled_logAnalysis_trace.
Qed.

End ScheduledRun.

(** *** The trace of the workflow's [run] *)

Section WorkflowRun.

Variable new_URL : string -> option URL.
Variable JSON_stringify : Workflow.AnalysisResult -> string.

Lemma workflow_logAnalysis_trace (w : World) (insights : Workflow.AnalysisResult)
    (t : list event) :
  Workflow.logAnalysis JSON_stringify w insights t
  = (Js.Returned tt, (t ++ [InsertLog (Workflow.log_row JSON_stringify w insights)])%list).
Proof.
  unfold Workflow.logAnalysis, try_catch, call.
  destruct (insert_answer w) as [[]|e]; reflexivity.
Qed.

Lemma workflow_sendToSlack_trace (w : World) (insights : Workflow.AnalysisResult)
    (url : string) (parsed : URL) (t : list event) :
  SLACK_WEBHOOK_URL w = Some url -> url <> "" -> new_URL url = Some parsed ->
  Workflow.sendToSlack new_URL w insights t
  = (Js.Returned (slack_result (fetch_answer w)),
     (t ++ [Post url (Blocks (Workflow.blocks_of insights
                                (origin parsed ++ "/dashboard")))])%list).
Proof.
  intros Hurl Hne Hparse.
  unfold Workflow.sendToSlack. rewrite Hurl. cbn [configured default from_option].
  unfold id. apply nonempty_true in Hne. rewrite Hne. cbn [negb]. rewrite Hparse.
  destruct (fetch_answer w) as [response|e].
  - apply try_returned.
    erewrite bind_returned by apply call_answer. reflexivity.
  - erewrite try_thrown by (erewrite bind_thrown by apply call_answer; reflexivity).
    reflexivity.
Qed.

(** Webhook configured and parsed: analysis, one post, one log row,
    whatever was fetched and whatever the webhook answers. *)
Lemma workflow_delivers (w : World) (results : option (list Feedback))
    (url : string) (parsed : URL) :
  select_answer w = Js.Returned results ->
  SLACK_WEBHOOK_URL w = Some url -> url <> "" -> new_URL url = Some parsed ->
  exists analysis t1,
    Workflow.analyzeWithAI w (default [] results) [SelectRecent (yesterday_iso w)]
    = (Js.Returned analysis, t1)
    /\ posts t1 = [] /\ log_rows t1 = []
    /\ start (Workflow.run new_URL JSON_stringify w)
       = (Js.Returned (Workflow.insights_of analysis),
          (t1 ++ [Post url (Blocks (Workflow.blocks_of (Workflow.insights_of analysis)
                                      (origin parsed ++ "/dashboard")));
                  InsertLog (Workflow.log_row JSON_stringify w
                               (Workflow.insights_of analysis))])%list).
Proof.
  intros Hsel Hurl Hne Hparse.
  destruct (workflow_analyze_returns w (default [] results) [SelectRecent (yesterday_iso w)])
    as (analysis & t1 & Han & Hp & Hl & _).
  exists analysis, t1. repeat split; try assumption.
  unfold start, Workflow.run.
  erewrite bind_returned
    by (unfold Workflow.fetchRecentFeedback;
        erewrite bind_returned by (rewrite call_answer, Hsel; reflexivity);
        reflexivity).
  returns Han.
  erewrite bind_returned by reflexivity.
  erewrite bind_returned by (apply workflow_sendToSlack_trace; eassumption).
  erewrite bind_returned by apply workflow_logAnalysis_trace.
  rewrite <- app_assoc. reflexivity.
Qed.

(** No webhook: analysis and one log row. *)
Lemma workflow_silent (w : World) (results : option (list Feedback)) :
  select_answer w = Js.Returned results ->
  configured (SLACK_WEBHOOK_URL w) = false ->
  exists analysis t1,
    Workflow.analyzeWithAI w (default [] results) [SelectRecent (yesterday_iso w)]
    = (Js.Returned analysis, t1)
    /\ posts t1 = [] /\ log_rows t1 = []
    /\ start (Workflow.run new_URL JSON_stringify w)
       = (Js.Returned (Workflow.insights_of analysis),
          (t1 ++ [InsertLog (Workflow.log_row JSON_stringify w
                               (Workflow.insights_of analysis))])%list).
Proof.
  intros Hsel Hurl.
  destruct (workflow_analyze_returns w (default [] results) [SelectRecent (yesterday_iso w)])
    as (analysis & t1 & Han & Hp & Hl & _).
  exists analysis, t1. repeat split; try assumption.
  unfold start, Workflow.run.
  erewrite bind_returned
    by (unfold Workflow.fetchRecentFeedback;
        erewrite bind_returned by (rewrite call_answer, Hsel; reflexivity);
        reflexivity).
  returns Han.
  erewrite bind_returned by reflexivity.
  erewrite bind_returned
    by (unfold Workflow.sendToSlack; rewrite Hurl; reflexivity).
  erewrite bind_returned by apply workflow_logAnalysis_trace. reflexivity.
Qed.

End WorkflowRun.

(** *** Urgent items *)

Lemma is_urgent_key_or_else (item : Feedback) :
  Analysis.is_urgent_key (Js.or_else (priority item) "unknown") = Analysis.is_urgent item.
Proof.
  unfold Analysis.is_urgent, Js.or_else.
  destruct (priority item) as [p|]; [|reflexivity].
  destruct p; reflexivity.
Qed.

Lemma workflow_urgent_fold (rows : list Feedback) (st : Workflow.Tally) :
  Workflow.t_urgentItems (fold_left Workflow.visit rows st)
  = (Workflow.t_urgentItems st ++ List.filter Analysis.is_urgent rows)%list.
Proof.
  revert st. induction rows as [|item rows IH]; intros st; simpl.
  - symmetry. apply app_nil_r.
  - rewrite IH. cbn [Workflow.visit Workflow.t_urgentItems].
    rewrite is_urgent_key_or_else.
    destruct (Analysis.is_urgent item); [rewrite <- app_assoc|]; reflexivity.
Qed.

Lemma scheduled_urgent_fold (rows : list Feedback) (st : Scheduled.Tally) :
  Scheduled.t_urgentCount (fold_left Scheduled.visit rows st)
  = Scheduled.t_urgentCount st + length (List.filter Analysis.is_urgent rows).
Proof.
  revert st. induction rows as [|item rows IH]; intros st; simpl.
  - lia.
  - rewrite IH. cbn [Scheduled.visit Scheduled.t_urgentCount].
    rewrite is_urgent_key_or_else.
    destruct (Analysis.is_urgent item); simpl; lia.
Qed.

Lemma listed_urgent_blocks (items : list Feedback) :
  listed_urgent (map Analysis.urgent_block items) = map Analysis.urgent_block items.
Proof. induction items as [|i items IH]; simpl; [|rewrite IH]; reflexivity. Qed.

Lemma urgent_headers_blocks (items : list Feedback) :
  urgent_headers (map Analysis.urgent_block items) = [].
Proof. induction items as [|i items IH]; simpl; [|rewrite IH]; reflexivity. Qed.

Lemma scheduled_blocks_urgent (analysis : Scheduled.AnalysisResult) (rows : list Feedback) :
  listed_urgent (Scheduled.blocks_of analysis rows)
  = (if (0 <? Scheduled.urgentCount analysis)%nat
     then map Analysis.urgent_block (firstn 3 (List.filter Analysis.is_urgent rows))
     else [])
  /\ urgent_headers (Scheduled.blocks_of analysis rows)
     = (if (0 <? Scheduled.urgentCount analysis)%nat
        then [Scheduled.urgentCount analysis] else []).
Proof.
  unfold Scheduled.blocks_of, listed_urgent, urgent_headers.
  rewrite !List.filter_app, !omap_app.
  fold listed_urgent urgent_headers.
  destruct (0 <? length (Scheduled.topIssues analysis))%nat;
  destruct (0 <? length (Scheduled.recommendedActions analysis))%nat;
  destruct (0 <? Scheduled.urgentCount analysis)%nat; simpl;
  try (split; reflexivity).
  all: fold listed_urgent urgent_headers;
       rewrite ?List.filter_app, ?omap_app; fold listed_urgent urgent_headers;
       rewrite ?listed_urgent_blocks, ?urgent_headers_blocks; simpl;
       rewrite ?app_nil_r; split; reflexivity.
Qed.

Lemma workflow_blocks_urgent (insights : Workflow.AnalysisResult) (dashboard : string) :
  listed_urgent (Workflow.blocks_of insights dashboard)
  = map Analysis.urgent_block (firstn 3 (Workflow.urgentItems insights))
  /\ urgent_headers (Workflow.blocks_of insights dashboard)
     = (if (0 <? length (Workflow.urgentItems insights))%nat
        then [length (Workflow.urgentItems insights)] else []).
Proof.
  unfold Workflow.blocks_of, listed_urgent, urgent_headers.
  rewrite !List.filter_app, !omap_app.
  fold listed_urgent urgent_headers.
  destruct (0 <? length (Workflow.topIssues insights))%nat;
  destruct (0 <? length (Workflow.recommendedActions insights))%nat;
  destruct (Workflow.urgentItems insights) as [|u us] eqn:E; simpl;
  try (split; reflexivity).
  all: fold listed_urgent urgent_headers;
       rewrite ?List.filter_app, ?omap_app; fold listed_urgent urgent_headers;
       rewrite ?listed_urgent_blocks, ?urgent_headers_blocks; simpl;
       rewrite ?app_nil_r; split; reflexivity.
Qed.

Lemma workflow_priority_fold (rows : list Feedback) (st : Workflow.Tally) :
  Workflow.t_byPriority (fold_left Workflow.visit rows st)
  = fold_left Js.bump (map priority_key rows) (Workflow.t_byPriority st).
Proof.
  revert st. induction rows as [|item rows IH]; intros st; [reflexivity|].
  cbn [fold_left map]. rewrite IH. reflexivity.
Qed.

Lemma scheduled_priority_fold (rows : list Feedback) (st : Scheduled.Tally) :
  Scheduled.t_byPriority (fold_left Scheduled.visit rows st)
  = fold_left Js.bump (map priority_key rows) (Scheduled.t_byPriority st).
Proof.
  revert st. induction rows as [|item rows IH]; intros st; [reflexivity|].
  cbn [fold_left map]. rewrite IH. reflexivity.
Qed.

Lemma urgent_count_split (rows : list Feedback) :
  length (List.filter Analysis.is_urgent rows)
  = count_occ string_dec (map priority_key rows) "P0"
    + count_occ string_dec (map priority_key rows) "P1".
Proof.
  induction rows as [|r rows IH]; [reflexivity|].
  cbn [List.filter map count_occ]. rewrite <- is_urgent_key_or_else.
  fold (priority_key r). unfold Analysis.is_urgent_key.
  destruct (string_dec (priority_key r) "P0") as [E0|N0];
    destruct (string_dec (priority_key r) "P1") as [E1|N1].
  - congruence.
  - rewrite E0. cbn [String.eqb Ascii.eqb Bool.eqb orb length]. rewrite IH. lia.
  - rewrite E1. cbn [String.eqb Ascii.eqb Bool.eqb orb length]. rewrite IH. lia.
  - apply String.eqb_neq in N0, N1. rewrite N0, N1. cbn [orb]. exact IH.
Qed.

Lemma count_or_zero_counted (o : gmap string Js.cell) (k : string) (n : nat) :
  o !! k = counted n -> Js.count_or_zero o k = Js.Count n.
Proof.
  intros H. unfold Js.count_or_zero. rewrite H. destruct n; reflexivity.
Qed.

(** Claim C6, as the code has it. The analysis collects exactly the
    records whose priority is P0 or P1, in fetch order. The workflow's
    AnalysisResult keeps the first five of them and its message lists the
    first three of those. The handler's AnalysisResult keeps their full
    number, shows that number in the message and lists the first three
    records. In both, [byPriority] keeps the full numbers of P0 and of P1
    records, which add up to the number of urgent records. *)
Theorem urgent_items_collected_and_capped (w : World) (rows : list Feedback) (t : list event) :
  let urgent := List.filter Analysis.is_urgent rows in
  let p0 := count_occ string_dec (map priority_key rows) "P0" in
  let p1 := count_occ string_dec (map priority_key rows) "P1" in
  length urgent = p0 + p1
  /\ (exists analysis t',
        Workflow.analyzeWithAI w rows t = (Js.Returned analysis, t')
        /\ Workflow.urgentItems analysis = urgent
        /\ Workflow.urgentItems (Workflow.insights_of analysis) = firstn 5 urgent
        /\ length (Workflow.urgentItems (Workflow.insights_of analysis)) <= 5
        /\ (forall dashboard,
              listed_urgent (Workflow.blocks_of (Workflow.insights_of analysis) dashboard)
              = map Analysis.urgent_block (firstn 3 urgent))
        /\ Js.count_or_zero (Workflow.byPriority (Workflow.insights_of analysis)) "P0"
           = Js.Count p0
        /\ Js.count_or_zero (Workflow.byPriority (Workflow.insights_of analysis)) "P1"
           = Js.Count p1)
  /\ (exists analysis t',
        Scheduled.analyzeFeedback w rows t = (Js.Returned analysis, t')
        /\ Scheduled.urgentCount analysis = length urgent
        /\ listed_urgent (Scheduled.blocks_of analysis rows)
           = map Analysis.urgent_block (firstn 3 urgent)
        /\ urgent_headers (Scheduled.blocks_of analysis rows)
           = (if (0 <? length urgent)%nat then [length urgent] else [])
        /\ Js.count_or_zero (Scheduled.byPriority analysis) "P0" = Js.Count p0
        /\ Js.count_or_zero (Scheduled.byPriority analysis) "P1" = Js.Count p1).
Proof.
  intros urgent p0 p1. split; [apply urgent_count_split|]. split.
  - destruct (workflow_analyze_returns w rows t)
      as (analysis & t' & Han & _ & _ & _ & Hu & Hbp).
    exists analysis, t'. split; [exact Han|].
    assert (Workflow.urgentItems analysis = urgent) as Hall.
    { rewrite Hu. unfold Workflow.tally. rewrite workflow_urgent_fold. reflexivity. }
    split; [exact Hall|].
    cbn [Workflow.insights_of Workflow.urgentItems Workflow.byPriority]. rewrite Hall.
    split; [reflexivity|]. split; [apply firstn_le_length|].
    split.
    { intros dashboard.
      destruct (workflow_blocks_urgent (Workflow.insights_of analysis) dashboard) as [-> _].
      cbn [Workflow.insights_of Workflow.urgentItems]. rewrite Hall.
      rewrite firstn_firstn. reflexivity. }
    rewrite Hbp. unfold Workflow.tally. rewrite workflow_priority_fold.
    split; apply count_or_zero_counted, (lookup_fold_bump _ ∅ _ 0); reflexivity.
  - destruct (scheduled_analyze_returns w rows t)
      as (analysis & t' & Han & _ & _ & _ & Hu & Hbp).
    exists analysis, t'. split; [exact Han|].
    assert (Scheduled.urgentCount analysis = length urgent) as Hall.
    { rewrite Hu. unfold Scheduled.tally. rewrite scheduled_urgent_fold. reflexivity. }
    split; [exact Hall|].
    destruct (scheduled_blocks_urgent analysis rows) as [-> ->]. rewrite Hall.
    split; [subst urgent; destruct (List.filter Analysis.is_urgent rows); reflexivity|].
    split; [reflexivity|].
    rewrite Hbp. unfold Scheduled.tally. rewrite scheduled_priority_fold.
    split; apply count_or_zero_counted, (lookup_fold_bump _ ∅ _ 0); reflexivity.
Qed.

(** Claim C6 as stated fails on six P0 records: the workflow's
    AnalysisResult holds five urgent items, and five is the number its
    message shows. *)
Lemma six_urgent_records_five_kept :
  let rows := map (fun n => Testing.row n (Some "P0") (Some "negative") (Some "bug")
                               "Checkout is down" "2025-01-19T00:00:00.000Z")
                  ["1"; "2"; "3"; "4"; "5"; "6"] in
  exists analysis,
    fst (start (Workflow.analyzeWithAI Testing.world rows)) = Js.Returned analysis
    /\ length (List.filter Analysis.is_urgent rows) = 6
    /\ length (Workflow.urgentItems (Workflow.insights_of analysis)) = 5
    /\ urgent_headers (Workflow.blocks_of (Workflow.insights_of analysis) "/dashboard") = [5].
Proof.
  intros rows.
  destruct (workflow_analyze_returns Testing.world rows [])
    as (analysis & t' & Han & _ & _ & _ & Hu & _).
  exists analysis. unfold start. rewrite Han. split; [reflexivity|].
  split; [reflexivity|].
  assert (Workflow.urgentItems analysis = rows) as Hall.
  { rewrite Hu. unfold Workflow.tally. rewrite workflow_urgent_fold. reflexivity. }
  split.
  - cbn [Workflow.insights_of Workflow.urgentItems]. rewrite Hall. reflexivity.
  - destruct (workflow_blocks_urgent (Workflow.insights_of analysis) "/dashboard") as [_ ->].
    cbn [Workflow.insights_of Workflow.urgentItems]. rewrite Hall. reflexivity.
Qed.

(** *** Delivery and logging *)

(** Claim C4. Once records are fetched and a delivery is attempted, the
    run posts once and then writes one log row, whatever the webhook
    answers (an error thrown, a response that is not ok, or success):
    the row's [data] is the serialized AnalysisResult that was computed
    before the post and that the post itself was built from. *)
Theorem logging_follows_any_delivery
    (stringify_s : Scheduled.AnalysisResult -> string)
    (stringify_w : Workflow.AnalysisResult -> string)
    (new_URL : string -> option URL)
    (w : World) (rows : list Feedback) (url : string) (parsed : URL) :
  select_answer w = Js.Returned (Some rows) ->
  SLACK_WEBHOOK_URL w = Some url -> url <> "" -> new_URL url = Some parsed ->
  (rows <> [] ->
   exists analysis t1 row,
     Scheduled.analyzeFeedback w rows [SelectRecent (yesterday_iso w)]
     = (Js.Returned analysis, t1)
     /\ posts t1 = [] /\ log_rows t1 = []
     /\ start (Scheduled.handleScheduled stringify_s w)
        = (Js.Returned tt,
           (t1 ++ [Post url (Blocks (Scheduled.blocks_of analysis rows)); InsertLog row])%list)
     /\ data row = stringify_s analysis)
  /\ (exists analysis t1 row,
        Workflow.analyzeWithAI w rows [SelectRecent (yesterday_iso w)]
        = (Js.Returned analysis, t1)
        /\ posts t1 = [] /\ log_rows t1 = []
        /\ start (Workflow.run new_URL stringify_w w)
           = (Js.Returned (Workflow.insights_of analysis),
              (t1 ++ [Post url (Blocks (Workflow.blocks_of (Workflow.insights_of analysis)
                                          (origin parsed ++ "/dashboard")));
                      InsertLog row])%list)
        /\ data row = stringify_w (Workflow.insights_of analysis)).
Proof.
  intros Hsel Hurl Hne Hparse. split.
  - intros Hrows.
    destruct (handleScheduled_delivers stringify_s w rows url Hsel Hrows Hurl Hne)
      as (analysis & t1 & Han & Hp & Hl & Hrun).
    exists analysis, t1, (Scheduled.log_row stringify_s w analysis).
    repeat split; assumption.
  - destruct (workflow_delivers new_URL stringify_w w (Some rows) url parsed
                Hsel Hurl Hne Hparse) as (analysis & t1 & Han & Hp & Hl & Hrun).
    exists analysis, t1, (Workflow.log_row stringify_w w (Workflow.insights_of analysis)).
    repeat split; assumption.
Qed.

(** [logging_follows_any_delivery] with a webhook that throws. *)
Lemma logging_follows_any_delivery_witness :
  let w := Testing.with_fetch (Js.Thrown "network down")
             (Testing.with_webhook Testing.slack_url (Testing.with_rows Testing.one_row Testing.world)) in
  (exists row analysis,
     log_rows (snd (start (Scheduled.handleScheduled Testing.stringify_s w))) = [row]
     /\ data row = Testing.stringify_s analysis)
  /\ (exists row analysis,
        log_rows (snd (start (Workflow.run Testing.new_URL Testing.stringify_w w))) = [row]
        /\ data row = Testing.stringify_w analysis).
Proof.
  intros w.
  destruct (logging_follows_any_delivery Testing.stringify_s Testing.stringify_w Testing.new_URL
              w Testing.one_row Testing.slack_url
              {| hostname := "hooks.slack.com"; pathname := "/services/T0/B0/secret";
                 origin := "https://hooks.slack.com" |})
    as [Hs Hw]; [reflexivity | reflexivity | discriminate | reflexivity |].
  split.
  - destruct Hs as (analysis & t1 & row & _ & _ & Hl & Hrun & Hdata); [discriminate|].
    exists row, analysis. rewrite Hrun. cbn [snd]. rewrite log_rows_app, Hl.
    split; [reflexivity | exact Hdata].
  - destruct Hw as (analysis & t1 & row & _ & _ & Hl & Hrun & Hdata).
    exists row, (Workflow.insights_of analysis). rewrite Hrun. cbn [snd].
    rewrite log_rows_app, Hl. split; [reflexivity | exact Hdata].
Defined.

(** Claim C2, as the code has it. When the 24-hour query returns no
    record, the handler of [scheduled-handler.ts] returns right after the
    query: no post, and no log row either. The workflow builds the
    zero-valued AnalysisResult and writes one log row carrying it; it
    skips the post only when no webhook is configured, and otherwise
    posts the zero-valued message first. *)
Theorem empty_fetch_runs
    (stringify_s : Scheduled.AnalysisResult -> string)
    (stringify_w : Workflow.AnalysisResult -> string)
    (new_URL : string -> option URL) (w : World) :
  select_answer w = Js.Returned None \/ select_answer w = Js.Returned (Some []) ->
  start (Scheduled.handleScheduled stringify_s w)
  = (Js.Returned tt, [SelectRecent (yesterday_iso w)])
  /\ (configured (SLACK_WEBHOOK_URL w) = false ->
      start (Workflow.run new_URL stringify_w w)
      = (Js.Returned zero_result,
         [SelectRecent (yesterday_iso w);
          InsertLog (Workflow.log_row stringify_w w zero_result)]))
  /\ (forall url parsed,
        SLACK_WEBHOOK_URL w = Some url -> url <> "" -> new_URL url = Some parsed ->
        start (Workflow.run new_URL stringify_w w)
        = (Js.Returned zero_result,
           [SelectRecent (yesterday_iso w);
            Post url (Blocks (zero_blocks (origin parsed ++ "/dashboard")));
            InsertLog (Workflow.log_row stringify_w w zero_result)])).
Proof.
  intros Hsel. split; [apply handleScheduled_nothing, Hsel|].
  assert (exists results, select_answer w = Js.Returned results /\ default [] results = [])
    as (results & Hres & Hnil).
  { destruct Hsel as [H|H]; eexists; (split; [exact H | reflexivity]). }
  split.
  - intros Hoff.
    destruct (workflow_silent new_URL stringify_w w results Hres Hoff)
      as (analysis & t1 & Han & _ & _ & Hrun).
    rewrite Hnil in Han. injection Han as <- <-. exact Hrun.
  - intros url parsed Hurl Hne Hparse.
    destruct (workflow_delivers new_URL stringify_w w results url parsed Hres Hurl Hne Hparse)
      as (analysis & t1 & Han & _ & _ & Hrun).
    rewrite Hnil in Han. injection Han as <- <-. exact Hrun.
Qed.

(** [empty_fetch_runs] with and without a webhook. *)
Lemma empty_fetch_runs_witness :
  log_rows (snd (start (Scheduled.handleScheduled Testing.stringify_s Testing.world))) = []
  /\ length (log_rows (snd (start (Workflow.run Testing.new_URL Testing.stringify_w
                                   Testing.world)))) = 1
  /\ map fst (posts (snd (start (Workflow.run Testing.new_URL Testing.stringify_w
                                 (Testing.with_webhook Testing.slack_url Testing.world)))))
     = [Testing.slack_url].
Proof.
  destruct (empty_fetch_runs Testing.stringify_s Testing.stringify_w Testing.new_URL Testing.world)
    as (Hs & Hoff & _); [right; reflexivity|].
  destruct (empty_fetch_runs Testing.stringify_s Testing.stringify_w Testing.new_URL
              (Testing.with_webhook Testing.slack_url Testing.world))
    as (_ & _ & Hon); [right; reflexivity|].
  rewrite Hs, (Hoff eq_refl).
  rewrite (Hon Testing.slack_url
             {| hostname := "hooks.slack.com"; pathname := "/services/T0/B0/secret";
                origin := "https://hooks.slack.com" |} eq_refl);
    [repeat split | discriminate | reflexivity].
Defined.

(** Claim C2 as stated (no post, and exactly one log row) fails for both
    runs: with a webhook configured the workflow posts, and the handler
    writes no log row. *)
Lemma empty_fetch_posts_or_skips_log :
  let w := Testing.with_webhook Testing.slack_url Testing.world in
  select_answer w = Js.Returned (Some [])
  /\ ~ (posts (snd (start (Workflow.run Testing.new_URL Testing.stringify_w w))) = []
        /\ length (log_rows (snd (start (Workflow.run Testing.new_URL Testing.stringify_w w)))) = 1)
  /\ ~ (posts (snd (start (Scheduled.handleScheduled Testing.stringify_s w))) = []
        /\ length (log_rows (snd (start (Scheduled.handleScheduled Testing.stringify_s w)))) = 1).
Proof.
  intros w. split; [reflexivity|]. split.
  - intros [H _]. vm_compute in H. discriminate H.
  - intros [_ H]. vm_compute in H. discriminate H.
Qed.




(** ** GET /api/stats *)

Section StatsFacts.

Variable Date_getTime : string -> option Z.

(** The loop of the handler, field by field. *)
Lemma stats_fold (d : Z) (rows : list Feedback) (acc : Worker.Stats * list (string * nat)) :
  let acc' := fold_left (Worker.visit Date_getTime d) rows acc in
  Worker.total (fst acc') = Worker.total (fst acc)
  /\ Worker.byPriority (fst acc')
     = fold_left Js.bump (map priority_key rows) (Worker.byPriority (fst acc))
  /\ Worker.bySentiment (fst acc')
     = fold_left Js.bump (map sentiment_key rows) (Worker.bySentiment (fst acc))
  /\ Worker.byCategory (fst acc')
     = fold_left Js.bump (map category_key rows) (Worker.byCategory (fst acc))
  /\ Worker.last7Days (fst acc')
     = Worker.last7Days (fst acc)
       + length (List.filter (Worker.recent Date_getTime d) rows)
  /\ snd acc' = fold_left Worker.count_word (all_words rows) (snd acc).
Proof.
  revert acc. induction rows as [|r rows IH]; intros [st wordFreq].
  - cbn. repeat split. lia.
  - cbn [fold_left]. cbv zeta.
    destruct (IH (Worker.visit Date_getTime d (st, wordFreq) r))
      as (Ht & Hp & Hs & Hc & Hl & Hw).
    rewrite Ht, Hp, Hs, Hc, Hl, Hw. clear.
    cbn [Worker.visit fst snd Worker.total Worker.byPriority Worker.bySentiment
         Worker.byCategory Worker.last7Days map List.filter].
    repeat split.
    + destruct (Worker.recent Date_getTime d r); cbn [length]; lia.
    + unfold all_words. cbn [map concat]. rewrite fold_left_app. reflexivity.
Qed.

(** The response of the handler, field by field. *)
Lemma api_stats_fields (now : Z) (records : list Feedback) :
  let s := Worker.api_stats Date_getTime now records in
  Worker.total s = length records
  /\ Worker.byPriority s = fold_left Js.bump (map priority_key records) ∅
  /\ Worker.bySentiment s = fold_left Js.bump (map sentiment_key records) ∅
  /\ Worker.byCategory s = fold_left Js.bump (map category_key records) ∅
  /\ Worker.last7Days s
     = length (List.filter
                 (Worker.recent Date_getTime (now - 7 * 24 * 60 * 60 * 1000)%Z) records)
  /\ Worker.topWords s
     = firstn 50 (Js.sort_desc snd (fold_left Worker.count_word (all_words records) [])).
Proof.
  unfold Worker.api_stats.
  pose proof (stats_fold (now - 7 * 24 * 60 * 60 * 1000)%Z records
    ({| Worker.total := length records; Worker.byPriority := ∅; Worker.bySentiment := ∅;
        Worker.byCategory := ∅; Worker.last7Days := 0; Worker.topWords := [] |}, [])) as H.
  cbv zeta in H.
  destruct (fold_left (Worker.visit Date_getTime (now - 7 * 24 * 60 * 60 * 1000)%Z) records _)
    as [stats wordFreq].
  cbn [fst snd] in H. destruct H as (Ht & Hp & Hs & Hc & Hl & Hw).
  cbn [Worker.total Worker.byPriority Worker.bySentiment Worker.byCategory
       Worker.last7Days Worker.topWords] in *.
  subst wordFreq. repeat split; assumption.
Qed.

End StatsFacts.

Lemma sum_values_empty : Js.sum_values ∅ = Some 0.
Proof. unfold Js.sum_values. apply map_fold_empty. Qed.

(** When no label of any record is named after a member of
    [Object.prototype], each of the three maps sums to the total. *)
Theorem distribution_sums_plain_labels (Date_getTime : string -> option Z) (now : Z)
    (records : list Feedback) :
  Forall plain_labels records ->
  let s := Worker.api_stats Date_getTime now records in
  Worker.total s = length records
  /\ Js.sum_values (Worker.byPriority s) = Some (Worker.total s)
  /\ Js.sum_values (Worker.bySentiment s) = Some (Worker.total s)
  /\ Js.sum_values (Worker.byCategory s) = Some (Worker.total s).
Proof.
  intros Hplain s.
  destruct (api_stats_fields Date_getTime now records) as (Ht & Hp & Hs & Hc & _).
  fold s in Ht, Hp, Hs, Hc. rewrite Ht, Hp, Hs, Hc.
  split; [reflexivity|].
  repeat split.
  all: rewrite (sum_values_fold_bump _ ∅ 0), length_map;
    [reflexivity | | apply sum_values_empty].
  all: apply List.Forall_map; eapply List.Forall_impl; [|exact Hplain];
    intros r (H1 & H2 & H3); assumption.
Qed.

(** [distribution_sums_plain_labels] on three records, one of them
    without labels. *)
Lemma distribution_sums_plain_labels_witness :
  let s := Worker.api_stats Testing.Date_getTime 1737363600000 Testing.labelled_rows in
  Js.sum_values (Worker.byPriority s) = Some 3
  /\ Js.sum_values (Worker.bySentiment s) = Some 3
  /\ Js.sum_values (Worker.byCategory s) = Some 3.
Proof.
  intros s.
  destruct (distribution_sums_plain_labels Testing.Date_getTime 1737363600000 Testing.labelled_rows)
    as (Ht & Hp & Hs & Hc).
  { repeat constructor. }
  fold s in Ht, Hp, Hs, Hc. rewrite Ht in Hp, Hs, Hc. repeat split; assumption.
Defined.

(** Claim C1 on a record whose category is "__proto__": the write
    [stats.byCategory[c] = ...] reaches the inherited setter and stores
    nothing, so the category map stays empty while the total is 1. The
    loops of [/api/stats], [analyzeFeedback] and [analyzeWithAI] behave
    alike. *)
Theorem proto_category_is_not_counted (Date_getTime : string -> option Z) (now : Z) :
  let r := Testing.row "1" (Some "P1") (Some "negative") (Some "__proto__")
             "Login is broken" "2025-01-19T00:00:00.000Z" in
  let s := Worker.api_stats Date_getTime now [r] in
  Worker.total s = 1
  /\ Js.sum_values (Worker.byPriority s) = Some 1
  /\ Js.sum_values (Worker.bySentiment s) = Some 1
  /\ Worker.byCategory s = ∅
  /\ Js.sum_values (Worker.byCategory s) = Some 0
  /\ Scheduled.t_byCategory (Scheduled.tally [r]) = ∅
  /\ Workflow.t_byCategory (Workflow.tally [r]) = ∅.
Proof.
  intros r s.
  destruct (api_stats_fields Date_getTime now [r]) as (Ht & Hp & Hs & Hc & _).
  fold s in Ht, Hp, Hs, Hc. rewrite Ht, Hp, Hs, Hc.
  repeat split; vm_compute; reflexivity.
Qed.






(** ** Keywords *)





(** *** The frequency map against the table *)

Lemma first_seen_In (ws : list string) (w : string) : In w (first_seen ws) <-> In w ws.
Proof.
  induction ws as [|a ws IH]; [reflexivity|]. cbn [first_seen In].
  rewrite List.filter_In, IH, negb_true_iff, String.eqb_neq.
  destruct (string_dec a w) as [->|Hne]; [tauto|].
  split; [tauto|]. intros [H|H]; [tauto|]. right. split; [exact H | congruence].
Qed.

Lemma first_seen_NoDup (ws : list string) : List.NoDup (first_seen ws).
Proof.
  induction ws as [|a ws IH]; cbn [first_seen]; constructor.
  - rewrite List.filter_In, negb_true_iff, String.eqb_neq. tauto.
  - apply List.NoDup_filter, IH.
Qed.

Lemma first_seen_snoc (ws : list string) (w : string) :
  first_seen (ws ++ [w])
  = if in_dec string_dec w ws then first_seen ws else (first_seen ws ++ [w])%list.
Proof.
  induction ws as [|a ws IH]; [reflexivity|].
  cbn [app first_seen]. rewrite IH.
  destruct (in_dec string_dec w ws) as [Hin|Hout];
    destruct (in_dec string_dec w (a :: ws)) as [Hin'|Hout']; try reflexivity.
  - destruct Hout'. right. exact Hin.
  - rewrite List.filter_app. cbn [List.filter].
    destruct Hin' as [->|Hin]; [|contradiction].
    rewrite String.eqb_refl. cbn [negb]. rewrite app_nil_r. reflexivity.
  - rewrite List.filter_app. cbn [List.filter].
    destruct (String.eqb w a) eqn:E.
    + apply String.eqb_eq in E. subst. destruct Hout'. left. reflexivity.
    + reflexivity.
Qed.

Lemma map_get_table (f : string -> nat) (keys : list string) (w : string) :
  Js.map_get (map (fun x => (x, f x)) keys) w
  = if in_dec string_dec w keys then Some (f w) else None.
Proof.
  induction keys as [|a keys IH]; [reflexivity|].
  cbn [map Js.map_get]. rewrite IH.
  destruct (String.eqb a w) eqn:E.
  - apply String.eqb_eq in E. subst a.
    destruct (in_dec string_dec w (w :: keys)) as [|Hout]; [reflexivity|].
    destruct Hout. left. reflexivity.
  - apply String.eqb_neq in E.
    destruct (in_dec string_dec w keys) as [Hin|Hout];
      destruct (in_dec string_dec w (a :: keys)) as [Hin'|Hout']; try reflexivity.
    + destruct Hout'. right. exact Hin.
    + destruct Hin' as [->|Hin]; [congruence | contradiction].
Qed.

Lemma map_set_table_in (f g : string -> nat) (keys : list string) (w : string) (v : nat) :
  List.NoDup keys -> In w keys -> g w = v -> (forall x, x <> w -> g x = f x) ->
  Js.map_set (map (fun x => (x, f x)) keys) w v = map (fun x => (x, g x)) keys.
Proof.
  intros Hnd Hin Hw Hother. induction Hnd as [|a keys Ha Hnd IH]; [destruct Hin|].
  cbn [map Js.map_set]. destruct (String.eqb a w) eqn:E.
  - apply String.eqb_eq in E. subst a. rewrite Hw. f_equal.
    apply map_ext_in. intros x Hx. rewrite Hother; [reflexivity|]. congruence.
  - apply String.eqb_neq in E. rewrite (Hother a E). f_equal. apply IH.
    destruct Hin as [->|Hin]; [congruence | exact Hin].
Qed.

Lemma map_set_table_out (f g : string -> nat) (keys : list string) (w : string) (v : nat) :
  ~ In w keys -> (forall x, x <> w -> g x = f x) ->
  Js.map_set (map (fun x => (x, f x)) keys) w v
  = (map (fun x => (x, g x)) keys ++ [(w, v)])%list.
Proof.
  intros Hout Hother. induction keys as [|a keys IH]; [reflexivity|].
  cbn [map Js.map_set app]. destruct (String.eqb a w) eqn:E.
  - apply String.eqb_eq in E. subst a. destruct Hout. left. reflexivity.
  - apply String.eqb_neq in E. rewrite (Hother a E). f_equal. apply IH.
    intros Hin. apply Hout. right. exact Hin.
Qed.

Lemma count_occ_snoc (ws : list string) (w x : string) :
  count_occ string_dec (ws ++ [w]) x
  = count_occ string_dec ws x + (if string_dec w x then 1 else 0).
Proof. rewrite count_occ_app. cbn [count_occ]. destruct (string_dec w x); lia. Qed.

(** The [Map] the loop builds is the frequency table of the words. *)
Lemma wordFreq_is_table (ws : list string) :
  fold_left Worker.count_word ws [] = word_table ws.
Proof.
  induction ws as [|w ws IH] using rev_ind; [reflexivity|].
  rewrite fold_left_app. cbn [fold_left]. rewrite IH.
  unfold Worker.count_word, word_table.
  rewrite map_get_table, first_seen_snoc.
  destruct (in_dec string_dec w (first_seen ws)) as [Hin|Hout];
    destruct (in_dec string_dec w ws) as [Hin'|Hout'].
  - cbn [default from_option id]. apply map_set_table_in.
    + apply first_seen_NoDup.
    + exact Hin.
    + rewrite count_occ_snoc. destruct (string_dec w w); [reflexivity | congruence].
    + intros x Hx. rewrite count_occ_snoc.
      destruct (string_dec w x); [congruence | lia].
  - destruct Hout'. apply first_seen_In, Hin.
  - destruct Hout. apply first_seen_In, Hin'.
  - rewrite List.map_app. cbn [map default from_option].
    rewrite (map_set_table_out _ (fun x => count_occ string_dec (ws ++ [w]) x));
      [|exact Hout|].
    + do 3 f_equal. rewrite count_occ_snoc.
      rewrite (proj1 (count_occ_not_In string_dec ws w) Hout').
      destruct (string_dec w w); [reflexivity | congruence].
    + intros x Hx. rewrite count_occ_snoc.
      destruct (string_dec w x); [congruence | lia].
Qed.

(** *** The stable sort *)

Section SortFacts.

Context {A : Type} (f : A -> nat).

Lemma insert_desc_perm (x : A) (l : list A) : Permutation (Js.insert_desc f x l) (x :: l).
Proof.
  induction l as [|y l IH]; cbn [Js.insert_desc]; [reflexivity|].
  destruct (f x <? f y)%nat; [|reflexivity].
  rewrite IH. apply perm_swap.
Qed.

Lemma sort_desc_perm (l : list A) : Permutation (Js.sort_desc f l) l.
Proof.
  induction l as [|x l IH]; [reflexivity|].
  cbn [Js.sort_desc fold_right]. fold (Js.sort_desc f l).
  rewrite insert_desc_perm, IH. reflexivity.
Qed.

Lemma insert_desc_sorted (x : A) (l : list A) :
  StronglySorted (fun a b => f b <= f a) l ->
  StronglySorted (fun a b => f b <= f a) (Js.insert_desc f x l).
Proof.
  induction 1 as [|y l Hs IH Hy]; cbn [Js.insert_desc].
  - repeat constructor.
  - destruct (f x <? f y)%nat eqn:E.
    + apply Nat.ltb_lt in E. constructor; [exact IH|].
      rewrite (insert_desc_perm x l). constructor; [lia | exact Hy].
    + apply Nat.ltb_ge in E. constructor; [constructor; assumption|].
      constructor; [exact E|].
      eapply List.Forall_impl; [|exact Hy]. intros z Hz. cbv beta in Hz. lia.
Qed.

Lemma sort_desc_sorted (l : list A) :
  StronglySorted (fun a b => f b <= f a) (Js.sort_desc f l).
Proof.
  induction l as [|x l IH]; [constructor|].
  cbn [Js.sort_desc fold_right]. apply insert_desc_sorted, IH.
Qed.

(** Elements of one count keep their order. *)
Lemma insert_desc_stable (x : A) (l : list A) (c : nat) :
  List.filter (fun e => (f e =? c)%nat) (Js.insert_desc f x l)
  = List.filter (fun e => (f e =? c)%nat) (x :: l).
Proof.
  induction l as [|y l IH]; cbn [Js.insert_desc]; [reflexivity|].
  destruct (f x <? f y)%nat eqn:E; [|reflexivity].
  apply Nat.ltb_lt in E.
  cbn [List.filter] in *. rewrite IH.
  destruct (f x =? c)%nat eqn:Ex; destruct (f y =? c)%nat eqn:Ey; try reflexivity.
  apply Nat.eqb_eq in Ex, Ey. lia.
Qed.

Lemma sort_desc_stable (l : list A) (c : nat) :
  List.filter (fun e => (f e =? c)%nat) (Js.sort_desc f l)
  = List.filter (fun e => (f e =? c)%nat) l.
Proof.
  induction l as [|x l IH]; [reflexivity|].
  cbn [Js.sort_desc fold_right]. fold (Js.sort_desc f l).
  rewrite insert_desc_stable. cbn [List.filter]. rewrite IH. reflexivity.
Qed.



End SortFacts.

Lemma word_table_keys (ws : list string) : map fst (word_table ws) = first_seen ws.
Proof.
  unfold word_table. rewrite List.map_map. cbn [fst]. apply List.map_id.
Qed.



(** Three records; the second has an empty summary, so its words come
    from [raw_text]. "login" occurs three times; "broken" and "page"
    twice each, "broken" seen first. *)
Example keywords_example :
  Worker.topWords
    (Worker.api_stats Testing.Date_getTime 1737363600000
       [ Testing.row "1" None None None "Login is BROKEN, the login-page too" "";
         {| id_ := "2"; source := "email"; raw_text := "Page 2 of the docs: broken_link";
            sentiment := None; priority := None; category := None;
            summary := Some ""; priority_reason := None; created_at := "" |};
         Testing.row "3" None None None "can't login; it is broken" "" ])
  = [("login", 3); ("broken", 2); ("page", 2); ("too", 1); ("docs", 1)].
Proof. vm_compute. reflexivity. Qed.

(* ===================================================================== *)
(** * Further properties of the worker                                    *)
(* ===================================================================== *)

(** ** Trimming *)

Lemma trimStart_shape (s : string) :
  Js.trimStart s = "" \/ exists c t, Js.trimStart s = String c t /\ Js.is_space c = false.
Proof.
  induction s as [|c s IH]; [left; reflexivity|].
  cbn [Js.trimStart]. destruct (Js.is_space c) eqn:E; [exact IH|].
  right. exists c, s. split; [reflexivity | exact E].
Qed.

Lemma trimStart_fixed (c : ascii) (t : string) :
  Js.is_space c = false -> Js.trimStart (String c t) = String c t.
Proof. intros E. cbn [Js.trimStart]. rewrite E. reflexivity. Qed.

Lemma trimEnd_head (c : ascii) (t : string) :
  Js.is_space c = false -> exists t', Js.trimEnd (String c t) = String c t'.
Proof.
  intros E. cbn [Js.trimEnd]. destruct (Js.trimEnd t); [rewrite E|]; eexists; reflexivity.
Qed.

Lemma trimEnd_idempotent (s : string) : Js.trimEnd (Js.trimEnd s) = Js.trimEnd s.
Proof.
  induction s as [|c s IH]; [reflexivity|].
  cbn [Js.trimEnd]. destruct (Js.trimEnd s) as [|d t] eqn:E.
  - destruct (Js.is_space c) eqn:Ec; [reflexivity|].
    cbn [Js.trimEnd]. rewrite Ec. reflexivity.
  - cbn [Js.trimEnd] in *. rewrite IH. reflexivity.
Qed.

Lemma trim_idempotent (s : string) : Js.trim (Js.trim s) = Js.trim s.
Proof.
  unfold Js.trim. destruct (trimStart_shape s) as [->|(c & t & -> & Hc)]; [reflexivity|].
  destruct (trimEnd_head c t Hc) as [t' E]. rewrite E.
  rewrite (trimStart_fixed c t' Hc), <- E. apply trimEnd_idempotent.
Qed.

(** A value that survives [sanitizeNullable] is not empty and is its own
    trimming. *)
Lemma sanitizeNullable_trimmed (v : Js.value) (s : string) :
  Worker.sanitizeNullable v = Some s -> s <> "" /\ Js.trim s = s.
Proof.
  unfold Worker.sanitizeNullable. destruct (Js.nullish v); [discriminate|].
  destruct (Js.nonempty (Js.trim (Js.String_ v))) eqn:E; [|discriminate].
  intros [= <-]. split; [apply nonempty_true, E | apply trim_idempotent].
Qed.

Lemma sanitizeChoice_some (v : Js.value) (allowed : list string) (s : string) :
  Worker.sanitizeChoice v allowed = Some s <-> v = Js.VString s /\ In s allowed.
Proof.
  unfold Worker.sanitizeChoice. split.
  - destruct v; try discriminate.
    destruct (existsb (String.eqb s0) allowed) eqn:E; [|discriminate].
    intros [= ->]. split; [reflexivity|].
    apply existsb_exists in E as (x & Hin & Hx). apply String.eqb_eq in Hx. subst x.
    exact Hin.
  - intros [-> Hin].
    destruct (existsb (String.eqb s) allowed) eqn:E; [reflexivity|]. exfalso.
    apply Bool.not_true_iff_false in E. apply E, existsb_exists.
    exists s. split; [exact Hin | apply String.eqb_refl].
Qed.

(** ** What POST /ingest stores *)

(** Every run of [ingest], case by case. *)
Lemma ingest_cases JSON_parse new_Ai (w : World) (body : option Js.value) :
  let result := start (Worker.ingest JSON_parse new_Ai w body) in
  (exists message, result = (Js.Returned (Worker.BadRequest message), [])
                   /\ (body = None
                       \/ exists payload, body = Some payload /\ Js.nullish payload = false
                            /\ (ingest_source payload = "" \/ ingest_text payload = "")))
  \/ (exists e, result = (Js.Thrown e, []) /\ exists payload, body = Some payload
                                                              /\ Js.nullish payload = true)
  \/ (exists payload e t1,
        body = Some payload /\ ingest_source payload <> "" /\ ingest_text payload <> ""
        /\ Worker.inferFeedbackMetadata JSON_parse new_Ai w
             (ingest_source payload) (ingest_text payload) [] = (Js.Thrown e, t1)
        /\ result = (Js.Thrown e, t1) /\ stored t1 = [])
  \/ (exists payload labels t1,
        body = Some payload /\ Js.nullish payload = false
        /\ ingest_source payload <> "" /\ ingest_text payload <> ""
        /\ Worker.inferFeedbackMetadata JSON_parse new_Ai w
             (ingest_source payload) (ingest_text payload) [] = (Js.Returned labels, t1)
        /\ stored t1 = []
        /\ let record := Worker.build_record w payload (ingest_source payload)
                           (ingest_text payload) labels in
           snd result = (t1 ++ [InsertFeedback record])%list
           /\ fst result = match insert_answer w with
                           | Js.Returned _ => Js.Returned (Worker.Stored record)
                           | Js.Thrown e => Js.Thrown e
                           end).
Proof.
  unfold start, Worker.ingest. destruct body as [payload|].
  2:{ left. eexists. split; [reflexivity | left; reflexivity]. }
  destruct (Js.nullish payload) eqn:Hnull.
  { right. left. eexists. split; [reflexivity|]. exists payload.
    split; [reflexivity | exact Hnull]. }
  fold (ingest_source payload) (ingest_text payload).
  destruct (Js.nonempty (ingest_source payload)) eqn:Hsrc.
  2:{ left. eexists. split; [reflexivity|]. right. exists payload.
      split; [reflexivity|]. split; [exact Hnull|].
      left. destruct (ingest_source payload); [reflexivity | discriminate]. }
  destruct (Js.nonempty (ingest_text payload)) eqn:Hraw.
  2:{ left. eexists. split; [reflexivity|]. right. exists payload.
      split; [reflexivity|]. split; [exact Hnull|].
      right. destruct (ingest_text payload); [reflexivity | discriminate]. }
  apply nonempty_true in Hsrc, Hraw. cbn [negb orb].
  pose proof (infer_stores_nothing JSON_parse new_Ai w (ingest_source payload)
                (ingest_text payload) []) as Hst.
  destruct (Worker.inferFeedbackMetadata JSON_parse new_Ai w (ingest_source payload)
              (ingest_text payload) []) as [[labels|e] t1] eqn:Hinfer; cbn [snd] in Hst.
  - right. right. right. exists payload, labels, t1.
    repeat (split; [first [reflexivity | assumption]|]).
    erewrite bind_returned by exact Hinfer.
    unfold mbind, M_bind, call, mret, M_ret.
    destruct (insert_answer w) as [[]|e]; split; reflexivity.
  - right. right. left. exists payload, e, t1.
    repeat (split; [first [reflexivity | assumption]|]).
    split; [|exact Hst]. erewrite bind_thrown by exact Hinfer. reflexivity.
Qed.

(** Property X2. Whatever the payload and the classifier supply, a
    record handed to the INSERT of [POST /ingest] has a sentiment and a
    priority that are null or taxonomy values, a category and a priority
    reason that are null or non-empty and trimmed, a non-empty trimmed
    source and text, and the identifier drawn for the request. *)
Theorem ingest_stores_clean_labels JSON_parse new_Ai (w : World) (body : option Js.value)
    (r : Feedback) :
  In r (stored (snd (start (Worker.ingest JSON_parse new_Ai w body)))) ->
  null_or_in Worker.SENTIMENTS (sentiment r)
  /\ null_or_in Worker.PRIORITIES (priority r)
  /\ null_or_trimmed (category r)
  /\ null_or_trimmed (priority_reason r)
  /\ null_or_trimmed (Some (source r))
  /\ null_or_trimmed (Some (raw_text r))
  /\ id_ r = uuid w.
Proof.
  intros Hin.
  destruct (ingest_cases JSON_parse new_Ai w body)
    as [(m & E & _) | [(e & E & _) | [(p & e & t1 & _ & _ & _ & _ & E & Hst)
       | (p & labels & t1 & _ & _ & Hsrc & Hraw & _ & Hst & Ht & _)]]].
  1,2: rewrite E in Hin; destruct Hin.
  { rewrite E in Hin. cbn [snd] in Hin. rewrite Hst in Hin. destruct Hin. }
  rewrite Ht, stored_app, Hst in Hin. destruct Hin as [<-|[]].
  cbn [Worker.build_record sentiment priority category priority_reason source raw_text id_].
  repeat split.
  - destruct (Worker.sanitizeChoice _ Worker.SENTIMENTS) eqn:E; [|exact I].
    apply sanitizeChoice_some in E. apply E.
  - destruct (Worker.sanitizeChoice _ Worker.PRIORITIES) eqn:E; [|exact I].
    apply sanitizeChoice_some in E. apply E.
  - destruct (Worker.sanitizeNullable _) eqn:E; [|exact I].
    apply (sanitizeNullable_trimmed _ _ E).
  - destruct (Worker.sanitizeNullable _) eqn:E; [|exact I].
    apply (sanitizeNullable_trimmed _ _ E).
  - exact Hsrc.
  - apply trim_idempotent.
  - exact Hraw.
  - apply trim_idempotent.
Qed.

(** [ingest_stores_clean_labels] on [override_payload]: the sentiment
    "Negative" is not a taxonomy value and is stored as null. *)
Lemma ingest_stores_clean_labels_witness :
  exists r,
    In r (stored (snd (start (Worker.ingest Testing.JSON_parse Testing.new_Ai
                                Testing.world (Some override_payload)))))
    /\ sentiment r = None /\ priority r = Some "P1" /\ category r = Some "export"
    /\ null_or_in Worker.SENTIMENTS (sentiment r)
    /\ null_or_trimmed (category r).
Proof.
  set (r := Worker.build_record Testing.world override_payload "email" "Export is broken" None).
  assert (Hin : In r (stored (snd (start (Worker.ingest Testing.JSON_parse Testing.new_Ai
                                            Testing.world (Some override_payload)))))).
  { vm_compute. left. reflexivity. }
  exists r. split; [exact Hin|].
  destruct (ingest_stores_clean_labels _ _ _ _ _ Hin) as (Hs & _ & Hc & _).
  split; [reflexivity|]. split; [reflexivity|]. split; [reflexivity|].
  split; [exact Hs | exact Hc].
Defined.

(** Property X3. A field the payload supplies (neither null nor
    undefined) decides the stored column by itself, whatever the
    classifier returned: a sentiment or priority outside the taxonomy is
    stored as null even when the classifier offers a valid one. A field
    the payload leaves out takes the classifier's value, sanitized the
    same way. *)
Theorem ingest_payload_overrides JSON_parse new_Ai (w : World) (payload : Js.value)
    (r : Feedback) :
  In r (stored (snd (start (Worker.ingest JSON_parse new_Ai w (Some payload))))) ->
  exists labels t1,
    Worker.inferFeedbackMetadata JSON_parse new_Ai w (source r) (raw_text r) []
    = (Js.Returned labels, t1)
    /\ let ai := default Js.VNull labels in
       let chosen k :=
         if Js.nullish (Js.prop payload k) then Js.opt_prop ai k else Js.prop payload k in
       sentiment r = Worker.sanitizeChoice (chosen "sentiment") Worker.SENTIMENTS
       /\ priority r = Worker.sanitizeChoice (chosen "priority") Worker.PRIORITIES
       /\ category r = Worker.sanitizeNullable (chosen "category")
       /\ summary r = Some (Js.or_else (Worker.sanitizeNullable (chosen "summary"))
                                       (Js.slice0 120 (raw_text r)))
       /\ (forall v, Js.prop payload "sentiment" = v -> Js.nullish v = false ->
             sentiment r = Worker.sanitizeChoice v Worker.SENTIMENTS)
       /\ (forall v, Js.prop payload "priority" = v -> Js.nullish v = false ->
             priority r = Worker.sanitizeChoice v Worker.PRIORITIES)
       /\ (forall s, Js.prop payload "sentiment" = Js.VString s ->
             ~ In s Worker.SENTIMENTS -> sentiment r = None)
       /\ (forall s, Js.prop payload "priority" = Js.VString s ->
             ~ In s Worker.PRIORITIES -> priority r = None).
Proof.
  intros Hin.
  destruct (ingest_cases JSON_parse new_Ai w (Some payload))
    as [(m & E & _) | [(e & E & _) | [(p & e & t1 & _ & _ & _ & _ & E & Hst)
       | (p & labels & t1 & [= <-] & _ & Hsrc & Hraw & Hinfer & Hst & Ht & _)]]].
  1,2: rewrite E in Hin; destruct Hin.
  { rewrite E in Hin. cbn [snd] in Hin. rewrite Hst in Hin. destruct Hin. }
  rewrite Ht, stored_app, Hst in Hin. destruct Hin as [<-|[]].
  exists labels, t1. split; [exact Hinfer|].
  cbn [Worker.build_record sentiment priority category summary raw_text].
  unfold Js.coalesce. repeat split.
  - intros v <- Hv. rewrite Hv. reflexivity.
  - intros v <- Hv. rewrite Hv. reflexivity.
  - intros s Hs Hout. rewrite Hs. cbn [Js.nullish].
    destruct (Worker.sanitizeChoice _ _) as [s'|] eqn:E; [|reflexivity].
    apply sanitizeChoice_some in E as [[= <-] Hin]. contradiction.
  - intros s Hs Hout. rewrite Hs. cbn [Js.nullish].
    destruct (Worker.sanitizeChoice _ _) as [s'|] eqn:E; [|reflexivity].
    apply sanitizeChoice_some in E as [[= <-] Hin]. contradiction.
Qed.

(** [ingest_payload_overrides] on [override_payload]. *)
Lemma ingest_payload_overrides_witness :
  exists r,
    In r (stored (snd (start (Worker.ingest Testing.JSON_parse Testing.new_Ai
                                Testing.world (Some override_payload)))))
    /\ sentiment r = Worker.sanitizeChoice (Js.VString "Negative") Worker.SENTIMENTS
    /\ priority r = Worker.sanitizeChoice (Js.VString "P1") Worker.PRIORITIES.
Proof.
  set (r := Worker.build_record Testing.world override_payload "email" "Export is broken" None).
  assert (Hin : In r (stored (snd (start (Worker.ingest Testing.JSON_parse Testing.new_Ai
                                            Testing.world (Some override_payload)))))).
  { vm_compute. left. reflexivity. }
  exists r. split; [exact Hin|].
  destruct (ingest_payload_overrides _ _ _ _ _ Hin)
    as (labels & t1 & _ & _ & _ & _ & _ & Hs & Hp & _).
  split; [apply Hs | apply Hp]; reflexivity.
Defined.

(** Property X4. [POST /ingest] hands at most one record to the INSERT.
    A request it turns down with 400 causes no inference call and no
    INSERT; the success reply carries exactly the record that was
    inserted and is given only after the INSERT returned; a request
    whose INSERT throws gets no reply but the exception. *)
Theorem ingest_effects JSON_parse new_Ai (w : World) (body : option Js.value) :
  let result := start (Worker.ingest JSON_parse new_Ai w body) in
  length (stored (snd result)) <= 1
  /\ (forall message, fst result = Js.Returned (Worker.BadRequest message) ->
        snd result = [])
  /\ (forall record, fst result = Js.Returned (Worker.Stored record) ->
        stored (snd result) = [record] /\ insert_answer w = Js.Returned tt)
  /\ (forall record, In record (stored (snd result)) ->
        fst result = Js.Returned (Worker.Stored record)
        \/ exists e, fst result = Js.Thrown e /\ insert_answer w = Js.Thrown e).
Proof.
  intros result. subst result.
  destruct (ingest_cases JSON_parse new_Ai w body)
    as [(m & -> & _) | [(e & -> & _) | [(p & e & t1 & _ & _ & _ & _ & -> & Hst)
       | (p & labels & t1 & _ & _ & _ & _ & _ & Hst & Ht & Ho)]]]; cbn [fst snd].
  - split; [cbn; lia|]. split; [reflexivity|]. split; [discriminate | intros ? []].
  - split; [cbn; lia|]. split; [discriminate|]. split; [discriminate | intros ? []].
  - rewrite Hst. split; [cbn; lia|]. split; [discriminate|].
    split; [discriminate | intros ? []].
  - rewrite Ht, Ho, stored_app, Hst.
    change (stored [InsertFeedback ?x]) with [x]. cbn [app length].
    destruct (insert_answer w) as [[]|e].
    + split; [lia|]. split; [discriminate|]. split.
      * intros record [= <-]. split; reflexivity.
      * intros record [<-|[]]. left. reflexivity.
    + split; [lia|]. split; [discriminate|]. split; [discriminate|].
      intros record [<-|[]]. right. exists e. split; reflexivity.
Qed.

(** [ingest_effects] on a body that is not JSON: the request is turned
    down and nothing else happens. *)
Lemma ingest_effects_witness :
  snd (start (Worker.ingest Testing.JSON_parse Testing.new_Ai Testing.world None)) = [].
Proof.
  apply (proj1 (proj2 (ingest_effects Testing.JSON_parse Testing.new_Ai Testing.world None))
           "Invalid JSON payload").
  reflexivity.
Defined.

(** ** Query-string, header and markup helpers *)

(** Property X5. The product-only filter is on unless the query string
    switches it off: [resolveProductOnly] gives false exactly for "0",
    "false", "no" and "off" (in any case, white space around them
    ignored); an absent, empty or unrecognized value leaves it on. *)
Theorem product_filter_defaults_on (value : option string) :
  Worker.resolveProductOnly value = false
  <-> exists s, value = Some s
                /\ In (Js.toLowerCase (Js.trim s)) ["0"; "false"; "no"; "off"].
Proof.
  unfold Worker.resolveProductOnly, Worker.resolveBoolean.
  destruct value as [s|]; cbn [Worker.of_nullable Js.nullish Js.String_].
  2: { split; [discriminate | intros (s & [=] & _)]. }
  set (n := Js.toLowerCase (Js.trim s)).
  destruct (existsb (String.eqb n) ["1"; "true"; "yes"; "on"]) eqn:E1.
  { split; [discriminate|]. intros (s' & [= <-] & Hin). exfalso.
    fold n in Hin. cbn [In] in Hin.
    destruct Hin as [H|[H|[H|[H|[]]]]]; rewrite <- H in E1; discriminate E1. }
  destruct (existsb (String.eqb n) ["0"; "false"; "no"; "off"]) eqn:E2; cbn [default from_option].
  - split; [|reflexivity]. intros _. exists s. split; [reflexivity|].
    apply existsb_exists in E2. destruct E2 as (x & Hx & Heq).
    apply String.eqb_eq in Heq. fold n. rewrite Heq. exact Hx.
  - split; [discriminate|]. intros (s' & [= <-] & Hin). exfalso.
    fold n in Hin.
    assert (existsb (String.eqb n) ["0"; "false"; "no"; "off"] = true) as H.
    { apply existsb_exists. exists n. split; [exact Hin | apply String.eqb_refl]. }
    rewrite H in E2. discriminate.
Qed.

Lemma count_char_app (c : ascii) (a b : string) :
  count_char c (a ++ b) = count_char c a + count_char c b.
Proof. induction a as [|x a IH]; simpl; [reflexivity | rewrite IH; lia]. Qed.

(** The five passes of [escapeHtml] do not touch each other's output. *)
Lemma escapeHtml_cons (x : ascii) (s : string) :
  Worker.escapeHtml (String x s) = entity x ++ Worker.escapeHtml s.
Proof.
  unfold Worker.escapeHtml, entity. cbn [Worker.replace_all].
  destruct (Ascii.eqb_spec x "&") as [->|_]; [reflexivity|].
  cbn [Worker.replace_all].
  destruct (Ascii.eqb_spec x "<") as [->|_]; [reflexivity|].
  cbn [Worker.replace_all].
  destruct (Ascii.eqb_spec x ">") as [->|_]; [reflexivity|].
  cbn [Worker.replace_all].
  destruct (Ascii.eqb_spec x Worker.quote_char) as [->|_]; [reflexivity|].
  cbn [Worker.replace_all].
  destruct (Ascii.eqb_spec x Worker.apostrophe_char) as [->|_]; reflexivity.
Qed.

Lemma escapeHtml_entities (s : string) : Worker.escapeHtml s = entities s.
Proof.
  induction s as [|x s IH]; [reflexivity|].
  rewrite escapeHtml_cons, IH. reflexivity.
Qed.

Lemma entity_no_markup (x c : ascii) : In c markup_chars -> count_char c (entity x) = 0.
Proof.
  intros Hin. unfold entity.
  destruct (Ascii.eqb_spec x "&") as [->|_];
    [destruct Hin as [<-|[<-|[<-|[<-|[]]]]]; reflexivity|].
  destruct (Ascii.eqb_spec x "<") as [->|n1];
    [destruct Hin as [<-|[<-|[<-|[<-|[]]]]]; reflexivity|].
  destruct (Ascii.eqb_spec x ">") as [->|n2];
    [destruct Hin as [<-|[<-|[<-|[<-|[]]]]]; reflexivity|].
  destruct (Ascii.eqb_spec x Worker.quote_char) as [->|n3];
    [destruct Hin as [<-|[<-|[<-|[<-|[]]]]]; reflexivity|].
  destruct (Ascii.eqb_spec x Worker.apostrophe_char) as [->|n4];
    [destruct Hin as [<-|[<-|[<-|[<-|[]]]]]; reflexivity|].
  cbn [count_char].
  destruct (Ascii.eqb_spec x c) as [->|_]; [|reflexivity].
  exfalso. destruct Hin as [<-|[<-|[<-|[<-|[]]]]]; congruence.
Qed.

Lemma entity_app_nonempty (c : ascii) (r : string) : entity c ++ r <> "".
Proof.
  unfold entity.
  destruct (Ascii.eqb c "&"); [discriminate|].
  destruct (Ascii.eqb c "<"); [discriminate|].
  destruct (Ascii.eqb c ">"); [discriminate|].
  destruct (Ascii.eqb c Worker.quote_char); [discriminate|].
  destruct (Ascii.eqb c Worker.apostrophe_char); discriminate.
Qed.

Lemma entities_injective (a b : string) : entities a = entities b -> a = b.
Proof.
  revert b. induction a as [|x a IH]; intros [|y b] H; [reflexivity| | |].
  - exfalso. symmetry in H. exact (entity_app_nonempty _ _ H).
  - exfalso. exact (entity_app_nonempty _ _ H).
  - cbn [entities] in H. unfold entity in H.
    destruct (Ascii.eqb_spec x "&") as [->|?];
      [|destruct (Ascii.eqb_spec x "<") as [->|?];
        [|destruct (Ascii.eqb_spec x ">") as [->|?];
          [|destruct (Ascii.eqb_spec x Worker.quote_char) as [->|?];
            [|destruct (Ascii.eqb_spec x Worker.apostrophe_char) as [->|?]]]]];
    (destruct (Ascii.eqb_spec y "&") as [->|?];
      [|destruct (Ascii.eqb_spec y "<") as [->|?];
        [|destruct (Ascii.eqb_spec y ">") as [->|?];
          [|destruct (Ascii.eqb_spec y Worker.quote_char) as [->|?];
            [|destruct (Ascii.eqb_spec y Worker.apostrophe_char) as [->|?]]]]]);
    cbn [String.append] in H; try discriminate H;
    try (injection H as H; f_equal; apply IH; exact H);
    try (injection H as ? H; congruence).
    injection H as -> H. f_equal. apply IH. exact H.
Qed.

(** Property X6. [escapeHtml] turns every character into its entity in
    one go although it runs five passes: the ampersands of the entities
    it writes are not escaped again, while an entity typed by the user
    is. The result holds no angle bracket and no quote, and two
    different texts never render the same. *)
Theorem escapeHtml_neutralizes (value : string) :
  Worker.escapeHtml value = entities value
  /\ Forall (fun c => count_char c (Worker.escapeHtml value) = 0) markup_chars
  /\ (forall other, Worker.escapeHtml value = Worker.escapeHtml other -> value = other).
Proof.
  split; [apply escapeHtml_entities|]. split.
  - apply List.Forall_forall. intros c Hin. rewrite escapeHtml_entities.
    induction value as [|x s IH]; [reflexivity|].
    cbn [entities]. rewrite count_char_app, IH, entity_no_markup by exact Hin.
    reflexivity.
  - intros other H. rewrite !escapeHtml_entities in H.
    apply entities_injective. exact H.
Qed.





(** ** [listFeedback] *)


Lemma statement_limit (filters : Worker.FeedbackFilters) :
  last (snd (Worker.listFeedback_statement filters))
  = Some (Worker.PNumber (default 100%Z (Worker.f_limit filters))).
Proof.
  unfold Worker.listFeedback_statement.
  match goal with
  | |- context [let '(clauses, params) := ?acc in _] => destruct acc as [clauses params]
  end.
  cbn [snd]. apply last_snoc.
Qed.




(** Property X9. Whatever the query string of [GET /dashboard] holds,
    the limit bound to the statement is a whole number from 1 to
    [MAX_LIMIT] (100 when the parameter is absent, empty or not a finite
    number), and the sentiment and priority filters are unset or values
    of the taxonomy. [GET /api/stats] does not go through
    [normalizeLimit]: it always binds 1000. *)
Theorem dashboard_limit_bounded (Number_ : string -> Js.number)
    (get : string -> option string) :
  let filters := Worker.dashboard_filters Number_ get in
  let limit := default 100%Z (Worker.f_limit filters) in
  (1 <= limit <= Worker.MAX_LIMIT)%Z
  /\ last (snd (Worker.listFeedback_statement filters)) = Some (Worker.PNumber limit)
  /\ null_or_in Worker.SENTIMENTS (Worker.f_sentiment filters)
  /\ null_or_in Worker.PRIORITIES (Worker.f_priority filters)
  /\ last (snd (Worker.listFeedback_statement (Worker.stats_filters get)))
     = Some (Worker.PNumber 1000)
  /\ (configured (get "limit") = false
      \/ (forall q, Number_ (default "" (get "limit")) <> Js.Finite q) ->
      limit = 100%Z).
Proof.
  intros filters limit. split; [|split; [|split; [|split; [|split]]]].
  - subst limit filters. cbn [Worker.dashboard_filters Worker.f_limit].
    unfold Worker.normalizeLimit, Worker.MAX_LIMIT.
    destruct (configured (get "limit")); cbn [negb from_option id]; [|lia].
    destruct (Number_ _); cbn [from_option id]; lia.
  - apply statement_limit.
  - subst filters. cbn [Worker.dashboard_filters Worker.f_sentiment].
    destruct (Worker.sanitizeChoice _ _) eqn:E; [|exact I].
    apply sanitizeChoice_some in E. apply E.
  - subst filters. cbn [Worker.dashboard_filters Worker.f_priority].
    destruct (Worker.sanitizeChoice _ _) eqn:E; [|exact I].
    apply sanitizeChoice_some in E. apply E.
  - apply statement_limit.
  - subst limit filters. cbn [Worker.dashboard_filters Worker.f_limit].
    unfold Worker.normalizeLimit. intros [H|H].
    + rewrite H. reflexivity.
    + destruct (configured (get "limit")); cbn [negb from_option id]; [|reflexivity].
      destruct (Number_ _) as [| |q] eqn:E; [reflexivity | reflexivity|].
      exfalso. exact (H q eq_refl).
Qed.

(** ** The classifier's helpers *)

Lemma append_cons (x : ascii) (a b : string) : String x a ++ b = String x (a ++ b).
Proof. reflexivity. Qed.

Lemma str_app_assoc (a b c : string) : (a ++ b) ++ c = a ++ (b ++ c).
Proof. induction a as [|x a IH]; [reflexivity | rewrite !append_cons, IH; reflexivity]. Qed.

Lemma str_length_app (a b : string) :
  String.length (a ++ b) = String.length a + String.length b.
Proof.
  induction a as [|x a IH]; [reflexivity|].
  rewrite append_cons. cbn [String.length]. rewrite IH. reflexivity.
Qed.

Lemma trimStart_app (p : string) (c : ascii) (r : string) :
  Js.is_space c = false -> Js.trimStart (p ++ String c r) = Js.trimStart p ++ String c r.
Proof.
  intros Hc. induction p as [|x p IH]; simpl.
  - rewrite Hc. reflexivity.
  - destruct (Js.is_space x); [exact IH | reflexivity].
Qed.

Lemma trimEnd_app (r : string) (c : ascii) (q : string) :
  Js.is_space c = false -> Js.trimEnd (r ++ String c q) = r ++ String c (Js.trimEnd q).
Proof.
  intros Hc. induction r as [|x r IH].
  - simpl. destruct (Js.trimEnd q); [rewrite Hc|]; reflexivity.
  - change (String x r ++ String c q) with (String x (r ++ String c q)).
    cbn [Js.trimEnd]. rewrite IH. destruct r; reflexivity.
Qed.

Lemma count_char_trimStart (c : ascii) (s : string) :
  count_char c s = 0 -> count_char c (Js.trimStart s) = 0.
Proof.
  induction s as [|x s IH]; [reflexivity|]. intros H. cbn [Js.trimStart].
  destruct (Js.is_space x); [|exact H].
  apply IH. cbn [count_char] in H. lia.
Qed.

Lemma count_char_trimEnd (c : ascii) (s : string) :
  count_char c s = 0 -> count_char c (Js.trimEnd s) = 0.
Proof.
  induction s as [|x s IH]; [reflexivity|]. intros H. cbn [count_char] in H.
  cbn [Js.trimEnd]. destruct (Js.trimEnd s) eqn:E.
  - destruct (Js.is_space x); [reflexivity|]. cbn [count_char]. lia.
  - cbn [count_char] in *. specialize (IH ltac:(lia)). lia.
Qed.

Lemma indexOf_absent (c : ascii) (s : string) : count_char c s = 0 -> Js.indexOf c s = None.
Proof.
  induction s as [|x s IH]; [reflexivity|]. cbn [count_char Js.indexOf].
  destruct (Ascii.eqb x c); [discriminate|]. intros H. rewrite IH by exact H. reflexivity.
Qed.

Lemma lastIndexOf_absent (c : ascii) (s : string) :
  count_char c s = 0 -> Js.lastIndexOf c s = None.
Proof.
  induction s as [|x s IH]; [reflexivity|]. cbn [count_char Js.lastIndexOf].
  destruct (Ascii.eqb x c); [discriminate|]. intros H. rewrite IH by exact H. reflexivity.
Qed.

Lemma indexOf_first (c : ascii) (p r : string) :
  count_char c p = 0 -> Js.indexOf c (p ++ String c r) = Some (String.length p).
Proof.
  induction p as [|x p IH]; simpl.
  - rewrite Ascii.eqb_refl. reflexivity.
  - destruct (Ascii.eqb x c); [discriminate|]. intros H. rewrite IH by exact H. reflexivity.
Qed.

Lemma lastIndexOf_last (c : ascii) (a q : string) :
  count_char c q = 0 -> Js.lastIndexOf c (a ++ String c q) = Some (String.length a).
Proof.
  intros Hq. induction a as [|x a IH]; simpl.
  - rewrite (lastIndexOf_absent c q Hq), Ascii.eqb_refl. reflexivity.
  - rewrite IH. reflexivity.
Qed.

Lemma substring_prefix (b q : string) : String.substring 0 (String.length b) (b ++ q) = b.
Proof.
  induction b as [|x b IH]; [destruct q; reflexivity|].
  rewrite append_cons. cbn [String.length String.substring]. rewrite IH. reflexivity.
Qed.

Lemma substring_middle (p b q : string) :
  String.substring (String.length p) (String.length b) (p ++ b ++ q) = b.
Proof.
  induction p as [|x p IH]; [exact (substring_prefix b q)|].
  rewrite append_cons. cbn [String.length String.substring]. exact IH.
Qed.

Lemma app_mid (p : string) (c : ascii) (mid : string) (d : ascii) (q : string) :
  (p ++ String c mid) ++ String d q = p ++ String c (mid ++ String d q).
Proof. rewrite str_app_assoc. reflexivity. Qed.

(** The text an answer is parsed from. *)
Lemma safeParseAiJson_slice (JSON_parse : string -> option Js.value)
    (before mid after : string) :
  count_char "{" before = 0 -> count_char "}" after = 0 ->
  Worker.safeParseAiJson JSON_parse (before ++ String "{" (mid ++ String "}" after))
  = match JSON_parse (String "{" (mid ++ String "}" "")) with
    | Some json => if Js.truthy json && Worker.is_object json then Some json else None
    | None => None
    end.
Proof.
  intros Hb Ha. unfold Worker.safeParseAiJson.
  set (p := Js.trimStart before). set (q := Js.trimEnd after).
  assert (Js.trim (before ++ String "{" (mid ++ String "}" after))
          = p ++ String "{" (mid ++ String "}" q)) as ->.
  { unfold Js.trim. rewrite trimStart_app by reflexivity. fold p.
    rewrite <- app_mid, trimEnd_app by reflexivity. apply app_mid. }
  assert (Hp : count_char "{" p = 0) by (apply count_char_trimStart; exact Hb).
  assert (Hq : count_char "}" q = 0) by (apply count_char_trimEnd; exact Ha).
  rewrite (indexOf_first "{" p _ Hp).
  rewrite <- app_mid, (lastIndexOf_last "}" _ q Hq), app_mid.
  rewrite str_length_app. cbn [String.length].
  assert ((String.length p + S (String.length mid) <=? String.length p)%nat = false) as ->
    by (apply Nat.leb_gt; lia).
  unfold Js.slice.
  replace (String.length p + S (String.length mid) + 1 - String.length p)
    with (String.length (String "{" (mid ++ String "}" "")))
    by (cbn [String.length]; rewrite str_length_app; cbn [String.length]; lia).
  replace (p ++ String "{" (mid ++ String "}" q))
    with (p ++ String "{" (mid ++ String "}" "") ++ q)
    by (rewrite append_cons, str_app_assoc; reflexivity).
  rewrite substring_middle. reflexivity.
Qed.

(** Property X10. [safeParseAiJson] parses the text from the first
    opening brace to the last closing brace and nothing else: prose
    before and after the object does not change the result. It returns
    objects only, and nothing at all for a text without an opening
    brace. *)
Theorem safeParseAiJson_ignores_prose (JSON_parse : string -> option Js.value)
    (before mid after : string) :
  count_char "{" before = 0 -> count_char "}" after = 0 ->
  Worker.safeParseAiJson JSON_parse (before ++ "{" ++ mid ++ "}" ++ after)
  = Worker.safeParseAiJson JSON_parse ("{" ++ mid ++ "}")
  /\ (forall text json,
        Worker.safeParseAiJson JSON_parse text = Some json -> Worker.is_object json = true)
  /\ (forall text,
        count_char "{" text = 0 -> Worker.safeParseAiJson JSON_parse text = None).
Proof.
  intros Hb Ha. split; [|split].
  - change (before ++ "{" ++ mid ++ "}" ++ after)
      with (before ++ String "{" (mid ++ String "}" after)).
    rewrite (safeParseAiJson_slice JSON_parse before mid after Hb Ha).
    change ("{" ++ mid ++ "}") with ("" ++ String "{" (mid ++ String "}" "")).
    rewrite (safeParseAiJson_slice JSON_parse "" mid "" eq_refl eq_refl). reflexivity.
  - intros text json. unfold Worker.safeParseAiJson.
    destruct (Js.indexOf _ _); [|discriminate].
    destruct (Js.lastIndexOf _ _); [|discriminate].
    destruct (_ <=? _)%nat; [discriminate|].
    destruct (JSON_parse _) as [j|]; [|discriminate].
    destruct (Js.truthy j); [|discriminate].
    destruct (Worker.is_object j) eqn:E; [|discriminate].
    intros [= <-]. exact E.
  - intros text H. unfold Worker.safeParseAiJson.
    assert (count_char "{" (Js.trim text) = 0) as H'.
    { unfold Js.trim. apply count_char_trimEnd, count_char_trimStart, H. }
    rewrite (indexOf_absent _ _ H'). reflexivity.
Qed.

(** [safeParseAiJson_ignores_prose] on an answer wrapped in a sentence. *)
Lemma safeParseAiJson_ignores_prose_witness :
  Worker.safeParseAiJson Testing.JSON_parse ("Here is the JSON: " ++ "{" ++ "" ++ "}" ++ " Done.")
  = Some (Js.VObject []).
Proof.
  rewrite (proj1 (safeParseAiJson_ignores_prose Testing.JSON_parse
                    "Here is the JSON: " "" " Done." eq_refl eq_refl)).
  reflexivity.
Defined.

Lemma trim_empty_nonempty (s : string) : Js.nonempty (Js.trim s) = true -> s <> "".
Proof. intros H ->. discriminate H. Qed.

Lemma nonblank_string_some (v : Js.value) (s : string) :
  Worker.nonblank_string v = Some s -> v = Js.VString s /\ Js.trim s <> "".
Proof.
  destruct v; try discriminate. cbn [Worker.nonblank_string].
  destruct (Js.nonempty (Js.trim s0)) eqn:E; [|discriminate].
  intros [= <-]. split; [reflexivity | apply nonempty_true, E].
Qed.

Lemma first_text_some (maybe : Js.value) (keys : list string) (s : string) :
  Worker.first_text maybe keys = Some s ->
  exists key, In key keys /\ Js.prop maybe key = Js.VString s /\ Js.trim s <> "".
Proof.
  induction keys as [|key keys IH]; [discriminate|]. cbn [Worker.first_text].
  destruct (Worker.nonblank_string (Js.prop maybe key)) as [s'|] eqn:E.
  - intros [= <-]. apply nonblank_string_some in E. exists key. split; [left; reflexivity | exact E].
  - intros H. destruct (IH H) as (k & Hin & Hk). exists k. split; [right; exact Hin | exact Hk].
Qed.

(** Property X11. [pickAiText] never returns the empty string (so the
    emptiness test that follows it in [inferFeedbackMetadata] only ever
    catches null): a string answer is returned as it is, a property or a
    message content only when something is left of it after trimming.
    Among the properties "response" comes first: when it holds a string
    that is not blank, the other keys are not looked at. *)
Theorem pickAiText_never_empty (response : Js.value) :
  (forall s, Worker.pickAiText response = Some s -> s <> "")
  /\ (forall s, response = Js.VString s -> s <> "" -> Worker.pickAiText response = Some s)
  /\ (forall props s,
        response = Js.VObject props ->
        Js.prop response "response" = Js.VString s -> Js.trim s <> "" ->
        Worker.pickAiText response = Some s)
  /\ (forall props s,
        response = Js.VObject props -> Worker.pickAiText response = Some s ->
        Js.trim s <> "").
Proof.
  assert (Hobj : forall s,
            match Worker.first_text response ["response"; "result"; "text"; "output"; "content"] with
            | Some s => Some s
            | None =>
                match Js.prop response "messages" with
                | Js.VArray msgs =>
                    match last msgs with
                    | Some lastMsg =>
                        if Js.truthy lastMsg
                        then Worker.nonblank_string (Js.prop lastMsg "content")
                        else None
                    | None => None
                    end
                | _ => None
                end
            end = Some s -> Js.trim s <> "").
  { intros s. destruct (Worker.first_text _ _) as [s'|] eqn:E.
    - intros [= <-]. apply first_text_some in E. destruct E as (k & _ & _ & H). exact H.
    - destruct (Js.prop response "messages"); try discriminate.
      destruct (last items); [|discriminate].
      destruct (Js.truthy v); [|discriminate].
      intros H. apply nonblank_string_some in H. apply H. }
  split; [|split; [|split]].
  - intros s. unfold Worker.pickAiText.
    destruct (Js.truthy response) eqn:Ht; cbn [negb]; [|discriminate].
    destruct response; try discriminate.
    + intros [= <-]. apply nonempty_true. exact Ht.
    + intros H. apply Hobj in H. intros ->. apply H. reflexivity.
  - intros s -> Hs. unfold Worker.pickAiText. cbn [Js.truthy].
    apply nonempty_true in Hs. rewrite Hs. reflexivity.
  - intros props s -> Hprop Hs. unfold Worker.pickAiText. cbn [Js.truthy negb].
    cbn [Worker.first_text]. rewrite Hprop. cbn [Worker.nonblank_string].
    apply nonempty_true in Hs. rewrite Hs. reflexivity.
  - intros props s -> H. unfold Worker.pickAiText in H. cbn [Js.truthy negb] in H.
    apply Hobj in H. exact H.
Qed.

(** [pickAiText_never_empty] on an answer with two candidate keys. *)
Lemma pickAiText_never_empty_witness :
  Worker.pickAiText (Js.VObject [("result", Js.VString "second");
                                 ("response", Js.VString "first")])
  = Some "first".
Proof.
  apply (proj1 (proj2 (proj2 (pickAiText_never_empty _)))
           [("result", Js.VString "second"); ("response", Js.VString "first")] "first");
    [reflexivity | reflexivity | discriminate].
Defined.

Lemma slice0_prefix (n : nat) (text : string) :
  Js.startsWith text (Js.slice0 n text) = true.
Proof.
  revert text. induction n as [|n IH]; intros [|c t]; try reflexivity.
  unfold Js.startsWith. cbn [Js.slice0 String.prefix].
  destruct (ascii_dec c c); [|congruence]. apply IH.
Qed.

Lemma slice0_length (n : nat) (text : string) :
  String.length (Js.slice0 n text) = Nat.min n (String.length text).
Proof.
  revert text. induction n as [|n IH]; intros [|c t]; try reflexivity.
  cbn [Js.slice0 String.length Nat.min]. rewrite IH. reflexivity.
Qed.

Lemma mock_priority_category (lowerText : string) :
  let pc := Worker.mock_priority_of lowerText in
  In (fst pc) ["P0"; "P1"; "P3"]
  /\ In (Worker.mock_category_of lowerText (snd pc)) ("other" :: Worker.PRODUCT_CATEGORIES)
  /\ (Worker.mock_category_of lowerText (snd pc) = "security" -> fst pc = "P0").
Proof.
  unfold Worker.mock_category_of, Worker.mock_priority_of, Worker.PRODUCT_CATEGORIES.
  repeat case_match; cbn [fst snd In]; (split; [tauto|split; [tauto|]]);
    first [reflexivity | discriminate | intros _; reflexivity].
Qed.

(** Property X12. The heuristic classifier never gives priority P2; its
    category is "other" or one of the product categories, and "security"
    only together with P0; its summary is the first 120 characters of the
    text. *)
Theorem mock_labels_range (text : string) :
  let l := Worker.mockAiInference text in
  In (Worker.mock_priority l) ["P0"; "P1"; "P3"]
  /\ In (Worker.mock_category l) ("other" :: Worker.PRODUCT_CATEGORIES)
  /\ (Worker.mock_category l = "security" -> Worker.mock_priority l = "P0")
  /\ Js.startsWith text (Worker.mock_summary l) = true
  /\ String.length (Worker.mock_summary l) = Nat.min 120 (String.length text).
Proof.
  intros l. subst l. unfold Worker.mockAiInference.
  pose proof (mock_priority_category (Js.toLowerCase text)) as Hpc.
  destruct (Worker.mock_priority_of (Js.toLowerCase text)) as [p c0].
  cbn [fst snd] in Hpc. destruct Hpc as (Hp & Hc & Hs).
  cbn [Worker.mock_priority Worker.mock_category Worker.mock_summary].
  split; [exact Hp|]. split; [exact Hc|]. split; [exact Hs|].
  split; [apply slice0_prefix | apply slice0_length].
Qed.

(** The heuristic classifier answers without any call. *)
Lemma infer_mock JSON_parse new_Ai (w : World) (src text : string) (t : list event) :
  USE_MOCK_AI w = Some "true" -> text <> "" ->
  Worker.inferFeedbackMetadata JSON_parse new_Ai w src text t
  = (Js.Returned (Some (Worker.labels_value (Worker.mockAiInference text))), t).
Proof.
  intros Hmock Hne. unfold Worker.inferFeedbackMetadata.
  rewrite Hmock. cbn [configured Js.nonempty negb]. rewrite andb_false_r.
  apply nonempty_true in Hne. rewrite Hne. cbn [negb].
  rewrite bool_decide_eq_true_2 by reflexivity. reflexivity.
Qed.

Lemma trim_head_nonempty (c : ascii) (t : string) :
  Js.is_space c = false -> Js.nonempty (Js.trim (String c t)) = true.
Proof.
  intros Hc. unfold Js.trim. rewrite trimStart_fixed by exact Hc.
  destruct (trimEnd_head c t Hc) as [t' ->]. reflexivity.
Qed.

Lemma trimmed_head (s : string) :
  Js.trim s <> "" -> exists c t, Js.trim s = String c t /\ Js.is_space c = false.
Proof.
  unfold Js.trim. intros Hne.
  destruct (trimStart_shape s) as [E|(c & t & E & Hc)]; rewrite E in *.
  - exfalso. apply Hne. reflexivity.
  - destruct (trimEnd_head c t Hc) as [t' ->]. exists c, t'. split; [reflexivity | exact Hc].
Qed.

Lemma sanitizeNullable_head (c : ascii) (t : string) :
  Js.is_space c = false ->
  Worker.sanitizeNullable (Js.VString (String c t)) = Some (Js.trim (String c t)).
Proof.
  intros Hc. unfold Worker.sanitizeNullable. cbn [Js.nullish Js.String_].
  rewrite trim_head_nonempty by exact Hc. reflexivity.
Qed.

(** Property X13. With the mock flag set to "true", a record ingested
    from a payload that carries no label of its own is stored fully
    labelled by the heuristic classifier: sentiment, priority and
    category are the heuristic's, the summary is the first 120 characters
    of the text (trimmed), and a priority reason is present. *)
Theorem ingest_mock_fully_labelled JSON_parse new_Ai (w : World) (payload : Js.value)
    (r : Feedback) :
  USE_MOCK_AI w = Some "true" -> unlabelled payload ->
  In r (stored (snd (start (Worker.ingest JSON_parse new_Ai w (Some payload))))) ->
  let l := Worker.mockAiInference (raw_text r) in
  sentiment r = Some (Worker.mock_sentiment l)
  /\ priority r = Some (Worker.mock_priority l)
  /\ category r = Some (Worker.mock_category l)
  /\ summary r = Some (Js.trim (Js.slice0 120 (raw_text r)))
  /\ priority_reason r <> None.
Proof.
  intros Hmock Hun Hin.
  destruct (ingest_cases JSON_parse new_Ai w (Some payload))
    as [(m & E & _) | [(e & E & _) | [(p & e & t1 & _ & _ & _ & _ & E & Hst)
       | (p & labels & t1 & [= <-] & _ & Hsrc & Hraw & Hinfer & Hst & Ht & _)]]].
  1,2: rewrite E in Hin; destruct Hin.
  { rewrite E in Hin. cbn [snd] in Hin. rewrite Hst in Hin. destruct Hin. }
  rewrite Ht, stored_app, Hst in Hin. destruct Hin as [<-|[]].
  rewrite (infer_mock _ _ _ _ _ _ Hmock Hraw) in Hinfer. injection Hinfer as <- <-.
  unfold unlabelled in Hun.
  apply Forall_cons in Hun as [Hs Hun]. apply Forall_cons in Hun as [Hp Hun].
  apply Forall_cons in Hun as [Hc Hun]. apply Forall_cons in Hun as [Hsum Hun].
  apply Forall_cons in Hun as [Hr _].
  cbn [Worker.build_record raw_text sentiment priority category summary priority_reason].
  unfold Js.coalesce. rewrite Hs, Hp, Hc, Hsum, Hr.
  set (text := ingest_text payload) in *.
  cbn [default from_option id Worker.labels_value Js.opt_prop Js.nullish Js.prop Js.assoc
       String.eqb Ascii.eqb Bool.eqb].
  unfold Worker.mockAiInference.
  pose proof (mock_priority_category (Js.toLowerCase text)) as Hpc.
  destruct (Worker.mock_priority_of (Js.toLowerCase text)) as [prio c0].
  cbn [fst snd] in Hpc. destruct Hpc as (Hprio & Hcat & _).
  cbn [Worker.mock_sentiment Worker.mock_priority Worker.mock_category
       Worker.mock_summary Worker.mock_priority_reason].
  split; [|split; [|split; [|split]]].
  - apply sanitizeChoice_some. split; [reflexivity | apply mock_sentiment_in].
  - apply sanitizeChoice_some. split; [reflexivity|].
    cbn [In] in Hprio. destruct Hprio as [<-|[<-|[<-|[]]]]; cbn; tauto.
  - cbn [In Worker.PRODUCT_CATEGORIES] in Hcat.
    destruct Hcat as [<-|[<-|[<-|[<-|[<-|[<-|[<-|[<-|[]]]]]]]]]; reflexivity.
  - destruct (trimmed_head _ Hraw) as (c & t & Etext & Hc0).
    fold (ingest_text payload) in Etext. fold text in Etext. rewrite Etext.
    cbn [Js.slice0]. rewrite sanitizeNullable_head by exact Hc0.
    unfold Js.or_else. rewrite trim_head_nonempty by exact Hc0. reflexivity.
  - cbn [In] in Hprio.
    destruct Hprio as [<-|[<-|[<-|[]]]];
      rewrite !append_cons, sanitizeNullable_head by reflexivity; discriminate.
Qed.

(** [ingest_mock_fully_labelled] on the sample payload. *)
Lemma ingest_mock_fully_labelled_witness :
  exists r,
    In r (stored (snd (start (Worker.ingest Testing.JSON_parse Testing.new_Ai
                                (Testing.with_mock "true" Testing.world)
                                (Some Testing.sample_payload)))))
    /\ sentiment r = Some "negative" /\ priority r = Some "P3" /\ category r = Some "other".
Proof.
  set (w := Testing.with_mock "true" Testing.world).
  set (r := Worker.build_record w Testing.sample_payload "github" "Login is broken"
              (Some (Worker.labels_value (Worker.mockAiInference "Login is broken")))).
  assert (Hin : In r (stored (snd (start (Worker.ingest Testing.JSON_parse Testing.new_Ai w
                                            (Some Testing.sample_payload)))))).
  { vm_compute. left. reflexivity. }
  exists r. split; [exact Hin|].
  assert (Hun : unlabelled Testing.sample_payload) by (repeat constructor).
  destruct (ingest_mock_fully_labelled _ _ w _ r eq_refl Hun Hin) as (Hs & Hp & Hc & _).
  rewrite Hs, Hp, Hc. repeat split.
Defined.

(** ** Failures of the daily runs *)

(** Property X14. [handleScheduled] never throws, whatever the
    database, the inference binding and the webhook do, and posts and
    logs at most once. When the 24-hour query throws, nothing is
    analysed or logged: the error is posted to the webhook when one is
    configured, and a failure of that post is swallowed too. *)
Theorem handleScheduled_never_throws
    (JSON_stringify : Scheduled.AnalysisResult -> string) (w : World) :
  let result := start (Scheduled.handleScheduled JSON_stringify w) in
  fst result = Js.Returned tt
  /\ length (posts (snd result)) <= 1
  /\ length (log_rows (snd result)) <= 1
  /\ (forall e, select_answer w = Js.Thrown e ->
        snd result
        = SelectRecent (yesterday_iso w)
          :: (if configured (SLACK_WEBHOOK_URL w)
              then [Post (default "" (SLACK_WEBHOOK_URL w)) (ErrorNotice e)]
              else [])).
Proof.
  intros result. subst result.
  destruct (select_answer w) as [[[|r rows]|]|e] eqn:Hsel.
  - rewrite handleScheduled_nothing by (right; exact Hsel).
    cbn. repeat split; try lia; try discriminate.
  - destruct (configured (SLACK_WEBHOOK_URL w)) eqn:Hc.
    + destruct (SLACK_WEBHOOK_URL w) as [url|] eqn:Hurl; [|discriminate Hc].
      cbn [configured] in Hc. apply nonempty_true in Hc.
      destruct (handleScheduled_delivers JSON_stringify w (r :: rows) url Hsel
                  ltac:(discriminate) Hurl Hc) as (analysis & t1 & _ & Hp & Hl & ->).
      cbn [fst snd]. rewrite posts_app, log_rows_app, Hp, Hl.
      cbn. repeat split; try lia; try discriminate.
    + destruct (handleScheduled_silent JSON_stringify w (r :: rows) Hsel
                  ltac:(discriminate) Hc) as (analysis & t1 & _ & Hp & Hl & ->).
      cbn [fst snd]. rewrite posts_app, log_rows_app, Hp, Hl.
      cbn. repeat split; try lia; try discriminate.
  - rewrite handleScheduled_nothing by (left; exact Hsel).
    cbn. repeat split; try lia; try discriminate.
  - unfold start, Scheduled.handleScheduled, try_catch at 1, mbind, M_bind, call.
    rewrite Hsel. cbn [app].
    destruct (configured (SLACK_WEBHOOK_URL w)).
    + unfold Scheduled.notifyError, try_catch, mbind, M_bind, call.
      destruct (fetch_answer w); cbn;
        (split; [reflexivity|]); (split; [lia|]); (split; [lia|]);
        intros ? [= <-]; reflexivity.
    + cbn. (split; [reflexivity|]); (split; [lia|]); (split; [lia|]).
      intros ? [= <-]. reflexivity.
Qed.

(** [handleScheduled_never_throws] when the query and the webhook both
    fail: the error notice is attempted and the handler returns. *)
Lemma handleScheduled_never_throws_witness :
  start (Scheduled.handleScheduled Testing.stringify_s query_down)
  = (Js.Returned tt,
     [SelectRecent (yesterday_iso query_down);
      Post Testing.slack_url (ErrorNotice "D1_ERROR")]).
Proof.
  pose proof (handleScheduled_never_throws Testing.stringify_s query_down) as H.
  destruct (start (Scheduled.handleScheduled Testing.stringify_s query_down)) as [o t].
  destruct H as (Ho & _ & _ & Ht). cbn [fst snd] in Ho, Ht.
  rewrite Ho, (Ht "D1_ERROR" eq_refl). reflexivity.
Defined.

(** Property X15. The workflow's [run] throws in two cases only: when
    the 24-hour query throws, and when a webhook is configured whose
    address [new URL] does not parse. In the second case the run stops
    while the message is being built: nothing is posted and, although
    the analysis was computed, no log row is written. *)
Theorem workflow_run_failures (new_URL : string -> option URL)
    (JSON_stringify : Workflow.AnalysisResult -> string) (w : World) :
  let result := start (Workflow.run new_URL JSON_stringify w) in
  (forall e, select_answer w = Js.Thrown e ->
     result = (Js.Thrown e, [SelectRecent (yesterday_iso w)]))
  /\ (forall results url,
        select_answer w = Js.Returned results ->
        SLACK_WEBHOOK_URL w = Some url -> url <> "" -> new_URL url = None ->
        fst result = Js.Thrown "TypeError"
        /\ posts (snd result) = [] /\ log_rows (snd result) = [])
  /\ (forall e, fst result = Js.Thrown e ->
        select_answer w = Js.Thrown e
        \/ exists url, SLACK_WEBHOOK_URL w = Some url /\ url <> "" /\ new_URL url = None).
Proof.
  intros result. subst result.
  assert (Hthrow : forall e, select_answer w = Js.Thrown e ->
            start (Workflow.run new_URL JSON_stringify w)
            = (Js.Thrown e, [SelectRecent (yesterday_iso w)])).
  { intros e Hsel. unfold start, Workflow.run, Workflow.fetchRecentFeedback,
      mbind, M_bind, call. rewrite Hsel. reflexivity. }
  assert (Hbad : forall results url,
            select_answer w = Js.Returned results ->
            SLACK_WEBHOOK_URL w = Some url -> url <> "" -> new_URL url = None ->
            fst (start (Workflow.run new_URL JSON_stringify w)) = Js.Thrown "TypeError"
            /\ posts (snd (start (Workflow.run new_URL JSON_stringify w))) = []
            /\ log_rows (snd (start (Workflow.run new_URL JSON_stringify w))) = []).
  { intros results url Hsel Hurl Hne Hparse.
    destruct (workflow_analyze_returns w (default [] results) [SelectRecent (yesterday_iso w)])
      as (analysis & t1 & Han & Hp & Hl & _).
    assert (start (Workflow.run new_URL JSON_stringify w) = (Js.Thrown "TypeError", t1)) as ->.
    { unfold start, Workflow.run.
      erewrite bind_returned
        by (unfold Workflow.fetchRecentFeedback;
            erewrite bind_returned by (rewrite call_answer, Hsel; reflexivity);
            reflexivity).
      returns Han.
      erewrite bind_returned by reflexivity.
      apply bind_thrown. unfold Workflow.sendToSlack.
      rewrite Hurl. cbn [configured default from_option]. unfold id.
      apply nonempty_true in Hne. rewrite Hne. cbn [negb]. rewrite Hparse. reflexivity. }
    cbn [fst snd]. rewrite Hp, Hl. repeat split. }
  split; [exact Hthrow|]. split; [exact Hbad|].
  intros e He.
  destruct (select_answer w) as [results|e'] eqn:Hsel.
  2:{ rewrite (Hthrow e' eq_refl) in He. left. cbn [fst] in He. congruence. }
  right. destruct (configured (SLACK_WEBHOOK_URL w)) eqn:Hc.
  - destruct (SLACK_WEBHOOK_URL w) as [url|] eqn:Hurl; [|discriminate Hc].
    cbn [configured] in Hc. apply nonempty_true in Hc.
    destruct (new_URL url) as [parsed|] eqn:Hparse.
    + exfalso.
      destruct (workflow_delivers new_URL JSON_stringify w results url parsed
                  Hsel Hurl Hc Hparse) as (analysis & t1 & _ & _ & _ & Hrun).
      rewrite Hrun in He. discriminate He.
    + exists url. repeat split; assumption.
  - exfalso.
    destruct (workflow_silent new_URL JSON_stringify w results Hsel Hc)
      as (analysis & t1 & _ & _ & _ & Hrun).
    rewrite Hrun in He. discriminate He.
Qed.

(** [workflow_run_failures] at a webhook address that does not parse. *)
Lemma workflow_run_failures_witness :
  let w := Testing.with_webhook "hooks.slack.com/services/T0" 
             (Testing.with_rows Testing.one_row Testing.world) in
  fst (start (Workflow.run Testing.new_URL Testing.stringify_w w)) = Js.Thrown "TypeError"
  /\ log_rows (snd (start (Workflow.run Testing.new_URL Testing.stringify_w w))) = [].
Proof.
  intros w.
  destruct (proj1 (proj2 (workflow_run_failures Testing.new_URL Testing.stringify_w w))
              (Some Testing.one_row) "hooks.slack.com/services/T0"
              eq_refl eq_refl ltac:(discriminate) eq_refl) as (H1 & _ & H3).
  split; [exact H1 | exact H3].
Defined.

(** ** The issue table *)

Lemma map_get_counts (m : list (string * (nat * string))) (k : string) :
  Js.map_get (counts_of m) k = fst <$> Js.map_get m k.
Proof.
  induction m as [|[k' v] m IH]; [reflexivity|].
  cbn [counts_of map Js.map_get fst snd]. destruct (String.eqb k' k); [reflexivity | exact IH].
Qed.

Lemma map_set_counts (m : list (string * (nat * string))) (k : string) (n : nat) (s : string) :
  counts_of (Js.map_set m k (n, s)) = Js.map_set (counts_of m) k n.
Proof.
  induction m as [|[k' v] m IH]; [reflexivity|].
  cbn [counts_of map Js.map_set fst snd]. destruct (String.eqb k' k); cbn [map fst snd].
  - reflexivity.
  - f_equal. exact IH.
Qed.

Lemma track_counts (m : list (string * (nat * string))) (item : Feedback) :
  counts_of (Analysis.track m item)
  = match issue_key item with
    | Some text => Worker.count_word (counts_of m) text
    | None => counts_of m
    end.
Proof.
  unfold Analysis.track, issue_key. destruct (summary item) as [text|]; [|reflexivity].
  destruct (Js.nonempty text); [|reflexivity].
  unfold Worker.count_word. rewrite map_set_counts, map_get_counts.
  destruct (Js.map_get m text) as [[c s]|]; reflexivity.
Qed.

Lemma fold_track_counts (rows : list Feedback) (m : list (string * (nat * string))) :
  counts_of (fold_left Analysis.track rows m)
  = fold_left Worker.count_word (issue_keys rows) (counts_of m).
Proof.
  revert m. induction rows as [|r rows IH]; intros m; [reflexivity|].
  cbn [fold_left]. rewrite IH, track_counts. unfold issue_keys. cbn [omap list_omap].
  destruct (issue_key r); reflexivity.
Qed.

Lemma issue_counts (rows : list Feedback) :
  counts_of (fold_left Analysis.track rows []) = word_table (issue_keys rows).
Proof. rewrite fold_track_counts. apply wordFreq_is_table. Qed.






Lemma issue_table_keys (rows : list Feedback) :
  map fst (fold_left Analysis.track rows []) = first_seen (issue_keys rows).
Proof.
  rewrite <- word_table_keys, <- issue_counts. unfold counts_of.
  rewrite List.map_map. reflexivity.
Qed.


Lemma sorted_app_rel {A} (R : A -> A -> Prop) (a b : list A) :
  StronglySorted R (a ++ b) -> forall x y, In x a -> In y b -> R x y.
Proof.
  induction a as [|h a IH]; intros Hs x y Hx Hy; [destruct Hx|].
  cbn [app] in Hs. apply StronglySorted_inv in Hs as [Hs Hall].
  destruct Hx as [<-|Hx].
  - rewrite List.Forall_forall in Hall. apply Hall, in_or_app. right. exact Hy.
  - exact (IH Hs x y Hx Hy).
Qed.

Lemma scheduled_issues_fold (rows : list Feedback) (st : Scheduled.Tally) :
  Scheduled.t_issues (fold_left Scheduled.visit rows st)
  = fold_left Analysis.track rows (Scheduled.t_issues st).
Proof.
  revert st. induction rows as [|r rows IH]; intros st; [reflexivity|].
  cbn [fold_left]. rewrite IH. reflexivity.
Qed.

Lemma workflow_issues_fold (rows : list Feedback) (st : Workflow.Tally) :
  Workflow.t_issues (fold_left Workflow.visit rows st)
  = fold_left Analysis.track rows (Workflow.t_issues st).
Proof.
  revert st. induction rows as [|r rows IH]; intros st; [reflexivity|].
  cbn [fold_left]. rewrite IH. reflexivity.
Qed.

(** The analyses return, with the top issues of the table. *)
Lemma scheduled_analysis_top (w : World) (rows : list Feedback) (t : list event) :
  exists analysis t',
    Scheduled.analyzeFeedback w rows t = (Js.Returned analysis, t')
    /\ Scheduled.topIssues analysis = Analysis.top_issues (fold_left Analysis.track rows [])
    /\ Analysis.recommend w (Scheduled.topIssues analysis) (firstn 4) t
       = (Js.Returned (Scheduled.recommendedActions analysis), t').
Proof.
  unfold Scheduled.analyzeFeedback, Scheduled.tally. rewrite scheduled_issues_fold.
  cbn [Scheduled.t_issues].
  destruct (recommend_returns w (Analysis.top_issues (fold_left Analysis.track rows []))
              (firstn 4) t) as (acts & t' & Hrec & _).
  eexists _, t'. split; [returns Hrec; reflexivity|].
  cbn [Scheduled.topIssues Scheduled.recommendedActions]. rewrite Hrec. split; reflexivity.
Qed.

Lemma workflow_analysis_top (w : World) (rows : list Feedback) (t : list event) :
  exists analysis t',
    Workflow.analyzeWithAI w rows t = (Js.Returned analysis, t')
    /\ Workflow.topIssues analysis = Analysis.top_issues (fold_left Analysis.track rows [])
    /\ Analysis.recommend w (Workflow.topIssues analysis) (fun lines => lines) t
       = (Js.Returned (Workflow.recommendedActions analysis), t').
Proof.
  unfold Workflow.analyzeWithAI. destruct rows as [|r rows].
  { eexists _, t. split; [reflexivity|]. split; [reflexivity|].
    unfold Analysis.recommend. destruct (AI w); reflexivity. }
  cbn [length Nat.eqb]. unfold Workflow.tally. rewrite workflow_issues_fold.
  cbn [Workflow.t_issues].
  destruct (recommend_returns w
              (Analysis.top_issues (fold_left Analysis.track (r :: rows) []))
              (fun lines => lines) t) as (acts & t' & Hrec & _).
  eexists _, t'. split; [returns Hrec; reflexivity|].
  cbn [Workflow.topIssues Workflow.recommendedActions]. rewrite Hrec. split; reflexivity.
Qed.


(** ** Recommendations *)

Lemma nonblank_lines_nonblank (text : string) : Forall nonblank (Analysis.nonblank_lines text).
Proof.
  unfold Analysis.nonblank_lines. apply List.Forall_forall. intros line Hin.
  apply List.filter_In in Hin as [_ H]. apply nonempty_true, H.
Qed.

Lemma default_actions_nonblank : Forall nonblank Analysis.default_actions.
Proof. repeat constructor; discriminate. Qed.

(** What the recommendation step returns, in terms of the lines the
    workflow keeps. *)
Lemma recommend_cases (w : World) (top : list Issue) (t : list event) :
  exists lines t',
    (forall keep : list string -> list string,
       keep [] = [] -> keep Analysis.default_actions = Analysis.default_actions ->
       Analysis.recommend w top keep t = (Js.Returned (keep lines), t'))
    /\ Forall nonblank lines
    /\ (t' = t \/ t' = (t ++ [asked top])%list)
    /\ (AI w = None \/ top = [] -> t' = t /\ lines = [])
    /\ (forall e, AI w = Some (Js.Thrown e) -> top <> [] ->
          lines = Analysis.default_actions)
    /\ (forall answer text,
          AI w = Some (Js.Returned answer) -> top <> [] ->
          Analysis.response_text answer = Js.VString text ->
          lines = Analysis.nonblank_lines text).
Proof.
  unfold Analysis.recommend.
  destruct (AI w) as [answer|].
  2:{ exists [], t. split; [intros keep H _; rewrite H; reflexivity|].
      split; [constructor|]. split; [left; reflexivity|]. split; [tauto|].
      split; [discriminate | discriminate]. }
  destruct top as [|i top].
  { exists [], t. split; [intros keep H _; rewrite H; reflexivity|].
    split; [constructor|]. split; [left; reflexivity|]. split; [tauto|].
    split; intros; congruence. }
  cbn [length Nat.ltb Nat.leb]. unfold try_catch, mbind, M_bind, call, throw, mret, M_ret.
  fold (asked (i :: top)).
  destruct answer as [response|e].
  2:{ exists Analysis.default_actions, (t ++ [asked (i :: top)])%list.
      split; [intros keep _ H; rewrite H; reflexivity|].
      split; [apply default_actions_nonblank|]. split; [right; reflexivity|].
      split; [intros [H|H]; discriminate H|].
      split; [reflexivity | discriminate]. }
  destruct (Js.truthy (Analysis.response_text response)) eqn:Htruthy.
  2:{ exists [], (t ++ [asked (i :: top)])%list.
      split; [intros keep H _; rewrite H; reflexivity|].
      split; [constructor|]. split; [right; reflexivity|].
      split; [intros [H|H]; discriminate H|].
      split; [discriminate|].
      intros answer text [= <-] _ Htext. rewrite Htext in Htruthy.
      cbn [Js.truthy] in Htruthy. destruct text; [reflexivity | discriminate Htruthy]. }
  destruct (Analysis.response_text response) as [| |b|r|text|items|props] eqn:Hresp;
    try discriminate Htruthy.
  3:{ exists (Analysis.nonblank_lines text), (t ++ [asked (i :: top)])%list.
      split; [intros keep _ _; reflexivity|].
      split; [apply nonblank_lines_nonblank|]. split; [right; reflexivity|].
      split; [intros [H|H]; discriminate H|].
      split; [discriminate|].
      intros answer text' [= <-] _ Htext. rewrite Hresp in Htext.
      injection Htext as <-. reflexivity. }
  all: exists Analysis.default_actions, (t ++ [asked (i :: top)])%list;
    (split; [intros keep _ H; rewrite H; reflexivity|]);
    (split; [apply default_actions_nonblank|]); (split; [right; reflexivity|]);
    (split; [intros [H|H]; discriminate H|]);
    (split; [reflexivity|]);
    intros answer text' [= <-] _ Htext; rewrite Hresp in Htext; discriminate Htext.
Qed.

Lemma top_issues_nil (rows : list Feedback) :
  Analysis.top_issues (fold_left Analysis.track rows []) = [] <-> issue_keys rows = [].
Proof.
  pose proof (issue_table_keys rows) as Hk.
  unfold Analysis.top_issues.
  set (m := fold_left Analysis.track rows []) in *.
  split.
  - intros H.
    assert (m = []) as Hm.
    { destruct m as [|e m]; [reflexivity|]. exfalso.
      pose proof (sort_desc_perm count
                    (map (fun e => {| issue := fst e; count := fst (snd e);
                                      issue_sentiment := snd (snd e) |}) (e :: m))) as Hp.
      destruct (Js.sort_desc count _) as [|x l] eqn:E.
      - apply Permutation_nil in Hp. discriminate Hp.
      - discriminate H. }
    rewrite Hm in Hk. cbn [map] in Hk.
    destruct (issue_keys rows) as [|k ks]; [reflexivity | discriminate Hk].
  - intros H. rewrite H in Hk. cbn [first_seen] in Hk.
    destruct m; [reflexivity | discriminate Hk].
Qed.

(** Property X17. Both analyses ask the inference binding at most
    once, and only when a binding exists and some record has a summary.
    The handler's recommendations are the first four of the workflow's.
    They are the three default actions when the call throws, the lines
    of the answer's [result.response] that are not blank when that is a
    string, and never contain a blank line. *)
Theorem recommended_actions_shape (w : World) (rows : list Feedback) (t : list event) :
  let top := Analysis.top_issues (fold_left Analysis.track rows []) in
  exists handler t1 workflow t2,
    Scheduled.analyzeFeedback w rows t = (Js.Returned handler, t1)
    /\ Workflow.analyzeWithAI w rows t = (Js.Returned workflow, t2)
    /\ t1 = t2 /\ (t1 = t \/ t1 = (t ++ [asked top])%list)
    /\ (AI w = None \/ issue_keys rows = [] ->
        t1 = t /\ Workflow.recommendedActions workflow = [])
    /\ Scheduled.recommendedActions handler = firstn 4 (Workflow.recommendedActions workflow)
    /\ Forall nonblank (Workflow.recommendedActions workflow)
    /\ (forall e, AI w = Some (Js.Thrown e) -> issue_keys rows <> [] ->
          Workflow.recommendedActions workflow = Analysis.default_actions)
    /\ (forall answer text,
          AI w = Some (Js.Returned answer) -> issue_keys rows <> [] ->
          Analysis.response_text answer = Js.VString text ->
          Workflow.recommendedActions workflow = Analysis.nonblank_lines text).
Proof.
  intros top.
  destruct (scheduled_analysis_top w rows t) as (h & t1 & Hh & Hhtop & Hhrec).
  destruct (workflow_analysis_top w rows t) as (wf & t2 & Hw & Hwtop & Hwrec).
  fold top in Hhtop, Hwtop. rewrite Hhtop in Hhrec. rewrite Hwtop in Hwrec.
  destruct (recommend_cases w top t) as (lines & t' & Hkeep & Hnb & Ht & Hnone & Hthrow & Htext).
  rewrite (Hkeep (firstn 4) eq_refl eq_refl) in Hhrec.
  rewrite (Hkeep (fun l => l) eq_refl eq_refl) in Hwrec.
  injection Hhrec as Hh4 Ht1. injection Hwrec as Hwl Ht2. subst t1 t2.
  assert (Hnil : issue_keys rows = [] <-> top = []) by (symmetry; apply top_issues_nil).
  exists h, t', wf, t'. rewrite <- Hh4, <- Hwl.
  split; [exact Hh|]. split; [exact Hw|]. split; [reflexivity|].
  split; [exact Ht|].
  split; [intros [H|H]; apply Hnone; [left; exact H | right; apply Hnil, H]|].
  split; [reflexivity|]. split; [exact Hnb|].
  split.
  - intros e He Hk. apply (Hthrow e He). intros H. apply Hk, Hnil, H.
  - intros answer text Ha Hk. apply (Htext answer text Ha). intros H. apply Hk, Hnil, H.
Qed.

(** [recommended_actions_shape] without an inference binding. *)
Lemma recommended_actions_shape_witness :
  exists workflow,
    Workflow.analyzeWithAI Testing.world Testing.one_row [] = (Js.Returned workflow, [])
    /\ Workflow.recommendedActions workflow = [].
Proof.
  destruct (recommended_actions_shape Testing.world Testing.one_row [])
    as (h & t1 & wf & t2 & _ & Hw & <- & _ & Hnone & _).
  destruct (Hnone (or_introl eq_refl)) as [-> Hacts].
  exists wf. split; [exact Hw | exact Hacts].
Defined.

(** ** The size of the message *)

Ltac each_block :=
  repeat first [apply List.Forall_nil | apply List.Forall_cons]; cbn [listed].

(** A part of the message that may be left out. *)
Lemma optional_part (c : bool) (part : list block) (n k : nat) :
  length part <= n -> Forall (fun b => listed b <= k) part ->
  length (if c then part else []) <= n
  /\ Forall (fun b => listed b <= k) (if c then part else []).
Proof. intros Hl Hf. destruct c; [split; assumption|]. split; [cbn; lia | constructor]. Qed.

Lemma urgent_part (n k : nat) (items : list Feedback) :
  length ([Divider; UrgentHeader n] ++ map Analysis.urgent_block (firstn 3 items))%list <= 5
  /\ Forall (fun b => listed b <= k)
       ([Divider; UrgentHeader n] ++ map Analysis.urgent_block (firstn 3 items))%list.
Proof.
  split.
  - rewrite length_app, length_map. cbn [length].
    pose proof (firstn_le_length 3 items). lia.
  - apply List.Forall_app. split; [each_block; lia|].
    apply List.Forall_forall. intros b Hb. apply List.in_map_iff in Hb as (x & <- & _).
    cbn. lia.
Qed.

Lemma message_bound (k : nat) (top rec urgent : list block) (url : string) :
  length top <= 1 /\ Forall (fun b => listed b <= k) top ->
  length rec <= 2 /\ Forall (fun b => listed b <= k) rec ->
  length urgent <= 5 /\ Forall (fun b => listed b <= k) urgent ->
  forall total negative p0 p1,
    let blocks := ([Header; Metrics total negative p0 p1; Divider]
                   ++ top ++ rec ++ urgent ++ [Actions url])%list in
    length blocks <= 12
    /\ Forall (fun b => listed b <= k) blocks
    /\ head blocks = Some Header
    /\ last blocks = Some (Actions url).
Proof.
  intros [Ht1 Ht2] [Hr1 Hr2] [Hu1 Hu2] total negative p0 p1 blocks. subst blocks.
  split; [rewrite !length_app; cbn [length]; lia|].
  split.
  { repeat (apply List.Forall_app; split); try assumption; each_block; lia. }
  split; [reflexivity|].
  rewrite !app_assoc. apply last_snoc.
Qed.

Lemma scheduled_blocks_bound (analysis : Scheduled.AnalysisResult) (rows : list Feedback) :
  length (Scheduled.recommendedActions analysis) <= 4 ->
  let blocks := Scheduled.blocks_of analysis rows in
  length blocks <= 12
  /\ Forall (fun b => listed b <= 4) blocks
  /\ head blocks = Some Header
  /\ last blocks = Some (Actions "https://your-domain.com/dashboard").
Proof.
  intros Hrec. unfold Scheduled.blocks_of. apply message_bound.
  - apply optional_part; [cbn; lia|]. each_block.
    rewrite length_map. pose proof (firstn_le_length 3 (Scheduled.topIssues analysis)). lia.
  - apply optional_part; [cbn; lia|]. each_block; lia.
  - apply optional_part; [apply (proj1 (urgent_part _ 4 _)) | apply (proj2 (urgent_part _ 4 _))].
Qed.

Lemma workflow_blocks_bound (insights : Workflow.AnalysisResult) (dashboard : string) :
  let blocks := Workflow.blocks_of insights dashboard in
  length blocks <= 12
  /\ Forall (fun b => listed b <= 3) blocks
  /\ head blocks = Some Header
  /\ last blocks = Some (Actions dashboard).
Proof.
  unfold Workflow.blocks_of. apply message_bound.
  - apply optional_part; [cbn; lia|]. each_block.
    rewrite length_map. apply firstn_le_length.
  - apply optional_part; [cbn; lia|]. each_block; [lia|]. apply firstn_le_length.
  - apply optional_part; [apply (proj1 (urgent_part _ 3 _)) | apply (proj2 (urgent_part _ 3 _))].
Qed.

(** Property X18. However many records are fetched, the message either
    run posts has at most twelve blocks, from the header to the button;
    a block lists at most four lines in the handler's message and three
    in the workflow's; and its metrics block shows the very numbers that
    are written to the log row of the run. *)
Theorem slack_message_bounded
    (stringify_s : Scheduled.AnalysisResult -> string)
    (stringify_w : Workflow.AnalysisResult -> string)
    (w : World) (rows : list Feedback) (t : list event) :
  (exists analysis t',
     Scheduled.analyzeFeedback w rows t = (Js.Returned analysis, t')
     /\ let blocks := Scheduled.blocks_of analysis rows in
        length blocks <= 12
        /\ Forall (fun b => listed b <= 4) blocks
        /\ head blocks = Some Header
        /\ last blocks = Some (Actions "https://your-domain.com/dashboard")
        /\ In (metrics_of (Scheduled.log_row stringify_s w analysis)) blocks)
  /\ (exists analysis t',
        Workflow.analyzeWithAI w rows t = (Js.Returned analysis, t')
        /\ forall dashboard,
             let insights := Workflow.insights_of analysis in
             let blocks := Workflow.blocks_of insights dashboard in
             length blocks <= 12
             /\ Forall (fun b => listed b <= 3) blocks
             /\ head blocks = Some Header
             /\ last blocks = Some (Actions dashboard)
             /\ In (metrics_of (Workflow.log_row stringify_w w insights)) blocks).
Proof.
  split.
  - destruct (scheduled_analysis_top w rows t) as (a & t' & Ha & Htop & Hrec).
    destruct (recommend_cases w (Scheduled.topIssues a) t) as (lines & t'' & Hkeep & _).
    rewrite (Hkeep (firstn 4) eq_refl eq_refl) in Hrec. injection Hrec as Hrec _.
    exists a, t'. split; [exact Ha|].
    assert (length (Scheduled.recommendedActions a) <= 4) as Hlen
      by (rewrite <- Hrec; apply firstn_le_length).
    destruct (scheduled_blocks_bound a rows Hlen) as (H1 & H2 & H3 & H4).
    cbv zeta. split; [exact H1|]. split; [exact H2|]. split; [exact H3|]. split; [exact H4|].
    unfold Scheduled.blocks_of, metrics_of, Scheduled.log_row.
    cbn [total_feedback negative_count p0_count p1_count].
    apply in_or_app. left. right. left. reflexivity.
  - destruct (workflow_analyze_returns w rows t) as (a & t' & Ha & _).
    exists a, t'. split; [exact Ha|]. intros dashboard.
    destruct (workflow_blocks_bound (Workflow.insights_of a) dashboard) as (H1 & H2 & H3 & H4).
    cbv zeta. split; [exact H1|]. split; [exact H2|]. split; [exact H3|]. split; [exact H4|].
    unfold Workflow.blocks_of, metrics_of, Workflow.log_row.
    cbn [total_feedback negative_count p0_count p1_count].
    apply in_or_app. left. right. left. reflexivity.
Qed.

(** * Properties of the utility module *)

(** Property X19. [truncate] leaves a text of at most [maxLength]
    characters alone; a longer one is cut to exactly [maxLength]
    characters, the last three being dots, provided [maxLength] is at
    least 3. Below 3 every longer text becomes the three dots alone,
    which is more than [maxLength] characters. *)
Theorem truncate_length (text : string) (maxLength : Z) :
  ((Z.of_nat (String.length text) <= maxLength)%Z -> Utils.truncate text maxLength = text)
  /\ ((maxLength < Z.of_nat (String.length text))%Z ->
      (exists kept, Utils.truncate text maxLength = kept ++ "..."
                    /\ Js.startsWith text kept = true)
      /\ ((3 <= maxLength)%Z ->
          Z.of_nat (String.length (Utils.truncate text maxLength)) = maxLength)
      /\ ((maxLength < 3)%Z -> Utils.truncate text maxLength = "..."))
  /\ ((3 <= maxLength)%Z ->
      (Z.of_nat (String.length (Utils.truncate text maxLength)) <= maxLength)%Z).
Proof.
  assert (Hlong : (maxLength < Z.of_nat (String.length text))%Z -> (3 <= maxLength)%Z ->
            Z.of_nat (String.length (Utils.truncate text maxLength)) = maxLength).
  { intros Hl H3. unfold Utils.truncate.
    destruct (Z.leb_spec (Z.of_nat (String.length text)) maxLength); [lia|].
    rewrite str_length_app, slice0_length. cbn [String.length]. lia. }
  split; [|split].
  - intros H. unfold Utils.truncate.
    destruct (Z.leb_spec (Z.of_nat (String.length text)) maxLength); [reflexivity | lia].
  - intros Hl. split; [|split].
    + exists (Js.slice0 (Z.to_nat (maxLength - 3)) text). split; [|apply slice0_prefix].
      unfold Utils.truncate.
      destruct (Z.leb_spec (Z.of_nat (String.length text)) maxLength); [lia | reflexivity].
    + exact (Hlong Hl).
    + intros H3. unfold Utils.truncate.
      destruct (Z.leb_spec (Z.of_nat (String.length text)) maxLength); [lia|].
      replace (Z.to_nat (maxLength - 3)) with 0 by lia. reflexivity.
  - intros H3. destruct (Z.le_gt_cases (Z.of_nat (String.length text)) maxLength) as [Hs|Hl].
    + unfold Utils.truncate.
      destruct (Z.leb_spec (Z.of_nat (String.length text)) maxLength); [exact Hs | lia].
    + rewrite (Hlong Hl H3). lia.
Qed.

(** [truncate_length] on a text of 21 characters. *)
Lemma truncate_length_witness :
  Z.of_nat (String.length (Utils.truncate "Dashboard is too slow" 10)) = 10%Z
  /\ Utils.truncate "Dashboard is too slow" 2 = "...".
Proof.
  split.
  - apply (proj1 (proj2 (proj1 (proj2 (truncate_length "Dashboard is too slow" 10))
                          ltac:(cbn; lia)))).
    lia.
  - apply (proj2 (proj2 (proj1 (proj2 (truncate_length "Dashboard is too slow" 2))
                          ltac:(cbn; lia)))).
    lia.
Defined.

Lemma not_recently (x suffix : string) :
  suffix = "m ago" \/ suffix = "h ago" \/ suffix = "d ago" -> x ++ suffix <> "recently".
Proof.
  intros Hs H.
  assert (String.length (x ++ suffix) = 8) as Hlen by (rewrite H; reflexivity).
  rewrite str_length_app in Hlen.
  destruct x as [|a [|b [|c [|d x]]]];
    destruct Hs as [-> | [-> | ->]]; cbn in Hlen; try lia; discriminate H.
Qed.

(** Property X20. [formatTimeDiff] never answers "recently": its
    [catch] cannot be reached, and a date that does not parse is shown as
    "NaNd ago". A date less than a minute back, or in the future, is
    "just now"; after that the age is shown in whole minutes up to 59, in
    whole hours up to 23, and in whole days. *)
Theorem formatTimeDiff_ranges (Date_getTime : string -> option Z) (now : Z)
    (dateStr : string) :
  Utils.formatTimeDiff Date_getTime now dateStr <> "recently"
  /\ (Date_getTime dateStr = None ->
      Utils.formatTimeDiff Date_getTime now dateStr = "NaNd ago")
  /\ (forall date, Date_getTime dateStr = Some date ->
        let age := (now - date)%Z in
        let shown := Utils.formatTimeDiff Date_getTime now dateStr in
        ((age < 60000)%Z -> shown = "just now")
        /\ ((60000 <= age < 3600000)%Z ->
            shown = pretty (age / 60000)%Z ++ "m ago" /\ (1 <= age / 60000 <= 59)%Z)
        /\ ((3600000 <= age < 86400000)%Z ->
            shown = pretty (age / 3600000)%Z ++ "h ago" /\ (1 <= age / 3600000 <= 23)%Z)
        /\ ((86400000 <= age)%Z ->
            shown = pretty (age / 86400000)%Z ++ "d ago" /\ (1 <= age / 86400000)%Z)).
Proof.
  unfold Utils.formatTimeDiff. destruct (Date_getTime dateStr) as [date|].
  2:{ split; [discriminate|]. split; [reflexivity | discriminate]. }
  cbv zeta. set (age := (now - date)%Z).
  assert (Hh : (age / 60000 / 60 = age / 3600000)%Z) by (rewrite Z.div_div by lia; reflexivity).
  assert (Hd : (age / 60000 / 60 / 24 = age / 86400000)%Z)
    by (rewrite !Z.div_div by lia; reflexivity).
  rewrite Hd, Hh.
  assert (Hm1 : (age / 60000 < 1 <-> age < 60000)%Z).
  { split; intros H.
    - apply Z.nle_gt. intros Hge. apply (Z.div_le_mono _ _ 60000) in Hge; [|lia].
      change (60000 / 60000)%Z with 1%Z in Hge. lia.
    - apply Z.div_lt_upper_bound; lia. }
  assert (Hm60 : (age / 60000 < 60 <-> age < 3600000)%Z).
  { split; intros H.
    - apply Z.nle_gt. intros Hge. apply (Z.div_le_mono _ _ 60000) in Hge; [|lia].
      change (3600000 / 60000)%Z with 60%Z in Hge. lia.
    - apply Z.div_lt_upper_bound; lia. }
  assert (Hh24 : (age / 3600000 < 24 <-> age < 86400000)%Z).
  { split; intros H.
    - apply Z.nle_gt. intros Hge. apply (Z.div_le_mono _ _ 3600000) in Hge; [|lia].
      change (86400000 / 3600000)%Z with 24%Z in Hge. lia.
    - apply Z.div_lt_upper_bound; lia. }
  assert (Hh1 : (3600000 <= age -> 1 <= age / 3600000)%Z).
  { intros H. apply (Z.div_le_mono _ _ 3600000) in H; [|lia].
    change (3600000 / 3600000)%Z with 1%Z in H. exact H. }
  assert (Hd1 : (86400000 <= age -> 1 <= age / 86400000)%Z).
  { intros H. apply (Z.div_le_mono _ _ 86400000) in H; [|lia].
    change (86400000 / 86400000)%Z with 1%Z in H. exact H. }
  split; [|split; [discriminate|]].
  - destruct (_ <? 1)%Z; [discriminate|].
    destruct (_ <? 60)%Z; [apply not_recently; tauto|].
    destruct (_ <? 24)%Z; apply not_recently; tauto.
  - intros d [= <-]. fold age. clearbody age. split; [|split; [|split]].
    + intros H. apply Hm1 in H. apply Z.ltb_lt in H. rewrite H. reflexivity.
    + intros [Hlo Hhi].
      destruct (Z.ltb_spec (age / 60000) 1) as [H|H]; [apply Hm1 in H; lia|].
      destruct (Z.ltb_spec (age / 60000) 60) as [H'|H']; [|apply Hm60 in Hhi; lia].
      split; [reflexivity | lia].
    + intros [Hlo Hhi].
      destruct (Z.ltb_spec (age / 60000) 1) as [H|H]; [apply Hm1 in H; lia|].
      destruct (Z.ltb_spec (age / 60000) 60) as [H'|H']; [apply Hm60 in H'; lia|].
      destruct (Z.ltb_spec (age / 3600000) 24) as [H''|H'']; [|apply Hh24 in Hhi; lia].
      split; [reflexivity|]. specialize (Hh1 Hlo). lia.
    + intros Hlo.
      destruct (Z.ltb_spec (age / 60000) 1) as [H|H]; [apply Hm1 in H; lia|].
      destruct (Z.ltb_spec (age / 60000) 60) as [H'|H']; [apply Hm60 in H'; lia|].
      destruct (Z.ltb_spec (age / 3600000) 24) as [H''|H'']; [apply Hh24 in H''; lia|].
      split; [reflexivity | exact (Hd1 Hlo)].
Qed.

(** [formatTimeDiff_ranges] an hour and a half after a parsed date. *)
Lemma formatTimeDiff_ranges_witness :
  Utils.formatTimeDiff Testing.Date_getTime 1737250200000 "2025-01-19T00:00:00.000Z"
  = "1h ago"
  /\ Utils.formatTimeDiff Testing.Date_getTime 1737250200000 "yesterday" = "NaNd ago".
Proof.
  split.
  - destruct (proj2 (proj2 (formatTimeDiff_ranges Testing.Date_getTime 1737250200000
                              "2025-01-19T00:00:00.000Z")) 1737244800000%Z eq_refl)
      as (_ & _ & H & _).
    destruct (H ltac:(lia)) as [-> _]. reflexivity.
  - apply (proj1 (proj2 (formatTimeDiff_ranges Testing.Date_getTime 1737250200000
                           "yesterday"))).
    reflexivity.
Defined.

(** Property X21. [getTopItems] sorts the array it is given in place:
    afterwards the caller's array holds the same items in order of
    decreasing count, items of equal count in their old order. For
    [n >= 0] the result is its first [n] items, so that no item left out
    has a higher count than one returned; a negative [n] does not give an
    empty result but drops the last [-n] items. *)
Theorem getTopItems_ranked {T : Type} (count : T -> nat) (items : list T) (n : Z) :
  let '(top, sorted) := Utils.getTopItems count items n in
  Permutation sorted items
  /\ StronglySorted (fun a b => count b <= count a) sorted
  /\ (forall c, List.filter (fun e => (count e =? c)%nat) sorted
                = List.filter (fun e => (count e =? c)%nat) items)
  /\ ((0 <= n)%Z ->
      top = firstn (Z.to_nat n) sorted
      /\ length top = Nat.min (Z.to_nat n) (length items)
      /\ forall x y, In x top -> In y (skipn (Z.to_nat n) sorted) -> count y <= count x)
  /\ ((n < 0)%Z -> length top = length items - Z.to_nat (- n)).
Proof.
  unfold Utils.getTopItems, Utils.slice_to.
  pose proof (sort_desc_perm count items) as Hperm.
  pose proof (sort_desc_sorted count items) as Hsorted.
  set (sorted := Js.sort_desc count items) in *.
  assert (Hlen : length sorted = length items) by (apply Permutation_length, Hperm).
  split; [exact Hperm|]. split; [exact Hsorted|].
  split; [intros c; apply sort_desc_stable|].
  split.
  - intros Hn. destruct (Z.ltb_spec n 0) as [H|_]; [lia|].
    split; [reflexivity|]. split; [rewrite length_firstn, Hlen; reflexivity|].
    intros x y Hx Hy.
    rewrite <- (firstn_skipn (Z.to_nat n) sorted) in Hsorted.
    exact (sorted_app_rel _ _ _ Hsorted x y Hx Hy).
  - intros Hn. destruct (Z.ltb_spec n 0) as [_|H]; [|lia].
    rewrite length_firstn, Hlen. lia.
Qed.

(** [getTopItems_ranked] on three counted words. *)
Lemma getTopItems_ranked_witness :
  fst (Utils.getTopItems snd [("login", 1); ("export", 3); ("billing", 2)] 2)
  = [("export", 3); ("billing", 2)].
Proof.
  pose proof (getTopItems_ranked snd [("login", 1); ("export", 3); ("billing", 2)] 2) as H.
  destruct (Utils.getTopItems snd [("login", 1); ("export", 3); ("billing", 2)] 2)
    as [top sorted] eqn:E.
  destruct H as (_ & _ & _ & H & _). destruct (H ltac:(lia)) as (-> & _).
  vm_compute in E. injection E as _ <-. reflexivity.
Defined.

(** ** [retryAsync] *)

Lemma calls_app (a b : list Utils.step) : calls (a ++ b) = calls a + calls b.
Proof. induction a as [|[|d] a IH]; cbn [app calls]; [reflexivity | rewrite IH; lia | exact IH]. Qed.

Lemma slept_app (a b : list Utils.step) : (slept (a ++ b) = slept a + slept b)%Z.
Proof. induction a as [|[|d] a IH]; cbn [app slept]; [reflexivity | exact IH | rewrite IH; lia]. Qed.

Section RetryFacts.

Context {T : Type} (fn : nat -> Js.outcome T) (maxRetries initialDelay : Z).

(** The first call that returns ends the loop. *)
Lemma retry_from_success (k : nat) (v : T) :
  forall remaining i lastError done,
    k < remaining -> (Z.of_nat (i + k) < maxRetries)%Z ->
    (forall j, j < k -> exists e, fn (i + j) = Js.Thrown e) ->
    fn (i + k) = Js.Returned v ->
    exists more,
      Utils.retry_from fn maxRetries initialDelay remaining i lastError done
      = (Utils.Resolved v, (done ++ more)%list)
      /\ calls more = S k
      /\ slept more = (initialDelay * (2 ^ Z.of_nat (i + k) - 2 ^ Z.of_nat i))%Z.
Proof.
  induction k as [|k IH]; intros remaining i lastError done Hk Hmax Hfail Hok.
  - destruct remaining as [|remaining]; [lia|]. cbn [Utils.retry_from].
    rewrite Nat.add_0_r in Hok. rewrite Hok. exists [Utils.Called].
    split; [reflexivity|]. split; [reflexivity|].
    rewrite Nat.add_0_r. cbn [slept]. lia.
  - destruct remaining as [|remaining]; [lia|]. cbn [Utils.retry_from].
    destruct (Hfail 0 ltac:(lia)) as [e He]. rewrite Nat.add_0_r in He. rewrite He.
    destruct (Z.ltb_spec (Z.of_nat i) (maxRetries - 1)) as [_|H]; [|lia].
    destruct (IH remaining (S i) (Some e)
                ((done ++ [Utils.Called]) ++ [Utils.Slept (initialDelay * 2 ^ Z.of_nat i)])%list)
      as (more & Hrun & Hcalls & Hslept).
    + lia.
    + replace (S i + k) with (i + S k) by lia. exact Hmax.
    + intros j Hj. replace (S i + j) with (i + S j) by lia. apply Hfail. lia.
    + replace (S i + k) with (i + S k) by lia. exact Hok.
    + exists ([Utils.Called; Utils.Slept (initialDelay * 2 ^ Z.of_nat i)] ++ more)%list.
      split; [rewrite Hrun, <- !app_assoc; reflexivity|].
      split; [cbn [app calls]; rewrite Hcalls; reflexivity|].
      cbn [app slept]. rewrite Hslept.
      replace (S i + k) with (i + S k) by lia.
      rewrite (Nat2Z.inj_succ i), Z.pow_succ_r by lia. lia.
Qed.

(** When every call throws, the last error is thrown after the last
    call, without another wait. *)
Lemma retry_from_failure :
  forall remaining i lastError done,
    1 <= remaining -> Z.of_nat (i + remaining) = maxRetries ->
    (forall j, j < remaining -> exists e, fn (i + j) = Js.Thrown e) ->
    exists more e,
      Utils.retry_from fn maxRetries initialDelay remaining i lastError done
      = (Utils.Rejected (Some e), (done ++ more)%list)
      /\ fn (i + remaining - 1) = Js.Thrown e
      /\ calls more = remaining
      /\ slept more
         = (initialDelay * (2 ^ Z.of_nat (i + remaining - 1) - 2 ^ Z.of_nat i))%Z.
Proof.
  induction remaining as [|remaining IH]; intros i lastError done Hone Hmax Hfail; [lia|].
  cbn [Utils.retry_from].
  destruct (Hfail 0 ltac:(lia)) as [e He]. rewrite Nat.add_0_r in He. rewrite He.
  destruct remaining as [|remaining].
  - destruct (Z.ltb_spec (Z.of_nat i) (maxRetries - 1)) as [H|_]; [lia|].
    cbn [Utils.retry_from]. exists [Utils.Called], e.
    split; [reflexivity|]. replace (i + 1 - 1) with i by lia.
    split; [exact He|]. split; [reflexivity|]. cbn [slept]. lia.
  - destruct (Z.ltb_spec (Z.of_nat i) (maxRetries - 1)) as [_|H]; [|lia].
    destruct (IH (S i) (Some e)
                ((done ++ [Utils.Called]) ++ [Utils.Slept (initialDelay * 2 ^ Z.of_nat i)])%list)
      as (more & e' & Hrun & Hlast & Hcalls & Hslept).
    + lia.
    + lia.
    + intros j Hj. replace (S i + j) with (i + S j) by lia. apply Hfail. lia.
    + exists ([Utils.Called; Utils.Slept (initialDelay * 2 ^ Z.of_nat i)] ++ more)%list, e'.
      split; [rewrite Hrun, <- !app_assoc; reflexivity|].
      split; [replace (i + S (S remaining) - 1) with (S i + S remaining - 1) by lia;
              exact Hlast|].
      split; [cbn [app calls]; rewrite Hcalls; reflexivity|].
      cbn [app slept]. rewrite Hslept.
      replace (i + S (S remaining) - 1) with (S i + S remaining - 1) by lia.
      replace (S i + S remaining - 1) with (S (i + remaining)) by lia.
      rewrite (Nat2Z.inj_succ i), (Nat2Z.inj_succ (i + remaining)), !Z.pow_succ_r by lia.
      lia.
Qed.

End RetryFacts.

(** Property X22. [retryAsync] calls [fn] until a call returns, at most
    [maxRetries] times. It waits between two calls only, each wait twice
    the one before: the call number [k] that returns has been waited for
    [initialDelay * (2^k - 1)] in all, and after the last failure the
    error is thrown at once. With [maxRetries] at most 0, [fn] is not
    called and what is thrown is [undefined]. *)
Theorem retryAsync_backoff {T : Type} (fn : nat -> Js.outcome T)
    (maxRetries initialDelay : Z) :
  let '(result, done) := Utils.retryAsync fn maxRetries initialDelay in
  ((maxRetries <= 0)%Z -> result = Utils.Rejected None /\ done = [])
  /\ (forall k v,
        (Z.of_nat k < maxRetries)%Z ->
        (forall j, j < k -> exists e, fn j = Js.Thrown e) ->
        fn k = Js.Returned v ->
        result = Utils.Resolved v
        /\ calls done = S k
        /\ slept done = (initialDelay * (2 ^ Z.of_nat k - 1))%Z)
  /\ ((0 < maxRetries)%Z ->
      (forall j, (Z.of_nat j < maxRetries)%Z -> exists e, fn j = Js.Thrown e) ->
      exists e,
        fn (Z.to_nat maxRetries - 1) = Js.Thrown e
        /\ result = Utils.Rejected (Some e)
        /\ calls done = Z.to_nat maxRetries
        /\ slept done = (initialDelay * (2 ^ (maxRetries - 1) - 1))%Z).
Proof.
  destruct (Utils.retryAsync fn maxRetries initialDelay) as [result done] eqn:Hrun.
  unfold Utils.retryAsync in Hrun. split; [|split].
  - intros H. replace (Z.to_nat maxRetries) with 0 in Hrun by lia.
    cbn [Utils.retry_from] in Hrun. injection Hrun as <- <-. split; reflexivity.
  - intros k v Hk Hfail Hok.
    destruct (retry_from_success fn maxRetries initialDelay k v
                (Z.to_nat maxRetries) 0 None []) as (more & Hrun' & Hcalls & Hslept);
      [lia | exact Hk | exact Hfail | exact Hok |].
    rewrite Hrun' in Hrun. injection Hrun as <- <-. cbn [app].
    split; [reflexivity|]. split; [exact Hcalls|].
    rewrite Hslept. cbn [Nat.add Z.of_nat]. rewrite Z.pow_0_r. reflexivity.
  - intros Hpos Hfail.
    destruct (retry_from_failure fn maxRetries initialDelay
                (Z.to_nat maxRetries) 0 None [])
      as (more & e & Hrun' & Hlast & Hcalls & Hslept).
    + lia.
    + cbn [Nat.add]. lia.
    + intros j Hj. apply Hfail. lia.
    + rewrite Hrun' in Hrun. injection Hrun as <- <-. cbn [app Nat.add] in *.
      exists e. split; [exact Hlast|]. split; [reflexivity|]. split; [exact Hcalls|].
      rewrite Hslept. cbn [Z.of_nat]. rewrite Z.pow_0_r.
      replace (Z.of_nat (Z.to_nat maxRetries - 1)) with (maxRetries - 1)%Z by lia.
      reflexivity.
Qed.

(** [retryAsync_backoff] with the default three attempts a second
    apart: a function that fails twice is called three times, after three
    seconds of waiting; one that always fails is given up after the same
    three seconds. *)
Lemma retryAsync_backoff_witness :
  let flaky := fun i => if (i <? 2)%nat then Js.Thrown "busy" else Js.Returned i in
  let failing := fun i : nat => @Js.Thrown nat "down" in
  (fst (Utils.retryAsync flaky 3 1000) = Utils.Resolved 2
   /\ slept (snd (Utils.retryAsync flaky 3 1000)) = 3000%Z)
  /\ (fst (Utils.retryAsync failing 3 1000) = Utils.Rejected (Some "down")
      /\ slept (snd (Utils.retryAsync failing 3 1000)) = 3000%Z).
Proof.
  intros flaky failing. split.
  - pose proof (retryAsync_backoff flaky 3 1000) as H.
    destruct (Utils.retryAsync flaky 3 1000) as [result done].
    destruct H as (_ & H & _).
    destruct (H 2 2 ltac:(lia)) as (Hr & _ & Hs).
    + intros j Hj. exists "busy". destruct j as [|[|j]]; [reflexivity | reflexivity | lia].
    + reflexivity.
    + split; [exact Hr | exact Hs].
  - pose proof (retryAsync_backoff failing 3 1000) as H.
    destruct (Utils.retryAsync failing 3 1000) as [result done].
    destruct H as (_ & _ & H).
    destruct (H ltac:(lia)) as (e & He & Hr & _ & Hs).
    + intros j _. exists "down". reflexivity.
    + injection He as <-. split; [exact Hr | exact Hs].
Defined.

(** * Properties of the workflow table *)

Lemma strict_eq_NaN_r (x : Js.number) : Js.strict_eq x Js.NaN = false.
Proof. destruct x; reflexivity. Qed.

Lemma strict_eq_of_Z (a b : Z) : Js.strict_eq (Js.of_Z a) (Js.of_Z b) = (a =? b)%Z.
Proof.
  unfold Js.strict_eq, Js.of_Z, QArith_base.Qeq_bool, QArith_base.inject_Z.
  cbn [QArith_base.Qnum QArith_base.Qden]. rewrite !Z.mul_1_r. reflexivity.
Qed.

Lemma split_on_cons (sep : ascii) (s : string) :
  exists h t, Js.split_on sep s = h :: t.
Proof.
  induction s as [|c s (h & t & IH)]; [eexists _, _; reflexivity|].
  cbn [Js.split_on]. destruct (Ascii.eqb c sep); [eexists _, _; reflexivity|].
  rewrite IH. eexists _, _. reflexivity.
Qed.

Section CronFacts.

Variable Number_ : string -> Js.number.

Lemma checkField_plain (pattern : string) (value : Z) :
  plain_field pattern ->
  Config.checkField Number_ pattern value = Js.strict_eq (Number_ pattern) (Js.of_Z value).
Proof.
  intros (Hstar & Hc & Hs & Hd). unfold Config.checkField.
  destruct (String.eqb_spec pattern "*"); [contradiction|].
  rewrite Hc, Hs, Hd. reflexivity.
Qed.

(** A step from the asterisk compares with [NaN % step]. *)
Lemma checkField_star_step (step : string) (value : Z) :
  Number_ "*" = Js.NaN -> Js.includes ("*/" ++ step) "," = false ->
  Config.checkField Number_ ("*/" ++ step) value = false.
Proof.
  intros Hstar Hcomma. unfold Config.checkField. rewrite Hcomma.
  change ("*/" ++ step) with (String "*" (String "/" step)).
  cbn [String.eqb Ascii.eqb Bool.eqb].
  assert (Js.includes (String "*" (String "/" step)) "/" = true) as ->.
  { destruct step; vm_compute; reflexivity. }
  cbn [Js.split_on Ascii.eqb Bool.eqb].
  destruct (split_on_cons "/" step) as (h & t & ->).
  cbn [map]. rewrite Hstar. cbn [Js.rem]. apply strict_eq_NaN_r.
Qed.

Lemma matches_daily (now : Config.UTC) :
  Number_ "0" = Js.of_Z 0 -> Number_ "9" = Js.of_Z 9 ->
  Config.matchesCron Number_ "0 9 * * *" now
  = Js.Returned ((Config.getUTCMinutes now =? 0)%Z && (Config.getUTCHours now =? 9)%Z).
Proof.
  intros H0 H9. unfold Config.matchesCron.
  change (Js.split_on " " "0 9 * * *") with ["0"; "9"; "*"; "*"; "*"].
  cbn [nth_error Config.check].
  rewrite !checkField_plain by (repeat split; [discriminate | reflexivity..]).
  rewrite H0, H9, !strict_eq_of_Z, (Z.eqb_sym 0), (Z.eqb_sym 9).
  rewrite bool_decide_eq_true_2 by reflexivity.
  change (Config.checkField Number_ "*" _) with true.
  destruct (_ =? 0)%Z; [|reflexivity]. destruct (_ =? 9)%Z; reflexivity.
Qed.

Lemma matches_every_half_hour (now : Config.UTC) :
  Number_ "*" = Js.NaN -> Config.matchesCron Number_ "*/30 * * * *" now = Js.Returned false.
Proof.
  intros Hstar. unfold Config.matchesCron.
  change (Js.split_on " " "*/30 * * * *") with ["*/30"; "*"; "*"; "*"; "*"].
  cbn [nth_error Config.check].
  change "*/30" with ("*/" ++ "30").
  rewrite checkField_star_step by (exact Hstar || reflexivity). reflexivity.
Qed.

Lemma matches_weekday (minute hour day : string) (now : Config.UTC) :
  Number_ day = Js.NaN -> plain_field day ->
  Js.split_on " " (minute ++ " " ++ hour ++ " * * " ++ day) = [minute; hour; "*"; "*"; day] ->
  Config.matchesCron Number_ (minute ++ " " ++ hour ++ " * * " ++ day) now
  = Js.Returned false.
Proof.
  intros Hday Hplain Hsplit. unfold Config.matchesCron. rewrite Hsplit.
  cbn [nth_error Config.check].
  rewrite bool_decide_eq_false_2
    by (intros [= H]; destruct Hplain as [Hne _]; exact (Hne H)).
  rewrite (checkField_plain day) by exact Hplain.
  rewrite Hday. change (Js.strict_eq Js.NaN _) with false.
  change (Config.checkField Number_ "*" _) with true.
  destruct (Config.checkField Number_ minute _); [|reflexivity].
  destruct (Config.checkField Number_ hour _); reflexivity.
Qed.

End CronFacts.

(** Property X23. Of the four workflows of the table only the daily
    analysis can ever be triggered, at 09:00 UTC: the matcher turns the
    asterisk of a step pattern and the name of a weekday into numbers,
    which gives NaN, so the half-hourly alert and the two weekly reports
    match no date at all. In general a step pattern that starts from the
    asterisk, and a field that [Number] does not understand, never
    match. *)
Theorem only_the_daily_workflow_runs (Number_ : string -> Js.number) (now : Config.UTC) :
  Number_ "*" = Js.NaN -> Number_ "MON" = Js.NaN -> Number_ "FRI" = Js.NaN ->
  Number_ "0" = Js.of_Z 0 -> Number_ "9" = Js.of_Z 9 ->
  Config.handleScheduledWithRouting Number_ now
  = (Js.Returned tt,
     if (Config.getUTCMinutes now =? 0)%Z && (Config.getUTCHours now =? 9)%Z
     then ["dailyAnalysis"] else [])
  /\ (forall step value,
        Js.includes ("*/" ++ step) "," = false ->
        Config.checkField Number_ ("*/" ++ step) value = false)
  /\ (forall field value,
        plain_field field -> Number_ field = Js.NaN ->
        Config.checkField Number_ field value = false).
Proof.
  intros Hstar Hmon Hfri H0 H9. split; [|split].
  - unfold Config.handleScheduledWithRouting, Config.workflows.
    cbn [Config.route Config.enabled Config.schedule].
    rewrite (matches_daily Number_ now H0 H9).
    rewrite (matches_every_half_hour Number_ now Hstar).
    change "0 10 * * MON" with ("0" ++ " " ++ "10" ++ " * * " ++ "MON").
    rewrite (matches_weekday Number_ "0" "10" "MON" now Hmon)
      by first [reflexivity | repeat split; [discriminate | reflexivity..]].
    change "0 11 * * FRI" with ("0" ++ " " ++ "11" ++ " * * " ++ "FRI").
    rewrite (matches_weekday Number_ "0" "11" "FRI" now Hfri)
      by first [reflexivity | repeat split; [discriminate | reflexivity..]].
    destruct (_ && _); reflexivity.
  - intros step value Hcomma. apply checkField_star_step; assumption.
  - intros field value Hplain Hnan. rewrite checkField_plain by exact Hplain.
    rewrite Hnan. reflexivity.
Qed.

(** [only_the_daily_workflow_runs] at nine and at half past nine. *)
Lemma only_the_daily_workflow_runs_witness :
  Config.handleScheduledWithRouting decimal nine_o_clock
  = (Js.Returned tt, ["dailyAnalysis"])
  /\ Config.handleScheduledWithRouting decimal half_past_nine = (Js.Returned tt, []).
Proof.
  split.
  - apply (proj1 (only_the_daily_workflow_runs decimal nine_o_clock
                    eq_refl eq_refl eq_refl eq_refl eq_refl)).
  - apply (proj1 (only_the_daily_workflow_runs decimal half_past_nine
                    eq_refl eq_refl eq_refl eq_refl eq_refl)).
Defined.

(** ** [fetchFilteredFeedback] *)

Lemma placeholders_count (l : list string) :
  count_char "?" (Config.placeholders l) = length l.
Proof.
  unfold Config.placeholders. induction l as [|x [|y l] IH]; [reflexivity | reflexivity|].
  change (map (fun _ : string => "?") (x :: y :: l))
    with ("?" :: map (fun _ : string => "?") (y :: l)).
  cbn [Worker.join length] in *.
  destruct (map (fun _ : string => "?") (y :: l)) eqn:E; [discriminate E|].
  rewrite !count_char_app, IH. reflexivity.
Qed.

Lemma validPriorities_cases (m : string) :
  Config.validPriorities m
  = if String.eqb m "P0" then ["P0"]
    else if String.eqb m "P1" then ["P0"; "P1"]
    else if String.eqb m "P2" then ["P0"; "P1"; "P2"]
    else if String.eqb m "P3" then ["P0"; "P1"; "P2"; "P3"]
    else [].
Proof.
  unfold Config.validPriorities, Config.priorities. cbn [Config.indexOf].
  rewrite (String.eqb_sym "P0"), (String.eqb_sym "P1"), (String.eqb_sym "P2"),
    (String.eqb_sym "P3").
  destruct (String.eqb m "P0"); [reflexivity|].
  destruct (String.eqb m "P1"); [reflexivity|].
  destruct (String.eqb m "P2"); [reflexivity|].
  destruct (String.eqb m "P3"); reflexivity.
Qed.

Lemma filtered_statement_placeholders (f : Config.Filters) :
  count_char "?" (fst (Config.fetchFilteredFeedback_statement f))
  = length (snd (Config.fetchFilteredFeedback_statement f)).
Proof.
  unfold Config.fetchFilteredFeedback_statement.
  destruct (configured (Config.minPriority f));
    destruct (Config.given (Config.sentiments f));
    destruct (Config.given (Config.categories f));
    cbn [fst snd app]; rewrite ?length_app, !count_char_app, ?placeholders_count; cbn; lia.
Qed.

Lemma validPriorities_unknown (m : string) :
  ~ In m Config.priorities -> Config.validPriorities m = [].
Proof.
  intros Hout. rewrite validPriorities_cases. unfold Config.priorities in Hout.
  destruct (String.eqb_spec m "P0") as [->|_]; [exfalso; apply Hout; cbn; tauto|].
  destruct (String.eqb_spec m "P1") as [->|_]; [exfalso; apply Hout; cbn; tauto|].
  destruct (String.eqb_spec m "P2") as [->|_]; [exfalso; apply Hout; cbn; tauto|].
  destruct (String.eqb_spec m "P3") as [->|_]; [exfalso; apply Hout; cbn; tauto|].
  reflexivity.
Qed.

Lemma filtered_statement_unknown (f : Config.Filters) (m : string) :
  Config.minPriority f = Some m -> m <> "" -> ~ In m Config.priorities ->
  Js.startsWith (fst (Config.fetchFilteredFeedback_statement f))
    "SELECT * FROM feedback WHERE 1=1 AND priority IN ()" = true
  /\ snd (Config.fetchFilteredFeedback_statement f)
     = ((if Config.given (Config.sentiments f) then default [] (Config.sentiments f) else [])
        ++ (if Config.given (Config.categories f) then default [] (Config.categories f)
            else []))%list.
Proof.
  intros Hm Hne Hout. unfold Config.fetchFilteredFeedback_statement.
  rewrite Hm. cbn [configured default from_option]. unfold id.
  apply nonempty_true in Hne. rewrite Hne.
  rewrite (validPriorities_unknown m Hout).
  destruct (Config.given (Config.sentiments f));
    destruct (Config.given (Config.categories f));
    cbn [fst snd app]; (split; [|rewrite ?app_nil_r; reflexivity]);
    unfold Js.startsWith; rewrite ?str_app_assoc;
    apply String.prefix_correct;
    apply (substring_prefix "SELECT * FROM feedback WHERE 1=1 AND priority IN ()").
Qed.

(** Property X24. The statement [fetchFilteredFeedback] prepares has as
    many placeholders as values are bound to it. A minimum priority
    selects the priorities at least as urgent as it; one that is not a
    priority of the list selects none, so that the statement then asks
    for a priority in the empty list and binds no priority at all. *)
Theorem fetchFilteredFeedback_binds_every_value (f : Config.Filters) :
  let '(query, params) := Config.fetchFilteredFeedback_statement f in
  count_char "?" query = length params
  /\ (forall m p,
        In p (Config.validPriorities m)
        <-> In m Config.priorities /\ In p Config.priorities
            /\ (Config.indexOf p Config.priorities <= Config.indexOf m Config.priorities)%Z)
  /\ (forall m,
        Config.minPriority f = Some m -> m <> "" -> ~ In m Config.priorities ->
        Js.startsWith query "SELECT * FROM feedback WHERE 1=1 AND priority IN ()" = true
        /\ params
           = ((if Config.given (Config.sentiments f)
               then default [] (Config.sentiments f) else [])
              ++ (if Config.given (Config.categories f)
                  then default [] (Config.categories f) else []))%list).
Proof.
  pose proof (filtered_statement_placeholders f) as Hcount.
  pose proof (filtered_statement_unknown f) as Hunknown.
  destruct (Config.fetchFilteredFeedback_statement f) as [query params].
  cbn [fst snd] in *. split; [exact Hcount|]. split; [|exact Hunknown].
  intros m p. rewrite validPriorities_cases. unfold Config.priorities.
  destruct (String.eqb_spec m "P0") as [->|H0];
    [|destruct (String.eqb_spec m "P1") as [->|H1];
      [|destruct (String.eqb_spec m "P2") as [->|H2];
        [|destruct (String.eqb_spec m "P3") as [->|H3]]]].
  1-4: (split;
        [ intros Hin; cbn [In] in Hin;
          repeat (destruct Hin as [<-|Hin];
                  [split; [cbn; auto 6 | split; [cbn; auto 6 | vm_compute; discriminate]]|]);
          destruct Hin
        | intros (_ & Hp & Hle); cbn [In] in Hp;
          destruct Hp as [<-|[<-|[<-|[<-|[]]]]];
          first [ cbn [In]; solve [auto 6]
                | exfalso; vm_compute in Hle; apply Hle; reflexivity ] ]).
  split; [intros [] | intros (Hm & _)].
  cbn [In] in Hm. destruct Hm as [<-|[<-|[<-|[<-|[]]]]]; congruence.
Qed.

(** [fetchFilteredFeedback_binds_every_value] with the minimum priority
    "urgent": only the sentiment is bound. *)
Lemma fetchFilteredFeedback_binds_every_value_witness :
  snd (Config.fetchFilteredFeedback_statement urgent_only) = ["negative"].
Proof.
  pose proof (fetchFilteredFeedback_binds_every_value urgent_only) as H.
  destruct (Config.fetchFilteredFeedback_statement urgent_only) as [query params].
  destruct H as (_ & _ & H).
  destruct (H "urgent" eq_refl ltac:(discriminate)) as (_ & ->).
  - unfold Config.priorities. cbn [In]. intros [H'|[H'|[H'|[H'|[]]]]]; discriminate H'.
  - reflexivity.
Defined.
